(** * Storage-container lifecycle scripts: a shallow embedding

    The repository holds three command-line scripts that create, delete and
    inspect object-storage containers:

    - [src/aws/02-storage/02-bucket-python.py]          (S3, boto3)
    - [src/gcp/02-storage/02-python-bucket.py]          (GCS, google-cloud-storage)
    - [src/azure/02-storage/02-azure-storage-python.py] (Azure Blob, azure-mgmt)

    Every script function is embedded as a computation over an explicit
    machine state: the state of the cloud provider (abstract, reached only
    through the SDK methods the script calls) and the chronological list of
    events the run produced (SDK calls with the way they ended, and lines
    written to the terminal or the logger).  A computation ends the way a
    Python call does: it returns a value, it raises an exception, or it
    leaves through [sys.exit]. *)

From Stdlib Require Import ZArith List String Ascii Bool Lia.
From stdpp Require Import base decidable option strings list gmap.

Local Open Scope string_scope.
Local Open Scope Z_scope.

(* ===================================================================== *)
(** * Python strings and integers *)
(* ===================================================================== *)

Module PyStr.

(** [s[:n]] *)
Fixpoint slice_to (n : nat) (s : string) : string :=
  match n, s with
  | O, _ => EmptyString
  | S _, EmptyString => EmptyString
  | S n', String c s' => String c (slice_to n' s')
  end.

(** [s[k:]] for [k >= 0] *)
Fixpoint slice_from (k : nat) (s : string) : string :=
  match k, s with
  | O, _ => s
  | S _, EmptyString => EmptyString
  | S k', String _ s' => slice_from k' s'
  end.

(** [s[-n:]] for [n > 0]: the last [n] characters, or all of [s] when it is
    shorter. *)
Definition slice_last (n : nat) (s : string) : string :=
  slice_from (String.length s - n)%nat s.

(** [s.replace(c, '')] for a one-character [c]. *)
Fixpoint remove_char (c : ascii) (s : string) : string :=
  match s with
  | EmptyString => EmptyString
  | String a s' =>
      if Ascii.eqb a c then remove_char c s' else String a (remove_char c s')
  end.

(** The decimal digit of [d] in [0..9]. *)
Definition digit_char (d : Z) : ascii := ascii_of_nat (48 + Z.to_nat d).

(** Digits of [n >= 0], most significant first, in front of [acc]. *)
Fixpoint digits_before (fuel : nat) (n : Z) (acc : string) : string :=
  let acc' := String (digit_char (n mod 10)) acc in
  match fuel with
  | O => acc'
  | S fuel' => if n <? 10 then acc' else digits_before fuel' (n / 10) acc'
  end.

(** A number below [2^k] has at most [k] decimal digits, so the binary size
    is enough fuel. *)
Definition digits (n : Z) : string :=
  digits_before (Z.to_nat (Z.log2 n)) n EmptyString.

(** [str(z)] for an [int]. *)
Definition str_of_int (z : Z) : string :=
  if z <? 0 then String "-" (digits (- z)) else digits z.

(** The number a string of decimal digits stands for, read after [acc]. *)
Fixpoint int_of_digits (acc : Z) (s : string) : Z :=
  match s with
  | EmptyString => acc
  | String c s' => int_of_digits (10 * acc + Z.of_nat (nat_of_ascii c) - 48) s'
  end.

(** The four low decimal digits of [t], as characters. *)
Definition four_digits (t : Z) : string :=
  String (digit_char (t / 1000 mod 10))
    (String (digit_char (t / 100 mod 10))
       (String (digit_char (t / 10 mod 10))
          (String (digit_char (t mod 10)) EmptyString))).

(** ASCII part of [str.lower()]. *)
Definition lower_ascii (c : ascii) : ascii :=
  let n := nat_of_ascii c in
  if ((65 <=? n) && (n <=? 90))%nat then ascii_of_nat (n + 32) else c.

Fixpoint lower (s : string) : string :=
  match s with
  | EmptyString => EmptyString
  | String c s' => String (lower_ascii c) (lower s')
  end.

End PyStr.

(* ===================================================================== *)
(** * MD5 (RFC 1321), as [hashlib.md5(...).hexdigest()] computes it *)
(* ===================================================================== *)

Module MD5.

Definition w32 (x : Z) : Z := x mod 2 ^ 32.

Definition rotl (x : Z) (c : Z) : Z :=
  w32 (Z.lor (Z.shiftl x c) (Z.shiftr (w32 x) (32 - c))).

Definition shifts : list Z :=
  [ 7; 12; 17; 22; 7; 12; 17; 22; 7; 12; 17; 22; 7; 12; 17; 22;
    5; 9; 14; 20; 5; 9; 14; 20; 5; 9; 14; 20; 5; 9; 14; 20;
    4; 11; 16; 23; 4; 11; 16; 23; 4; 11; 16; 23; 4; 11; 16; 23;
    6; 10; 15; 21; 6; 10; 15; 21; 6; 10; 15; 21; 6; 10; 15; 21 ].

Definition sines : list Z :=
  [ 3614090360; 3905402710; 606105819; 3250441966;
    4118548399; 1200080426; 2821735955; 4249261313;
    1770035416; 2336552879; 4294925233; 2304563134;
    1804603682; 4254626195; 2792965006; 1236535329;
    4129170786; 3225465664; 643717713; 3921069994;
    3593408605; 38016083; 3634488961; 3889429448;
    568446438; 3275163606; 4107603335; 1163531501;
    2850285829; 4243563512; 1735328473; 2368359562;
    4294588738; 2272392833; 1839030562; 4259657740;
    2763975236; 1272893353; 4139469664; 3200236656;
    681279174; 3936430074; 3572445317; 76029189;
    3654602809; 3873151461; 530742520; 3299628645;
    4096336452; 1126891415; 2878612391; 4237533241;
    1700485571; 2399980690; 4293915773; 2240044497;
    1873313359; 4264355552; 2734768916; 1309151649;
    4149444226; 3174756917; 718787259; 3951481745 ].

Record regs := Regs { rA : Z; rB : Z; rC : Z; rD : Z }.

Definition init : regs :=
  Regs 1732584193 4023233417 2562383102 271733878.

Definition lnot32 (x : Z) : Z := Z.lxor x 4294967295.

(** One of the 64 operations of a block; [m] holds the block's 16 words. *)
Definition step (m : list Z) (r : regs) (i : nat) : regs :=
  let '(Regs a b c d) := r in
  let iz := Z.of_nat i in
  let '(f, g) :=
    if iz <? 16 then (Z.lor (Z.land b c) (Z.land (lnot32 b) d), iz)
    else if iz <? 32 then
      (Z.lor (Z.land d b) (Z.land (lnot32 d) c), (5 * iz + 1) mod 16)
    else if iz <? 48 then (Z.lxor b (Z.lxor c d), (3 * iz + 5) mod 16)
    else (Z.lxor c (Z.lor b (lnot32 d)), (7 * iz) mod 16) in
  let f' := w32 (f + a + nth i sines 0 + nth (Z.to_nat g) m 0) in
  Regs d (w32 (b + rotl f' (nth i shifts 0))) b c.

Definition block (r : regs) (m : list Z) : regs :=
  let r' := fold_left (step m) (seq 0 64) r in
  Regs (w32 (rA r + rA r')) (w32 (rB r + rB r'))
       (w32 (rC r + rC r')) (w32 (rD r + rD r')).

(** Little-endian bytes of a word, and back. *)
Definition le_bytes (n : nat) (x : Z) : list Z :=
  map (fun k => Z.shiftr x (8 * Z.of_nat k) mod 256) (seq 0 n).

Fixpoint le_word (bs : list Z) : Z :=
  match bs with
  | [] => 0
  | b :: bs' => b + 256 * le_word bs'
  end.

Fixpoint words (n : nat) (bs : list Z) : list Z :=
  match n with
  | O => []
  | S n' => le_word (take 4 bs) :: words n' (drop 4 bs)
  end.

Fixpoint blocks (n : nat) (bs : list Z) : list (list Z) :=
  match n with
  | O => []
  | S n' => words 16 (take 64 bs) :: blocks n' (drop 64 bs)
  end.

Definition pad (msg : list Z) : list Z :=
  let len := Z.of_nat (length msg) in
  let zeros := Z.to_nat ((55 - len) mod 64) in
  msg ++ [128] ++ repeat 0 zeros ++ le_bytes 8 (8 * len).

Definition digest (msg : list Z) : list Z :=
  let p := pad msg in
  let r := fold_left block (blocks (length p / 64) p) init in
  le_bytes 4 (rA r) ++ le_bytes 4 (rB r) ++ le_bytes 4 (rC r) ++ le_bytes 4 (rD r).

Definition hex_char (d : Z) : ascii :=
  if d <? 10 then ascii_of_nat (48 + Z.to_nat d) else ascii_of_nat (87 + Z.to_nat d).

Fixpoint hex (bs : list Z) : string :=
  match bs with
  | [] => EmptyString
  | b :: bs' => String (hex_char (b / 16)) (String (hex_char (b mod 16)) (hex bs'))
  end.

(** The sixteen characters [hexdigest()] writes with. *)
Definition hex_digits : list ascii := list_ascii_of_string "0123456789abcdef".

Definition bytes_of (s : string) : list Z :=
  map (fun c => Z.of_nat (nat_of_ascii c)) (list_ascii_of_string s).

(** [hashlib.md5(s.encode()).hexdigest()] on a string of ASCII characters,
    whose UTF-8 encoding is the characters themselves. *)
Definition hexdigest (s : string) : string := hex (digest (bytes_of s)).

End MD5.

(* ===================================================================== *)
(** * Python control flow over an external service *)
(* ===================================================================== *)

Module Py.

(** How a method of an SDK client ends: it returns, or it raises. *)
Inductive reply (E R : Type) : Type :=
  | Ok (r : R)
  | Err (e : E).
Arguments Ok {E R} r.
Arguments Err {E R} e.

(** What a run leaves behind, in order: the SDK methods it called, each with
    the exception it raised if it did, and the lines it wrote. *)
Inductive event (C E P : Type) : Type :=
  | Called (c : C) (raised : option E)
  | Printed (p : P).
Arguments Called {C E P} c raised.
Arguments Printed {C E P} p.

(** How a Python call ends.  [sys.exit(n)] raises [SystemExit], which no
    [except ClientError] and no [except Exception] clause catches, so it is
    kept apart from the exceptions of the SDK. *)
Inductive ending (E A : Type) : Type :=
  | Returns (a : A)
  | Raises (e : E)
  | Exits (status : Z).
Arguments Returns {E A} a.
Arguments Raises {E A} e.
Arguments Exits {E A} status.

Section Effects.
Context {W C E P : Type}.

Record machine : Type := Machine { cloud : W; history : list (event C E P) }.

Definition M (A : Type) : Type := machine -> ending E A * machine.

Definition ret {A} (a : A) : M A := fun m => (Returns a, m).

Definition bind {A B} (x : M A) (k : A -> M B) : M B :=
  fun m =>
    match x m with
    | (Returns a, m') => k a m'
    | (Raises e, m') => (Raises e, m')
    | (Exits n, m') => (Exits n, m')
    end.

Definition raise {A} (e : E) : M A := fun m => (Raises e, m).

(** [sys.exit(n)] *)
Definition sys_exit {A} (n : Z) : M A := fun m => (Exits n, m).

(** [print(...)], [logger.info(...)], [logger.error(...)]: the line is
    written.  A standard output that refuses the text (a closed pipe, a
    character its encoding lacks) makes Python's [print] raise; that is not
    modelled, so what is proved below is about runs whose lines get
    written. *)
Definition print (p : P) : M unit :=
  fun m => (Returns tt, Machine (cloud m) (history m ++ [Printed p])).

(** A call of an SDK method: the provider's state moves on, the call is
    recorded, and the method's reply becomes a return or a raise. *)
Definition sdk {R} (c : C) (method : W -> reply E R * W) : M R :=
  fun m =>
    match method (cloud m) with
    | (Ok v, w) => (Returns v, Machine w (history m ++ [Called c None]))
    | (Err e, w) => (Raises e, Machine w (history m ++ [Called c (Some e)]))
    end.

(** [try: body  except ...: handler].  [handler e] is [None] when no
    [except] clause matches [e], which then propagates. *)
Definition try_except {A} (body : M A) (handler : E -> option (M A)) : M A :=
  fun m =>
    match body m with
    | (Raises e, m') =>
        match handler e with
        | Some h => h m'
        | None => (Raises e, m')
        end
    | r => r
    end.

(** A run from a provider state, with nothing recorded yet: how it ends,
    what it leaves recorded, and the provider state it leaves. *)
Definition boot (w : W) : machine := Machine w [].

Definition result {A} (x : M A) (w : W) : ending E A := fst (x (boot w)).

Definition trace {A} (x : M A) (w : W) : list (event C E P) :=
  history (snd (x (boot w))).

Definition after {A} (x : M A) (w : W) : W := cloud (snd (x (boot w))).

End Effects.

Arguments machine : clear implicits.
Arguments M : clear implicits.

#[global] Instance M_ret {W C E P} : MRet (M W C E P) := fun A => ret.
#[global] Instance M_bind {W C E P} : MBind (M W C E P) := fun A B k x => bind x k.

(** The exception a reply raised, if it did. *)
Definition raised {E R} (r : reply E R) : option E :=
  match r with
  | Ok _ => None
  | Err e => Some e
  end.

(** The SDK calls of a history, in order. *)
Definition calls {C E P} (h : list (event C E P)) : list C :=
  omap (fun ev => match ev with Called c _ => Some c | Printed _ => None end) h.

(** The lines of a history, in order. *)
Definition output {C E P} (h : list (event C E P)) : list P :=
  omap (fun ev => match ev with Printed p => Some p | Called _ _ => None end) h.

(** A provider state shared with one concurrent actor: [rival], when
    present, is what that actor will do to the state.  A [quiet] method
    leaves the actor waiting; a [raced] method replies and the actor then
    acts, once. *)
Definition quiet {W E R} (method : W -> reply E R * W)
    : W * option (W -> W) -> reply E R * (W * option (W -> W)) :=
  fun '(w, rival) => let (r, w') := method w in (r, (w', rival)).

Definition raced {W E R} (method : W -> reply E R * W)
    : W * option (W -> W) -> reply E R * (W * option (W -> W)) :=
  fun '(w, rival) =>
    let (r, w') := method w in
    (r, (match rival with Some act => act w' | None => w' end, None)).

End Py.

Import Py.

(* ===================================================================== *)
(** * A function called from a larger script *)
(* ===================================================================== *)

Section Embedding.
Context {W C C' E P P' : Type}.

(** An event of a callee, as the caller's history records it. *)
Definition relabel (fc : C -> C') (fp : P -> P') (ev : event C E P)
    : event C' E P' :=
  match ev with
  | Called c raised => Called (fc c) raised
  | Printed p => Printed (fp p)
  end.

(** A call of a function whose calls and lines are among the caller's: it
    runs on the provider state of the moment, and what it records is added
    to what the caller has recorded. *)
Definition embed {A} (fc : C -> C') (fp : P -> P') (x : M W C E P A)
    : M W C' E P' A :=
  fun m =>
    let (r, m') := x (boot (cloud m)) in
    (r, Machine (cloud m') (history m ++ map (relabel fc fp) (history m'))).

End Embedding.

(** [for x in xs: body(x)] *)
Fixpoint for_each {W C E P A} (xs : list A) (body : A -> M W C E P unit)
    : M W C E P unit :=
  match xs with
  | [] => mret tt
  | x :: rest => body x ;; for_each rest body
  end.

(** Python's truth value of an optional string: [None] and [''] are false. *)
Definition truthy (s : option string) : bool :=
  match s with
  | None => false
  | Some EmptyString => false
  | Some (String _ _) => true
  end.

(* ===================================================================== *)
(** * AWS: [src/aws/02-storage/02-bucket-python.py] *)
(* ===================================================================== *)

Module AWS.

(** The exceptions boto3 raises.  [ClientError] carries
    [e.response['Error']['Code']]; every other exception class
    ([NoCredentialsError], [EndpointConnectionError], ...) is not a
    [ClientError] and is named by its class. *)
Inductive exn : Type :=
  | ClientError (error_code : string)
  | OtherException (class_name : string).

(** An entry of [response['Buckets']]. *)
Record bucket_entry : Type := { Name : string; CreationDate : string }.

(** The methods the script calls, as recorded in the history. *)
Inductive api : Type :=
  | HeadBucket (bucket : string)
  | CreateBucket (bucket : string) (location_constraint : option string)
  | ObjectsDelete (region bucket : string)
  | DeleteBucket (bucket : string)
  | GetBucketLocation (bucket : string)
  | ListBuckets.

(** The lines the script writes (the text is in the source at the call). *)
Inductive line : Type :=
  | AccessDenied                                   (* line 43 *)
  | ErrorCheckingBucket (e : exn)                  (* line 46 *)
  | AlreadyExistsSkipping (bucket : string)        (* line 52 *)
  | CreatingBucket (bucket region : string)        (* line 55 *)
  | SuccessfullyCreated (bucket : string)          (* line 67 *)
  | AlreadyExistsDifferentRegion (bucket : string) (* line 73 *)
  | AlreadyOwnedByYou (bucket : string)            (* line 76 *)
  | FailedToCreate (e : exn)                       (* line 79 *)
  | DoesNotExistSkipping (bucket : string)         (* line 85 *)
  | DeletingBucket (bucket : string)               (* line 88 *)
  | AttemptingToEmpty                              (* line 92 *)
  | EmptiedContents                                (* line 96 *)
  | CouldNotBeEmptied (e : exn)                    (* line 98 *)
  | SuccessfullyDeleted (bucket : string)          (* line 103 *)
  | FailedToDelete (e : exn)                       (* line 106 *)
  | BucketExists (bucket : string)                 (* line 112 *)
  | Region (region : option string)                (* line 118 *)
  | Created (creation_date : string)               (* line 124 *)
  | CouldNotRetrieveDetails (e : exn)              (* line 128 *)
  | BucketDoesNotExist (bucket : string).          (* line 132 *)

(** The S3 service as the script reaches it, over any provider state [W].
    [s3_objects_delete] stands for lines 93 to 95:
    [boto3.resource('s3', region_name=region).Bucket(name).objects.all().delete()].
    [s3_get_bucket_location] returns the response's [LocationConstraint]
    entry: [None] when the key is missing, [Some None] when it holds
    Python's [None]. *)
Record S3 (W : Type) : Type := {
  s3_head_bucket : string -> W -> reply exn unit * W;
  s3_create_bucket : string -> option string -> W -> reply exn unit * W;
  s3_objects_delete : string -> string -> W -> reply exn unit * W;
  s3_delete_bucket : string -> W -> reply exn unit * W;
  s3_get_bucket_location : string -> W -> reply exn (option (option string)) * W;
  s3_list_buckets : W -> reply exn (list bucket_entry) * W
}.
Arguments s3_head_bucket {W}.
Arguments s3_create_bucket {W}.
Arguments s3_objects_delete {W}.
Arguments s3_delete_bucket {W}.
Arguments s3_get_bucket_location {W}.
Arguments s3_list_buckets {W}.

Section Script.
Context {W : Type}.

Local Abbreviation M := (Py.M W api exn line).

(** Lines 33 to 47. *)
Definition bucket_exists (s3_client : S3 W) (bucket_name : string) : M bool :=
  try_except
    (sdk (HeadBucket bucket_name) (s3_head_bucket s3_client bucket_name) ;;
     mret true)
    (fun e =>
       match e with
       | ClientError error_code =>
           Some (if String.eqb error_code "404" then mret false
                 else if String.eqb error_code "403" then
                   print AccessDenied ;; sys_exit 1
                 else
                   print (ErrorCheckingBucket e) ;; sys_exit 1)
       | OtherException _ => None
       end).

(** Lines 49 to 80. *)
Definition create_bucket (s3_client : S3 W) (bucket_name region : string) : M bool :=
  present ← bucket_exists s3_client bucket_name;
  if present : bool then
    print (AlreadyExistsSkipping bucket_name) ;; mret true
  else
    print (CreatingBucket bucket_name region) ;;
    try_except
      ((if String.eqb region "us-east-1" then
          sdk (CreateBucket bucket_name None)
              (s3_create_bucket s3_client bucket_name None)
        else
          sdk (CreateBucket bucket_name (Some region))
              (s3_create_bucket s3_client bucket_name (Some region))) ;;
       print (SuccessfullyCreated bucket_name) ;;
       mret true)
      (fun e =>
         match e with
         | ClientError error_code =>
             Some (if String.eqb error_code "BucketAlreadyExists" then
                     print (AlreadyExistsDifferentRegion bucket_name) ;; mret true
                   else if String.eqb error_code "BucketAlreadyOwnedByYou" then
                     print (AlreadyOwnedByYou bucket_name) ;; mret true
                   else
                     print (FailedToCreate e) ;; mret false)
         | OtherException _ => None
         end).

(** Lines 82 to 107. *)
Definition delete_bucket (s3_client : S3 W) (bucket_name region : string) : M bool :=
  present ← bucket_exists s3_client bucket_name;
  if negb present then
    print (DoesNotExistSkipping bucket_name) ;; mret true
  else
    print (DeletingBucket bucket_name) ;;
    try_except
      (print AttemptingToEmpty ;;
       sdk (ObjectsDelete region bucket_name)
           (s3_objects_delete s3_client region bucket_name) ;;
       print EmptiedContents)
      (fun e =>
         match e with
         | ClientError _ => Some (print (CouldNotBeEmptied e))
         | OtherException _ => None
         end) ;;
    try_except
      (sdk (DeleteBucket bucket_name) (s3_delete_bucket s3_client bucket_name) ;;
       print (SuccessfullyDeleted bucket_name) ;;
       mret true)
      (fun e =>
         match e with
         | ClientError _ => Some (print (FailedToDelete e) ;; mret false)
         | OtherException _ => None
         end).

(** [location.get('LocationConstraint', 'us-east-1')] *)
Definition location_constraint_or_default
    (location : option (option string)) : option string :=
  match location with
  | Some v => v
  | None => Some "us-east-1"
  end.

(** The loop of lines 122 to 125: the first entry of that name is printed. *)
Fixpoint print_creation_date (bucket_name : string)
    (buckets : list bucket_entry) : M unit :=
  match buckets with
  | [] => mret tt
  | bucket :: rest =>
      if String.eqb (Name bucket) bucket_name then
        print (Created (CreationDate bucket))
      else print_creation_date bucket_name rest
  end.

(** Lines 109 to 133. *)
Definition check_bucket (s3_client : S3 W) (bucket_name : string) : M bool :=
  present ← bucket_exists s3_client bucket_name;
  if present : bool then
    print (BucketExists bucket_name) ;;
    try_except
      (location ← sdk (GetBucketLocation bucket_name)
                      (s3_get_bucket_location s3_client bucket_name);
       print (Region (location_constraint_or_default location)) ;;
       buckets ← sdk ListBuckets (s3_list_buckets s3_client);
       print_creation_date bucket_name buckets)
      (fun e =>
         match e with
         | ClientError _ => Some (print (CouldNotRetrieveDetails e))
         | OtherException _ => None
         end) ;;
    mret true
  else
    print (BucketDoesNotExist bucket_name) ;; mret false.

End Script.

End AWS.

(* ===================================================================== *)
(** * GCP: [src/gcp/02-storage/02-python-bucket.py] *)
(* ===================================================================== *)

Module GCP.

(** The exceptions the client library raises: [NotFound] and [Conflict] of
    [google.api_core.exceptions], which the script names, [Forbidden] of the
    same module, and every other subclass of [Exception], by its class. *)
Inductive exn : Type :=
  | NotFound
  | Conflict
  | Forbidden
  | OtherException (class_name : string).

(** A [storage.Bucket] object with the attributes the script reads or sets.
    An attribute the server has not filled in is Python's [None]. *)
Record bucket : Type := {
  name : string;
  location : option string;
  storage_class : option string;
  time_created : option string
}.

(** A [storage.Client], bound to its project. *)
Record client : Type := { project : string }.

Inductive api : Type :=
  | NewClient (project_id : string)             (* storage.Client(project=...) *)
  | GetBucket (bucket_name : string)            (* client.get_bucket(name) *)
  | CreateBucket (b : bucket)                   (* client.create_bucket(bucket) *)
  | ListBlobs (bucket_name : string)            (* list(bucket.list_blobs()) *)
  | DeleteBlobs (bucket_name : string) (blobs : list string)
  | BucketDelete (bucket_name : string).        (* bucket.delete() *)

Inductive line : Type :=
  | AlreadyExistsSkipping (bucket_name : string)            (* line 20 *)
  | CreatedSuccessfully (bucket_name location : string)     (* line 31 *)
  | AlreadyExistsConflict (bucket_name : string)            (* line 35 *)
  | FailedToCreate (bucket_name : string) (e : exn)         (* line 38 *)
  | DoesNotExistSkipping (bucket_name : string)             (* line 50 *)
  | AttemptingToDeleteObjects (bucket_name : string)        (* line 54 *)
  | DeletedObjects (count : nat)                            (* line 59 *)
  | WarningCouldNotDeleteObjects (e : exn)                  (* line 61 *)
  | DeletedSuccessfully (bucket_name : string)              (* line 65 *)
  | DoesNotExist (bucket_name : string)                     (* line 69 *)
  | FailedToDelete (bucket_name : string) (e : exn)         (* line 72 *)
  | BucketExists (bucket_name : string)                     (* line 80 *)
  | Location (value : option string)                        (* line 81 *)
  | StorageClass (value : option string)                    (* line 82 *)
  | Created (value : option string)                         (* line 83 *)
  | BucketDoesNotExist (bucket_name : string)               (* line 86 *)
  | ErrorChecking (bucket_name : string) (e : exn).         (* line 89 *)

(** Cloud Storage as the script reaches it, over any provider state [W]. *)
Record GCS (W : Type) : Type := {
  gcs_Client : string -> W -> reply exn client * W;
  gcs_get_bucket : client -> string -> W -> reply exn bucket * W;
  gcs_create_bucket : client -> bucket -> W -> reply exn bucket * W;
  gcs_list_blobs : bucket -> W -> reply exn (list string) * W;
  gcs_delete_blobs : bucket -> list string -> W -> reply exn unit * W;
  gcs_bucket_delete : bucket -> W -> reply exn unit * W
}.
Arguments gcs_Client {W}.
Arguments gcs_get_bucket {W}.
Arguments gcs_create_bucket {W}.
Arguments gcs_list_blobs {W}.
Arguments gcs_delete_blobs {W}.
Arguments gcs_bucket_delete {W}.

Section Script.
Context {W : Type}.

Local Abbreviation M := (Py.M W api exn line).

(** Lines 12 to 39.  The inner [try] returns [true] where the script
    returns from the function and [false] where it passes on to the
    creation. *)
Definition create_bucket (storage : GCS W)
    (bucket_name location project_id storage_class : string) : M bool :=
  try_except
    (storage_client ← sdk (NewClient project_id) (gcs_Client storage project_id);
     returned ← try_except
       (sdk (GetBucket bucket_name)
            (gcs_get_bucket storage storage_client bucket_name) ;;
        print (AlreadyExistsSkipping bucket_name) ;;
        mret true)
       (fun e =>
          match e with
          | NotFound => Some (mret false)
          | _ => None
          end);
     if returned : bool then mret true
     else
       let bucket := {| name := bucket_name;
                        location := Some location;
                        storage_class := Some storage_class;
                        time_created := None |} in
       bucket ← sdk (CreateBucket bucket)
                    (gcs_create_bucket storage storage_client bucket);
       print (CreatedSuccessfully (name bucket) location) ;;
       mret true)
    (fun e =>
       match e with
       | Conflict => Some (print (AlreadyExistsConflict bucket_name) ;; mret false)
       | _ => Some (print (FailedToCreate bucket_name e) ;; mret false)
       end).

(** The call of line 112: [storage_class] takes its default. *)
Definition create_bucket_default (storage : GCS W)
    (bucket_name location project_id : string) : M bool :=
  create_bucket storage bucket_name location project_id "STANDARD".

(** Lines 41 to 73. *)
Definition delete_bucket (storage : GCS W)
    (bucket_name project_id : string) : M bool :=
  try_except
    (storage_client ← sdk (NewClient project_id) (gcs_Client storage project_id);
     found ← try_except
       (bucket ← sdk (GetBucket bucket_name)
                     (gcs_get_bucket storage storage_client bucket_name);
        mret (Some bucket))
       (fun e =>
          match e with
          | NotFound => Some (print (DoesNotExistSkipping bucket_name) ;; mret None)
          | _ => None
          end);
     match found with
     | None => mret true
     | Some bucket =>
         print (AttemptingToDeleteObjects bucket_name) ;;
         try_except
           (blobs ← sdk (ListBlobs (name bucket)) (gcs_list_blobs storage bucket);
            match blobs with
            | [] => mret tt
            | _ :: _ =>
                sdk (DeleteBlobs (name bucket) blobs)
                    (gcs_delete_blobs storage bucket blobs) ;;
                print (DeletedObjects (length blobs))
            end)
           (fun e => Some (print (WarningCouldNotDeleteObjects e))) ;;
         sdk (BucketDelete (name bucket)) (gcs_bucket_delete storage bucket) ;;
         print (DeletedSuccessfully bucket_name) ;;
         mret true
     end)
    (fun e =>
       match e with
       | NotFound => Some (print (DoesNotExist bucket_name) ;; mret true)
       | _ => Some (print (FailedToDelete bucket_name e) ;; mret false)
       end).

(** Lines 75 to 90. *)
Definition check_bucket (storage : GCS W)
    (bucket_name project_id : string) : M bool :=
  try_except
    (storage_client ← sdk (NewClient project_id) (gcs_Client storage project_id);
     bucket ← sdk (GetBucket bucket_name)
                  (gcs_get_bucket storage storage_client bucket_name);
     print (BucketExists bucket_name) ;;
     print (Location (location bucket)) ;;
     print (StorageClass (storage_class bucket)) ;;
     print (Created (time_created bucket)) ;;
     mret true)
    (fun e =>
       match e with
       | NotFound => Some (print (BucketDoesNotExist bucket_name) ;; mret false)
       | _ => Some (print (ErrorChecking bucket_name e) ;; mret false)
       end).

End Script.

End GCP.

(* ===================================================================== *)
(** * Azure: [src/azure/02-storage/02-azure-storage-python.py] *)
(* ===================================================================== *)

Module Azure.

(** The exceptions of [azure.core.exceptions]: the two subclasses of
    [HttpResponseError] the script names, any other HTTP error response by
    its status code, and every other subclass of [Exception] by its class. *)
Inductive exn : Type :=
  | ResourceExistsError
  | ResourceNotFoundError
  | HttpResponseError (status_code : Z)
  | OtherException (class_name : string).

(** [AzureStorageManager]: the fields the methods read. *)
Record manager : Type := { resource_group : string; region : string }.

(** A [BlobServiceClient], known by the [AccountName] and [AccountKey] of
    the connection string it was built from (lines 86 to 92). *)
Record blob_service : Type := { account_name : string; account_key : string }.

(** The value of [get_container_properties()]. [lease] is the lease's
    status, or [None] when [properties.lease] is false. *)
Record container_properties : Type := {
  name : string;
  last_modified : string;
  etag : string;
  lease : option string
}.

Inductive api : Type :=
  | GetProperties (resource_group account : string)
  | ListKeys (resource_group account : string)
  | BeginCreate (resource_group account location : string)
  | PollerResult (account : string)
  | ContainerExists (service : blob_service) (container : string)
  | CreateContainer (service : blob_service) (container : string)
  | DeleteContainer (service : blob_service) (container : string)
  | GetContainerProperties (service : blob_service) (container : string).

Inductive line : Type :=
  | ErrorCheckingStorageAccount (e : exn)                        (* line 66 *)
  | ErrorCheckingContainer (e : exn)                             (* line 76 *)
  | FailedToGetBlobServiceClient (e : exn)                       (* line 94 *)
  | AccountAlreadyExistsSkipping (account : string)              (* line 100 *)
  | CreatingStorageAccount (account region : string)             (* line 103 *)
  | SuccessfullyCreatedAccount (account : string)                (* line 121 *)
  | AccountCreatedByAnotherProcess (account : string)            (* line 124 *)
  | FailedToCreateAccount (e : exn)                              (* line 127 *)
  | ContainerAlreadyExistsSkipping (container : string)          (* line 137 *)
  | CreatingContainer (container account : string)               (* line 140 *)
  | SuccessfullyCreatedContainer (container : string)            (* line 145 *)
  | ContainerCreatedByAnotherProcess (container : string)        (* line 148 *)
  | FailedToCreateContainer (e : exn)                            (* line 151 *)
  | ContainerDoesNotExistSkipping (container : string)           (* line 157 *)
  | DeletingContainer (container : string)                       (* line 160 *)
  | SuccessfullyDeletedContainer (container : string)            (* line 166 *)
  | ContainerAlreadyDeleted (container : string)                 (* line 169 *)
  | FailedToDeleteContainer (e : exn)                            (* line 172 *)
  | ContainerDoesNotExist (container : string)                   (* line 178 *)
  | ContainerExistsLine (container : string)                     (* line 181 *)
  | ContainerDetails (name last_modified etag lease_status : string) (* 188-192 *)
  | CouldNotRetrieveDetails (e : exn).                           (* line 196 *)

(** The management plane ([StorageManagementClient.storage_accounts]) and
    the data plane (a [BlobServiceClient] and its container clients) as the
    script reaches them.  [az_list_keys] returns the [value] of each entry
    of [keys.keys]. *)
Record SDK (W : Type) : Type := {
  az_get_properties : string -> string -> W -> reply exn unit * W;
  az_list_keys : string -> string -> W -> reply exn (list string) * W;
  az_begin_create : string -> string -> string -> W -> reply exn unit * W;
  az_poller_result : string -> W -> reply exn unit * W;
  az_container_exists : blob_service -> string -> W -> reply exn bool * W;
  az_create_container : blob_service -> string -> W -> reply exn unit * W;
  az_delete_container : blob_service -> string -> W -> reply exn unit * W;
  az_get_container_properties :
    blob_service -> string -> W -> reply exn container_properties * W
}.
Arguments az_get_properties {W}.
Arguments az_list_keys {W}.
Arguments az_begin_create {W}.
Arguments az_poller_result {W}.
Arguments az_container_exists {W}.
Arguments az_create_container {W}.
Arguments az_delete_container {W}.
Arguments az_get_container_properties {W}.

Section Naming.
(** [str.lower] follows the interpreter's Unicode tables, and
    [md5_hexdigest s] is [hashlib.md5(s.encode()).hexdigest()]; what is
    proved of the generator holds whatever the two compute. *)
Variable str_lower : string -> string.
Variable md5_hexdigest : string -> string.

(** [container_name.lower().replace('-', '')[:15]] *)
Definition account_prefix (container_name : string) : string :=
  PyStr.slice_to 15 (PyStr.remove_char "-" (str_lower container_name)).

(** [str(int(time.time()))[-4:]], with [now] for [int(time.time())]. *)
Definition account_timestamp (now : Z) : string :=
  PyStr.slice_last 4 (PyStr.str_of_int now).

(** [hashlib.md5(container_name.encode()).hexdigest()[:4]] *)
Definition account_hash_suffix (container_name : string) : string :=
  PyStr.slice_to 4 (md5_hexdigest container_name).

(** Lines 44 to 54; [now] is the clock the method reads. *)
Definition generate_storage_account_name (now : Z) (container_name : string)
    : string :=
  let prefix := account_prefix container_name in
  let timestamp := account_timestamp now in
  let hash_suffix := account_hash_suffix container_name in
  PyStr.slice_to 24 (prefix ++ timestamp ++ hash_suffix).

End Naming.

(** The generator on names of ASCII characters, where [str.lower] and the
    UTF-8 encoding are the ones of [PyStr] and [MD5]. *)
Definition generate_storage_account_name_ascii : Z -> string -> string :=
  generate_storage_account_name PyStr.lower MD5.hexdigest.

Section Script.
Context {W : Type}.

Local Abbreviation M := (Py.M W api exn line).

(** Lines 56 to 67. *)
Definition storage_account_exists (azure : SDK W) (self : manager)
    (storage_account : string) : M bool :=
  try_except
    (sdk (GetProperties (resource_group self) storage_account)
         (az_get_properties azure (resource_group self) storage_account) ;;
     mret true)
    (fun e =>
       match e with
       | ResourceNotFoundError => Some (mret false)
       | _ => Some (print (ErrorCheckingStorageAccount e) ;; mret false)
       end).

(** Lines 79 to 95.  [keys.keys[0]] raises [IndexError] on an empty list. *)
Definition _get_blob_service_client (azure : SDK W) (self : manager)
    (storage_account : string) : M blob_service :=
  try_except
    (keys ← sdk (ListKeys (resource_group self) storage_account)
                (az_list_keys azure (resource_group self) storage_account);
     match keys with
     | [] => raise (OtherException "IndexError")
     | key :: _ =>
         mret {| account_name := storage_account; account_key := key |}
     end)
    (fun e => Some (print (FailedToGetBlobServiceClient e) ;; raise e)).

(** Lines 69 to 77. *)
Definition container_exists (azure : SDK W) (self : manager)
    (storage_account container_name : string) : M bool :=
  try_except
    (blob_service_client ← _get_blob_service_client azure self storage_account;
     sdk (ContainerExists blob_service_client container_name)
         (az_container_exists azure blob_service_client container_name))
    (fun e => Some (print (ErrorCheckingContainer e) ;; mret false)).

(** Lines 97 to 128. *)
Definition create_storage_account (azure : SDK W) (self : manager)
    (storage_account : string) : M bool :=
  present ← storage_account_exists azure self storage_account;
  if present : bool then
    print (AccountAlreadyExistsSkipping storage_account) ;; mret true
  else
    print (CreatingStorageAccount storage_account (region self)) ;;
    try_except
      (sdk (BeginCreate (resource_group self) storage_account (region self))
           (az_begin_create azure (resource_group self) storage_account (region self)) ;;
       sdk (PollerResult storage_account) (az_poller_result azure storage_account) ;;
       print (SuccessfullyCreatedAccount storage_account) ;;
       mret true)
      (fun e =>
         match e with
         | ResourceExistsError =>
             Some (print (AccountCreatedByAnotherProcess storage_account) ;; mret true)
         | _ => Some (print (FailedToCreateAccount e) ;; mret false)
         end).

(** Lines 130 to 152. *)
Definition create_container (azure : SDK W) (self : manager)
    (storage_account container_name : string) : M bool :=
  account_ready ← create_storage_account azure self storage_account;
  if negb account_ready then mret false
  else
    present ← container_exists azure self storage_account container_name;
    if present : bool then
      print (ContainerAlreadyExistsSkipping container_name) ;; mret true
    else
      print (CreatingContainer container_name storage_account) ;;
      try_except
        (blob_service_client ← _get_blob_service_client azure self storage_account;
         sdk (CreateContainer blob_service_client container_name)
             (az_create_container azure blob_service_client container_name) ;;
         print (SuccessfullyCreatedContainer container_name) ;;
         mret true)
        (fun e =>
           match e with
           | ResourceExistsError =>
               Some (print (ContainerCreatedByAnotherProcess container_name) ;; mret true)
           | _ => Some (print (FailedToCreateContainer e) ;; mret false)
           end).

(** Lines 154 to 173. *)
Definition delete_container (azure : SDK W) (self : manager)
    (storage_account container_name : string) : M bool :=
  present ← container_exists azure self storage_account container_name;
  if negb present then
    print (ContainerDoesNotExistSkipping container_name) ;; mret true
  else
    print (DeletingContainer container_name) ;;
    try_except
      (blob_service_client ← _get_blob_service_client azure self storage_account;
       sdk (DeleteContainer blob_service_client container_name)
           (az_delete_container azure blob_service_client container_name) ;;
       print (SuccessfullyDeletedContainer container_name) ;;
       mret true)
      (fun e =>
         match e with
         | ResourceNotFoundError =>
             Some (print (ContainerAlreadyDeleted container_name) ;; mret true)
         | _ => Some (print (FailedToDeleteContainer e) ;; mret false)
         end).

(** Lines 175 to 197. *)
Definition check_container (azure : SDK W) (self : manager)
    (storage_account container_name : string) : M bool :=
  present ← container_exists azure self storage_account container_name;
  if negb present then
    print (ContainerDoesNotExist container_name) ;; mret false
  else
    print (ContainerExistsLine container_name) ;;
    try_except
      (blob_service_client ← _get_blob_service_client azure self storage_account;
       properties ← sdk (GetContainerProperties blob_service_client container_name)
                        (az_get_container_properties azure blob_service_client
                                                     container_name);
       print (ContainerDetails (name properties) (last_modified properties)
                               (etag properties)
                               (default "None" (lease properties))) ;;
       mret true)
      (fun e => Some (print (CouldNotRetrieveDetails e) ;; mret false)).

End Script.

End Azure.

(* ===================================================================== *)
(** * AWS: the rest of the script ([usage], [create_s3_client],
      [list_buckets], [main]) *)
(* ===================================================================== *)

Module AWSCli.
Import AWS.

Inductive api : Type :=
  | Boto3Client (region : string)     (* boto3.client('s3', region_name=...) *)
  | S3Call (c : AWS.api).

Inductive line : Type :=
  | Script (l : AWS.line)
  | Usage                                            (* lines 13 to 22 *)
  | NoCredentials                                    (* line 30 *)
  | ListingAllBuckets                                (* line 137 *)
  | NoBucketsFound                                   (* line 141 *)
  | BucketRow (name creation_date : string)          (* line 144 *)
  | FailedToList (e : exn)                           (* line 147 *)
  | Banner (action bucket_name region : string)      (* lines 170 to 173 *)
  | InvalidAction (action : string)                  (* line 186 *)
  | OperationCompleted                               (* line 190 *)
  | OperationFailed                                  (* line 193 *)
  | UnexpectedError (e : exn).                       (* line 197 *)

(** [boto3.client]: it returns a client, or raises. *)
Record Boto3 (W : Type) : Type := {
  boto3_client : string -> W -> reply exn (S3 W) * W
}.
Arguments boto3_client {W}.

Section Script.
Context {W : Type}.

Local Abbreviation M := (Py.M W api exn line).

(** Lines 11 to 23: it never returns. *)
Definition usage {A} : M A := print Usage ;; sys_exit 1.

(** Lines 25 to 31.  [NoCredentialsError] is not a [ClientError]. *)
Definition create_s3_client (boto3 : Boto3 W) (region : string) : M (S3 W) :=
  try_except
    (sdk (Boto3Client region) (boto3_client boto3 region))
    (fun e =>
       match e with
       | OtherException class_name =>
           if String.eqb class_name "NoCredentialsError"
           then Some (print NoCredentials ;; sys_exit 1)
           else None
       | ClientError _ => None
       end).

(** Lines 135 to 148. *)
Definition list_buckets (s3_client : S3 W) : M bool :=
  print ListingAllBuckets ;;
  try_except
    (buckets ← sdk (S3Call ListBuckets) (s3_list_buckets s3_client);
     match buckets with
     | [] => print NoBucketsFound
     | _ :: _ =>
         for_each buckets
           (fun bucket => print (BucketRow (Name bucket) (CreationDate bucket)))
     end ;;
     mret true)
    (fun e =>
       match e with
       | ClientError _ => Some (print (FailedToList e) ;; mret false)
       | OtherException _ => None
       end).

(** Lines 150 to 198; [argv] is [sys.argv]. *)
Definition main (boto3 : Boto3 W) (argv : list string) : M unit :=
  let argc := length argv in
  (if (argc =? 2)%nat || (argc =? 4)%nat then mret tt else usage) ;;
  let action := nth 1 argv "" in
  if String.eqb action "list" && (argc =? 2)%nat then
    s3_client ← create_s3_client boto3 "us-east-1";
    success ← list_buckets s3_client;
    sys_exit (if success : bool then 0 else 1)
  else
    (if (argc =? 4)%nat then mret tt else usage) ;;
    let bucket_name := nth 2 argv "" in
    let region := nth 3 argv "" in
    print (Banner action bucket_name region) ;;
    s3_client ← create_s3_client boto3 region;
    try_except
      (success ←
         (if String.eqb action "create" then
            embed S3Call Script (create_bucket s3_client bucket_name region)
          else if String.eqb action "delete" then
            embed S3Call Script (delete_bucket s3_client bucket_name region)
          else if String.eqb action "check" then
            embed S3Call Script (check_bucket s3_client bucket_name)
          else
            print (InvalidAction action) ;; usage);
       if success : bool then
         print OperationCompleted ;; sys_exit 0
       else
         print OperationFailed ;; sys_exit 1)
      (fun e => Some (print (UnexpectedError e) ;; sys_exit 1)).

End Script.

End AWSCli.

(* ===================================================================== *)
(** * GCP: the rest of the script ([main]) *)
(* ===================================================================== *)

Module GCPCli.
Import GCP.

Inductive line : Type :=
  | Script (l : GCP.line)
  | Usage                                                  (* lines 95, 96 *)
  | Banner (action bucket_name location project_id : string) (* lines 104 to 108 *)
  | InvalidAction (action : string)                        (* line 118 *)
  | OperationCompleted                                     (* line 122 *)
  | OperationFailed.                                       (* line 125 *)

Section Script.
Context {W : Type}.

Local Abbreviation M := (Py.M W api exn line).

(** Lines 92 to 126; [argv] is [sys.argv]. *)
Definition main (storage : GCS W) (argv : list string) : M unit :=
  (if (length argv =? 5)%nat then mret tt
   else print Usage ;; sys_exit 1) ;;
  let action := nth 1 argv "" in
  let bucket_name := nth 2 argv "" in
  let location := nth 3 argv "" in
  let project_id := nth 4 argv "" in
  print (Banner action bucket_name location project_id) ;;
  success ←
    (if String.eqb action "create" then
       embed id Script (create_bucket_default storage bucket_name location project_id)
     else if String.eqb action "delete" then
       embed id Script (delete_bucket storage bucket_name project_id)
     else if String.eqb action "check" then
       embed id Script (check_bucket storage bucket_name project_id)
     else
       print (InvalidAction action) ;; sys_exit 1);
  if success : bool then
    print OperationCompleted ;; sys_exit 0
  else
    print OperationFailed ;; sys_exit 1.

End Script.

End GCPCli.

(* ===================================================================== *)
(** * Azure: the rest of the script ([__init__], [_get_subscription_id],
      [list_containers], [list_storage_accounts], [main] once the arguments
      are parsed, and the guard at the end of the file) *)
(* ===================================================================== *)

Module AzureCli.
Import Azure.

(** An item of [list_containers()]: [last_modified] already through
    [strftime], or [None]. *)
Record container_item : Type := {
  container_name_of : string;
  container_last_modified : option string
}.

(** An item of [list_by_resource_group()]. *)
Record account_item : Type := {
  account_name_of : string;
  account_location : string;
  account_sku : option string;
  account_status : option string
}.

(** What iterating over a paged listing gives: the items it yields, and
    the exception it raises after them if it does. *)
Definition paged (A : Type) : Type := (list A * option exn)%type.

(** A [StorageManagementClient] with all the script reaches through it. *)
Record Client (W : Type) : Type := {
  storage : SDK W;
  az_list_containers : blob_service -> W -> paged container_item * W;
  az_list_by_resource_group : string -> W -> paged account_item * W
}.
Arguments storage {W}.
Arguments az_list_containers {W}.
Arguments az_list_by_resource_group {W}.

(** The two constructors [__init__] calls. *)
Record Platform (W : Type) : Type := {
  DefaultAzureCredential : W -> reply exn unit * W;
  StorageManagementClient : string -> W -> reply exn (Client W) * W
}.
Arguments DefaultAzureCredential {W}.
Arguments StorageManagementClient {W}.

Inductive api : Type :=
  | NewCredential                                  (* DefaultAzureCredential() *)
  | NewManagementClient (subscription_id : string) (* StorageManagementClient(...) *)
  | StorageCall (c : Azure.api)
  | ListContainers (service : blob_service)
  | ListByResourceGroup (resource_group : string).

Inductive line : Type :=
  | Script (l : Azure.line)
  | FailedToInitialize (e : exn)                           (* line 33 *)
  | SubscriptionIdNotSet                                   (* line 40 *)
  | StorageAccountDoesNotExist (account : string)          (* line 202 *)
  | ListingContainers (account : string)                   (* line 205 *)
  | ContainerHeader                                        (* lines 211, 212 *)
  | ContainerRow (name last_modified : string)             (* line 215 *)
  | FailedToListContainers (e : exn)                       (* line 218 *)
  | ListingStorageAccounts (resource_group : string)       (* line 222 *)
  | AccountHeader                                          (* lines 227, 228 *)
  | AccountRow (name location sku status : string)         (* line 232 *)
  | FailedToListStorageAccounts (e : exn)                  (* line 235 *)
  | ParserError (required action : string)                 (* lines 266, 269, 272 *)
  | Banner (action : string) (container_name : option string)
           (resource_group : string) (region : option string) (* lines 275 to 281 *)
  | InvalidAction (action : string)                        (* line 305 *)
  | OperationCompleted                                     (* line 309 *)
  | UnexpectedError (e : exn)                              (* line 317 *)
  | MustBeSet.                                             (* lines 323 to 325 *)

(** The value of [parser.parse_args()]. *)
Record namespace : Type := {
  action : string;
  container_name : option string;
  resource_group_arg : string;
  region_arg : option string
}.

Section Script.
Context {W : Type}.
Variable str_lower : string -> string.
Variable md5_hexdigest : string -> string.

Local Abbreviation M := (Py.M W api exn line).

(** Lines 36 to 42; [environ] is [os.environ]. *)
Definition _get_subscription_id (environ : gmap string string) : M string :=
  let subscription_id := environ !! "AZURE_SUBSCRIPTION_ID" in
  if negb (truthy subscription_id) then
    print SubscriptionIdNotSet ;; sys_exit 1
  else mret (default "" subscription_id).

(** Lines 25 to 34: the manager and the client it holds. *)
Definition __init__ (azure : Platform W) (environ : gmap string string)
    (resource_group region : string) : M (manager * Client W) :=
  try_except
    (sdk NewCredential (DefaultAzureCredential azure) ;;
     subscription_id ← _get_subscription_id environ;
     storage_client ← sdk (NewManagementClient subscription_id)
                          (StorageManagementClient azure subscription_id);
     mret ({| Azure.resource_group := resource_group; Azure.region := region |},
           storage_client))
    (fun e => Some (print (FailedToInitialize e) ;; sys_exit 1)).

(** A call that returns a paged listing, and the loop over it: a row for
    each item it yields, then the exception if it ends in one.  The pages
    are fetched while the loop runs; no other call comes in between. *)
Definition paged_call {A} (c : api) (listing : W -> paged A * W) : M (paged A) :=
  fun m =>
    let (items, w) := listing (cloud m) in
    (Returns items, Machine w (history m ++ [Called c None])).

Definition iterate {A} (items : paged A) (row : A -> M unit) : M unit :=
  for_each (fst items) row ;;
  match snd items with
  | Some e => raise e
  | None => mret tt
  end.

(** Lines 199 to 218. *)
Definition list_containers (client : Client W) (self : manager)
    (storage_account : string) : M unit :=
  present ← embed StorageCall Script
              (storage_account_exists (storage client) self storage_account);
  if negb present then
    print (StorageAccountDoesNotExist storage_account)
  else
    print (ListingContainers storage_account) ;;
    try_except
      (blob_service_client ←
         embed StorageCall Script
           (_get_blob_service_client (storage client) self storage_account);
       containers ← paged_call (ListContainers blob_service_client)
                      (az_list_containers client blob_service_client);
       print ContainerHeader ;;
       iterate containers
         (fun container =>
            print (ContainerRow (container_name_of container)
                     (default "N/A" (container_last_modified container)))))
      (fun e => Some (print (FailedToListContainers e))).

(** Lines 220 to 235. *)
Definition list_storage_accounts (client : Client W) (self : manager) : M unit :=
  print (ListingStorageAccounts (Azure.resource_group self)) ;;
  try_except
    (accounts ← paged_call (ListByResourceGroup (Azure.resource_group self))
                   (az_list_by_resource_group client (Azure.resource_group self));
     print AccountHeader ;;
     iterate accounts
       (fun account =>
          print (AccountRow (account_name_of account) (account_location account)
                   (default "N/A" (account_sku account))
                   (default "N/A" (account_status account)))))
    (fun e => Some (print (FailedToListStorageAccounts e))).

(** [parser.error(f"<required> is required for action '<action>'")]:
    usage and message on stderr, exit status 2. *)
Definition parser_error {A} (required action : string) : M A :=
  print (ParserError required action) ;; sys_exit 2.

Definition needs_container (action : string) : bool :=
  String.eqb action "create" || String.eqb action "delete"
  || String.eqb action "check" || String.eqb action "list-containers".

(** Lines 264 to 318: [main] from the parsed arguments on.  [now] is the
    clock [generate_storage_account_name] reads.  [argparse] admits the five
    actions only and the checks below let none of them pass without a
    region, so the manager is built with a region that is a string. *)
Definition main (azure : Platform W) (environ : gmap string string) (now : Z)
    (args : namespace) : M unit :=
  (if needs_container (action args) && negb (truthy (container_name args))
   then parser_error "container_name" (action args) else mret tt) ;;
  (if needs_container (action args) && negb (truthy (region_arg args))
   then parser_error "region" (action args) else mret tt) ;;
  (if String.eqb (action args) "list-accounts" && negb (truthy (region_arg args))
   then parser_error "region" (action args) else mret tt) ;;
  print (Banner (action args)
                (if truthy (container_name args) then container_name args else None)
                (resource_group_arg args)
                (if truthy (region_arg args) then region_arg args else None)) ;;
  try_except
    ('(manager, client) ← __init__ azure environ (resource_group_arg args)
                            (default "" (region_arg args));
     if String.eqb (action args) "list-accounts" then
       list_storage_accounts client manager
     else
       let storage_account :=
         generate_storage_account_name str_lower md5_hexdigest now
           (default "" (container_name args)) in
       success ←
         (if String.eqb (action args) "create" then
            embed StorageCall Script
              (create_container (storage client) manager storage_account
                 (default "" (container_name args)))
          else if String.eqb (action args) "delete" then
            embed StorageCall Script
              (delete_container (storage client) manager storage_account
                 (default "" (container_name args)))
          else if String.eqb (action args) "check" then
            embed StorageCall Script
              (check_container (storage client) manager storage_account
                 (default "" (container_name args)))
          else if String.eqb (action args) "list-containers" then
            list_containers client manager storage_account ;; mret true
          else
            print (InvalidAction (action args)) ;; sys_exit 1);
       if success : bool then print OperationCompleted
       else sys_exit 1)
    (fun e => Some (print (UnexpectedError e) ;; sys_exit 1)).

(** Lines 320 to 328: the guard, then [main]. *)
Definition guarded_main (azure : Platform W) (environ : gmap string string)
    (now : Z) (args : namespace) : M unit :=
  (if negb (truthy (environ !! "AZURE_SUBSCRIPTION_ID")) then
     print MustBeSet ;; sys_exit 1
   else mret tt) ;;
  main azure environ now args.

End Script.

End AzureCli.

(* ===================================================================== *)
(** * In-memory providers

    Stand-ins for the three services, each a finite map from names to what
    the service holds under the name.  They fix what "the resource is
    present" and "a fresh backend" mean when two runs are put in sequence,
    and they give the general statements below concrete instances. *)
(* ===================================================================== *)

Module MemS3.
Import AWS.

Record mem_bucket : Type := {
  mb_location : option string;
  mb_created : string;
  mb_objects : list string
}.

Abbreviation store := (gmap string mem_bucket).

Definition head_bucket (n : string) (w : store) : reply exn unit * store :=
  match w !! n with
  | Some _ => (Ok tt, w)
  | None => (Err (ClientError "404"), w)
  end.

Definition create_bucket (n : string) (lc : option string) (w : store)
    : reply exn unit * store :=
  match w !! n with
  | Some _ => (Err (ClientError "BucketAlreadyOwnedByYou"), w)
  | None =>
      (Ok tt, <[n := {| mb_location := lc; mb_created := "2024-01-01";
                        mb_objects := [] |}]> w)
  end.

Definition objects_delete (region n : string) (w : store)
    : reply exn unit * store :=
  match w !! n with
  | Some b =>
      (Ok tt, <[n := {| mb_location := mb_location b; mb_created := mb_created b;
                        mb_objects := [] |}]> w)
  | None => (Err (ClientError "NoSuchBucket"), w)
  end.

Definition delete_bucket (n : string) (w : store) : reply exn unit * store :=
  match w !! n with
  | Some b =>
      match mb_objects b with
      | [] => (Ok tt, delete n w)
      | _ :: _ => (Err (ClientError "BucketNotEmpty"), w)
      end
  | None => (Err (ClientError "NoSuchBucket"), w)
  end.

Definition get_bucket_location (n : string) (w : store)
    : reply exn (option (option string)) * store :=
  match w !! n with
  | Some b => (Ok (Some (mb_location b)), w)
  | None => (Err (ClientError "NoSuchBucket"), w)
  end.

Definition list_buckets (w : store) : reply exn (list bucket_entry) * store :=
  (Ok (map (fun nb => {| Name := fst nb; CreationDate := mb_created (snd nb) |})
           (map_to_list w)), w).

Definition service : S3 store := {|
  s3_head_bucket := head_bucket;
  s3_create_bucket := create_bucket;
  s3_objects_delete := objects_delete;
  s3_delete_bucket := delete_bucket;
  s3_get_bucket_location := get_bucket_location;
  s3_list_buckets := list_buckets
|}.

(** The same service with a concurrent actor that moves right after the
    existence probe has replied. *)
Definition racing : S3 (store * option (store -> store)) := {|
  s3_head_bucket := fun n => raced (head_bucket n);
  s3_create_bucket := fun n lc => quiet (create_bucket n lc);
  s3_objects_delete := fun r n => quiet (objects_delete r n);
  s3_delete_bucket := fun n => quiet (delete_bucket n);
  s3_get_bucket_location := fun n => quiet (get_bucket_location n);
  s3_list_buckets := quiet list_buckets
|}.

(** The same service on a network that fails while the objects are being
    deleted: botocore raises [EndpointConnectionError], which is not a
    [ClientError]. *)
Definition flaky_cleanup : S3 store := {|
  s3_head_bucket := head_bucket;
  s3_create_bucket := create_bucket;
  s3_objects_delete :=
    fun _ _ w => (Err (OtherException "EndpointConnectionError"), w);
  s3_delete_bucket := delete_bucket;
  s3_get_bucket_location := get_bucket_location;
  s3_list_buckets := list_buckets
|}.

(** The same service for a caller who may not see the bucket: [HeadBucket]
    is answered 403. *)
Definition forbidden : S3 store := {|
  s3_head_bucket := fun _ w => (Err (ClientError "403"), w);
  s3_create_bucket := create_bucket;
  s3_objects_delete := objects_delete;
  s3_delete_bucket := delete_bucket;
  s3_get_bucket_location := get_bucket_location;
  s3_list_buckets := list_buckets
|}.

Definition empty_bucket : mem_bucket :=
  {| mb_location := Some "ap-south-1"; mb_created := "2024-01-01"; mb_objects := [] |}.

End MemS3.

Module MemGCS.
Import GCP.

(** A bucket and the names of its blobs. *)
Abbreviation store := (gmap string (bucket * list string)).

Definition Client (project_id : string) (w : store) : reply exn client * store :=
  (Ok {| project := project_id |}, w).

Definition get_bucket (c : client) (n : string) (w : store)
    : reply exn bucket * store :=
  match w !! n with
  | Some (b, _) => (Ok b, w)
  | None => (Err NotFound, w)
  end.

Definition create_bucket (c : client) (b : bucket) (w : store)
    : reply exn bucket * store :=
  match w !! name b with
  | Some _ => (Err Conflict, w)
  | None =>
      let b' := {| name := name b; location := location b;
                   storage_class := storage_class b;
                   time_created := Some "2024-01-01" |} in
      (Ok b', <[name b := (b', [])]> w)
  end.

Definition list_blobs (b : bucket) (w : store) : reply exn (list string) * store :=
  match w !! name b with
  | Some (_, blobs) => (Ok blobs, w)
  | None => (Err NotFound, w)
  end.

Definition delete_blobs (b : bucket) (blobs : list string) (w : store)
    : reply exn unit * store :=
  match w !! name b with
  | Some (b', held) =>
      (Ok tt, <[name b := (b', filter (fun x => x ∉ blobs) held)]> w)
  | None => (Err NotFound, w)
  end.

Definition bucket_delete (b : bucket) (w : store) : reply exn unit * store :=
  match w !! name b with
  | Some (_, []) => (Ok tt, delete (name b) w)
  | Some (_, _ :: _) => (Err Conflict, w)
  | None => (Err NotFound, w)
  end.

Definition service : GCS store := {|
  gcs_Client := Client;
  gcs_get_bucket := get_bucket;
  gcs_create_bucket := create_bucket;
  gcs_list_blobs := list_blobs;
  gcs_delete_blobs := delete_blobs;
  gcs_bucket_delete := bucket_delete
|}.

(** The same service with a concurrent actor that moves right after
    [get_bucket] has replied. *)
Definition racing : GCS (store * option (store -> store)) := {|
  gcs_Client := fun p => quiet (Client p);
  gcs_get_bucket := fun c n => raced (get_bucket c n);
  gcs_create_bucket := fun c b => quiet (create_bucket c b);
  gcs_list_blobs := fun b => quiet (list_blobs b);
  gcs_delete_blobs := fun b bs => quiet (delete_blobs b bs);
  gcs_bucket_delete := fun b => quiet (bucket_delete b)
|}.

(** The same service for a caller without [storage.buckets.get]. *)
Definition forbidden : GCS store := {|
  gcs_Client := Client;
  gcs_get_bucket := fun _ _ w => (Err Forbidden, w);
  gcs_create_bucket := create_bucket;
  gcs_list_blobs := list_blobs;
  gcs_delete_blobs := delete_blobs;
  gcs_bucket_delete := bucket_delete
|}.

Definition standard_bucket (n : string) : bucket :=
  {| name := n; location := Some "US"; storage_class := Some "STANDARD";
     time_created := Some "2024-01-01" |}.

End MemGCS.

Module MemAzure.
Import Azure.

(** Storage accounts of the subscription, each with its containers.  The
    resource group is not told apart: there is one. *)
Abbreviation store := (gmap string (gset string)).

Definition key_of (account : string) : string := "key-of-" ++ account.

Definition get_properties (rg account : string) (w : store)
    : reply exn unit * store :=
  match w !! account with
  | Some _ => (Ok tt, w)
  | None => (Err ResourceNotFoundError, w)
  end.

Definition list_keys (rg account : string) (w : store)
    : reply exn (list string) * store :=
  match w !! account with
  | Some _ => (Ok [key_of account], w)
  | None => (Err ResourceNotFoundError, w)
  end.

Definition begin_create (rg account location : string) (w : store)
    : reply exn unit * store :=
  match w !! account with
  | Some _ => (Ok tt, w)
  | None => (Ok tt, <[account := ∅]> w)
  end.

Definition poller_result (account : string) (w : store) : reply exn unit * store :=
  (Ok tt, w).

Definition container_exists (s : blob_service) (c : string) (w : store)
    : reply exn bool * store :=
  match w !! account_name s with
  | Some cs => (Ok (bool_decide (c ∈ cs)), w)
  | None => (Err (OtherException "ServiceRequestError"), w)
  end.

Definition create_container (s : blob_service) (c : string) (w : store)
    : reply exn unit * store :=
  match w !! account_name s with
  | Some cs =>
      if bool_decide (c ∈ cs) then (Err ResourceExistsError, w)
      else (Ok tt, <[account_name s := {[c]} ∪ cs]> w)
  | None => (Err (OtherException "ServiceRequestError"), w)
  end.

Definition delete_container (s : blob_service) (c : string) (w : store)
    : reply exn unit * store :=
  match w !! account_name s with
  | Some cs =>
      if bool_decide (c ∈ cs) then (Ok tt, <[account_name s := cs ∖ {[c]}]> w)
      else (Err ResourceNotFoundError, w)
  | None => (Err (OtherException "ServiceRequestError"), w)
  end.

Definition get_container_properties (s : blob_service) (c : string) (w : store)
    : reply exn container_properties * store :=
  match w !! account_name s with
  | Some cs =>
      if bool_decide (c ∈ cs) then
        (Ok {| name := c; last_modified := "2024-01-01"; etag := "0x1";
               lease := Some "unlocked" |}, w)
      else (Err ResourceNotFoundError, w)
  | None => (Err (OtherException "ServiceRequestError"), w)
  end.

Definition service : SDK store := {|
  az_get_properties := get_properties;
  az_list_keys := list_keys;
  az_begin_create := begin_create;
  az_poller_result := poller_result;
  az_container_exists := container_exists;
  az_create_container := create_container;
  az_delete_container := delete_container;
  az_get_container_properties := get_container_properties
|}.

(** The same service for a caller whose [exists] request on a container is
    answered 403 Forbidden. *)
Definition forbidden : SDK store := {|
  az_get_properties := get_properties;
  az_list_keys := list_keys;
  az_begin_create := begin_create;
  az_poller_result := poller_result;
  az_container_exists := fun _ _ w => (Err (HttpResponseError 403), w);
  az_create_container := create_container;
  az_delete_container := delete_container;
  az_get_container_properties := get_container_properties
|}.

(** The same service for a caller who may not read the keys of the storage
    account: [list_keys], the first request of the existence probe, is
    answered 403 Forbidden. *)
Definition forbidden_keys : SDK store := {|
  az_get_properties := get_properties;
  az_list_keys := fun _ _ w => (Err (HttpResponseError 403), w);
  az_begin_create := begin_create;
  az_poller_result := poller_result;
  az_container_exists := container_exists;
  az_create_container := create_container;
  az_delete_container := delete_container;
  az_get_container_properties := get_container_properties
|}.

(** The same service with a concurrent actor that moves right after the
    container's [exists] request has been answered. *)
Definition racing : SDK (store * option (store -> store)) := {|
  az_get_properties := fun rg a => quiet (get_properties rg a);
  az_list_keys := fun rg a => quiet (list_keys rg a);
  az_begin_create := fun rg a l => quiet (begin_create rg a l);
  az_poller_result := fun a => quiet (poller_result a);
  az_container_exists := fun s c => raced (container_exists s c);
  az_create_container := fun s c => quiet (create_container s c);
  az_delete_container := fun s c => quiet (delete_container s c);
  az_get_container_properties := fun s c => quiet (get_container_properties s c)
|}.

Definition me : manager := {| resource_group := "rg"; region := "eastus" |}.

End MemAzure.

(** The platforms around the in-memory services. *)
Module MemCli.

Definition boto3 : AWSCli.Boto3 MemS3.store :=
  {| AWSCli.boto3_client := fun _ w => (Ok MemS3.service, w) |}.

(** A machine where [aws configure] was never run. *)
Definition boto3_no_credentials : AWSCli.Boto3 MemS3.store :=
  {| AWSCli.boto3_client :=
       fun _ w => (Err (AWS.OtherException "NoCredentialsError"), w) |}.

Definition list_containers (s : Azure.blob_service) (w : MemAzure.store)
    : AzureCli.paged AzureCli.container_item * MemAzure.store :=
  match w !! Azure.account_name s with
  | Some held =>
      ((map (fun c => {| AzureCli.container_name_of := c;
                         AzureCli.container_last_modified := Some "2024-01-01 00:00:00" |})
            (elements held), None), w)
  | None => (([], Some (Azure.OtherException "ServiceRequestError")), w)
  end.

Definition list_by_resource_group (rg : string) (w : MemAzure.store)
    : AzureCli.paged AzureCli.account_item * MemAzure.store :=
  ((map (fun a => {| AzureCli.account_name_of := fst a;
                     AzureCli.account_location := "eastus";
                     AzureCli.account_sku := Some "Standard_LRS";
                     AzureCli.account_status := Some "available" |})
        (map_to_list w), None), w).

Definition azure_client : AzureCli.Client MemAzure.store := {|
  AzureCli.storage := MemAzure.service;
  AzureCli.az_list_containers := list_containers;
  AzureCli.az_list_by_resource_group := list_by_resource_group
|}.

Definition azure : AzureCli.Platform MemAzure.store := {|
  AzureCli.DefaultAzureCredential := fun w => (Ok tt, w);
  AzureCli.StorageManagementClient := fun _ w => (Ok azure_client, w)
|}.

Definition environ : gmap string string := {["AZURE_SUBSCRIPTION_ID" := "sub-1"]}.

End MemCli.

(* ===================================================================== *)
(** * Reading a history *)
(* ===================================================================== *)

(** The number of calls of a history that satisfy [p]. *)
Definition count_calls {C E P} (p : C -> bool) (h : list (event C E P)) : nat :=
  length (filter (fun c => p c = true) (calls h)).

Definition aws_is_create (c : AWS.api) : bool :=
  match c with AWS.CreateBucket _ _ => true | _ => false end.

Definition aws_is_delete (c : AWS.api) : bool :=
  match c with AWS.DeleteBucket _ => true | _ => false end.

Definition gcp_is_create (c : GCP.api) : bool :=
  match c with GCP.CreateBucket _ => true | _ => false end.

Definition gcp_is_delete (c : GCP.api) : bool :=
  match c with GCP.BucketDelete _ => true | _ => false end.

Definition azure_is_create (c : Azure.api) : bool :=
  match c with Azure.CreateContainer _ _ => true | _ => false end.

Definition azure_is_delete (c : Azure.api) : bool :=
  match c with Azure.DeleteContainer _ _ => true | _ => false end.

(** The calls of [create_storage_account], Azure's ensure-parent step. *)
Definition azure_is_parent_call (c : Azure.api) : bool :=
  match c with
  | Azure.GetProperties _ _ | Azure.BeginCreate _ _ _ | Azure.PollerResult _ => true
  | _ => false
  end.

(** Calls that read and never change what the provider holds. *)
Definition aws_is_read_only (c : AWS.api) : bool :=
  match c with
  | AWS.HeadBucket _ | AWS.GetBucketLocation _ | AWS.ListBuckets => true
  | _ => false
  end.

Definition gcp_is_read_only (c : GCP.api) : bool :=
  match c with
  | GCP.NewClient _ | GCP.GetBucket _ => true
  | _ => false
  end.

Definition azure_is_read_only (c : Azure.api) : bool :=
  match c with
  | Azure.ListKeys _ _ | Azure.ContainerExists _ _
  | Azure.GetContainerProperties _ _ => true
  | _ => false
  end.

(** The exit status a script gives for the way its action function ended:
    0 when it returned [True], 1 otherwise. *)
Definition status_of {E} (r : ending E bool) : Z :=
  match r with
  | Returns true => 0
  | _ => 1
  end.

(* ===================================================================== *)
(** * The hash and the decimal rendering, run *)
(* ===================================================================== *)

Example md5_empty : MD5.hexdigest "" = "d41d8cd98f00b204e9800998ecf8427e".
Proof. vm_compute. reflexivity. Qed.

Example md5_my_data : MD5.hexdigest "my-data" = "5fe46afb72359e0ff0151f793a27f367".
Proof. vm_compute. reflexivity. Qed.

Example md5_two_blocks :
  MD5.hexdigest "aaaaaaaaaaaaaaaaaaaaaaaaaaaaaaaaaaaaaaaaaaaaaaaaaaaaaaaaaaaaaaaaaaaaaa"
  = "0f5c6c4e740bfcc08c3c26ccb2673d46".
Proof. vm_compute. reflexivity. Qed.

Example str_of_int_examples :
  PyStr.str_of_int 1700000012 = "1700000012" /\ PyStr.str_of_int 0 = "0"
  /\ PyStr.str_of_int (-45) = "-45" /\ PyStr.str_of_int 1000 = "1000"
  /\ PyStr.slice_last 4 (PyStr.str_of_int 1700000012) = "0012"
  /\ PyStr.slice_last 4 (PyStr.str_of_int 12) = "12".
Proof. vm_compute. repeat split. Qed.

(* ===================================================================== *)
(** * Facts about Python strings *)
(* ===================================================================== *)

Section StringFacts.
Import PyStr.

Lemma append_nil (t : string) : EmptyString ++ t = t.
Proof. reflexivity. Qed.

Lemma append_cons (c : ascii) (s t : string) : String c s ++ t = String c (s ++ t).
Proof. reflexivity. Qed.

Ltac string_induction s :=
  induction s as [|? s ?]; rewrite ?append_nil, ?append_cons; simpl.

Lemma length_append (s t : string) :
  String.length (s ++ t) = (String.length s + String.length t)%nat.
Proof. string_induction s; congruence. Qed.

Lemma append_assoc (s t u : string) : (s ++ t) ++ u = s ++ t ++ u.
Proof. string_induction s; congruence. Qed.

Lemma append_inv_head (s t u : string) : s ++ t = s ++ u -> t = u.
Proof. string_induction s; intros H; [exact H | injection H; auto]. Qed.

Lemma length_slice_to (n : nat) (s : string) :
  String.length (slice_to n s) = Nat.min n (String.length s).
Proof.
  revert s; induction n as [|n IH]; intros [|c s]; simpl; try reflexivity.
  now rewrite IH.
Qed.

Lemma slice_to_all (n : nat) (s : string) :
  (String.length s <= n)%nat -> slice_to n s = s.
Proof.
  revert s; induction n as [|n IH]; intros [|c s]; simpl; intros H;
    try reflexivity; try lia.
  f_equal; apply IH; lia.
Qed.

Lemma slice_from_append (s t : string) : slice_from (String.length s) (s ++ t) = t.
Proof. string_induction s; [now destruct t | assumption]. Qed.

Lemma length_slice_from (k : nat) (s : string) :
  String.length (slice_from k s) = (String.length s - k)%nat.
Proof.
  revert s; induction k as [|k IH]; intros [|c s]; simpl; try reflexivity.
  apply IH.
Qed.

Lemma length_slice_last (n : nat) (s : string) :
  String.length (slice_last n s) = Nat.min n (String.length s).
Proof. unfold slice_last; rewrite length_slice_from; lia. Qed.

Lemma slice_last_append (n : nat) (s t : string) :
  String.length t = n -> slice_last n (s ++ t) = t.
Proof.
  intros <-; unfold slice_last; rewrite length_append.
  replace (String.length s + String.length t - String.length t)%nat
    with (String.length s) by lia.
  apply slice_from_append.
Qed.

Lemma int_of_digits_append (acc : Z) (s t : string) :
  int_of_digits acc (s ++ t) = int_of_digits (int_of_digits acc s) t.
Proof.
  revert acc; induction s as [|c s IH]; intros acc;
    rewrite ?append_nil, ?append_cons; simpl; [reflexivity | apply IH].
Qed.

Lemma digits_before_append (fuel : nat) (n : Z) (acc : string) :
  digits_before fuel n acc = digits_before fuel n EmptyString ++ acc.
Proof.
  revert n acc; induction fuel as [|fuel IH]; intros n acc; simpl.
  - reflexivity.
  - destruct (n <? 10); [reflexivity|].
    rewrite IH, (IH _ (String _ EmptyString)), append_assoc. reflexivity.
Qed.

Lemma digit_char_value (acc d : Z) :
  0 <= d < 10 ->
  10 * acc + Z.of_nat (nat_of_ascii (digit_char d)) - 48 = 10 * acc + d.
Proof.
  intros H. unfold digit_char. rewrite nat_ascii_embedding by lia. lia.
Qed.

Lemma int_of_digits_before (fuel : nat) (n : Z) :
  0 <= n < 10 ^ (Z.of_nat fuel + 1) ->
  int_of_digits 0 (digits_before fuel n EmptyString) = n.
Proof.
  revert n; induction fuel as [|fuel IH]; intros n Hn.
  - cbn [digits_before int_of_digits]. change (Z.of_nat 0 + 1) with 1 in Hn.
    rewrite digit_char_value; Z.div_mod_to_equations; lia.
  - cbn [digits_before]. destruct (Z.ltb_spec n 10) as [Hlt|Hge].
    + cbn [int_of_digits]. rewrite digit_char_value; Z.div_mod_to_equations; lia.
    + rewrite digits_before_append, int_of_digits_append, IH.
      * cbn [int_of_digits]. rewrite digit_char_value; Z.div_mod_to_equations; lia.
      * replace (Z.of_nat (S fuel) + 1) with (Z.succ (Z.of_nat fuel + 1)) in Hn by lia.
        rewrite Z.pow_succ_r in Hn by lia.
        split; [apply Z.div_pos; lia | apply Z.div_lt_upper_bound; lia].
Qed.

(** [str] of a non-negative [int] is its decimal numeral: reading the
    digits back gives the number, so the fuel never cuts a digit off. *)
Lemma int_of_str_of_int (n : Z) : 0 <= n -> int_of_digits 0 (str_of_int n) = n.
Proof.
  intros Hn. unfold str_of_int, digits.
  destruct (Z.ltb_spec n 0) as [?|_]; [lia|].
  apply int_of_digits_before. split; [assumption|].
  destruct (Z.eq_dec n 0) as [->|Hnz]; [reflexivity|].
  rewrite Z2Nat.id by apply Z.log2_nonneg.
  pose proof (Z.log2_spec n ltac:(lia)) as [_ Hlt].
  eapply Z.lt_le_trans; [exact Hlt|].
  replace (Z.succ (Z.log2 n)) with (Z.log2 n + 1) by lia.
  apply Z.pow_le_mono_l. lia.
Qed.

(** The digit written last is the unit digit, and it lands right before
    what was already there. *)
Lemma digits_before_last (fuel : nat) (n : Z) (acc : string) :
  exists front, digits_before fuel n acc = front ++ String (digit_char (n mod 10)) acc.
Proof.
  revert n acc; induction fuel as [|fuel IH]; intros n acc; simpl.
  - now exists EmptyString.
  - destruct (n <? 10).
    + now exists EmptyString.
    + destruct (IH (n / 10) (String (digit_char (n mod 10)) acc)) as [front ->].
      exists (front ++ String (digit_char (n / 10 mod 10)) EmptyString).
      now rewrite append_assoc.
Qed.

Lemma str_of_int_last4 (n : Z) :
  1000 <= n -> slice_last 4 (str_of_int n) = four_digits (n mod 10000).
Proof.
  intros Hn. unfold str_of_int.
  destruct (Z.ltb_spec n 0) as [?|_]; [lia|].
  unfold digits.
  assert (Hlog : 9 <= Z.log2 n).
  { change 9 with (Z.log2 512). apply Z.log2_le_mono; lia. }
  destruct (Z.to_nat (Z.log2 n)) as [|[|[|fuel]]] eqn:Hfuel; try lia.
  cbn [digits_before].
  destruct (Z.ltb_spec n 10) as [?|_]; [lia|].
  destruct (Z.ltb_spec (n / 10) 10) as [?|_];
    [exfalso; Z.div_mod_to_equations; lia|].
  destruct (Z.ltb_spec (n / 10 / 10) 10) as [?|_];
    [exfalso; Z.div_mod_to_equations; lia|].
  destruct (digits_before_last fuel (n / 10 / 10 / 10)
              (String (digit_char (n / 10 / 10 mod 10))
                 (String (digit_char (n / 10 mod 10))
                    (String (digit_char (n mod 10)) EmptyString)))) as [front ->].
  rewrite slice_last_append by reflexivity.
  assert (E3 : n / 10 / 10 / 10 mod 10 = n mod 10000 / 1000 mod 10)
    by (Z.div_mod_to_equations; lia).
  assert (E2 : n / 10 / 10 mod 10 = n mod 10000 / 100 mod 10)
    by (Z.div_mod_to_equations; lia).
  assert (E1 : n / 10 mod 10 = n mod 10000 / 10 mod 10)
    by (Z.div_mod_to_equations; lia).
  assert (E0 : n mod 10 = n mod 10000 mod 10)
    by (Z.div_mod_to_equations; lia).
  unfold four_digits. now rewrite E3, E2, E1, E0.
Qed.

Lemma digit_char_inj (a b : Z) :
  0 <= a < 10 -> 0 <= b < 10 -> digit_char a = digit_char b -> a = b.
Proof.
  intros Ha Hb H. unfold digit_char in H.
  apply (f_equal nat_of_ascii) in H.
  rewrite !nat_ascii_embedding in H by lia. lia.
Qed.

Lemma four_digits_inj (t u : Z) :
  0 <= t < 10000 -> 0 <= u < 10000 -> four_digits t = four_digits u -> t = u.
Proof.
  intros Ht Hu H. unfold four_digits in H.
  injection H as H3 H2 H1 H0.
  apply digit_char_inj in H3, H2, H1, H0; Z.div_mod_to_equations; lia.
Qed.

End StringFacts.

(* ===================================================================== *)
(** * The storage-account name generator *)
(* ===================================================================== *)

Section NameGenerator.
Import PyStr Azure.
Variable str_lower : string -> string.
Variable md5_hexdigest : string -> string.

Local Abbreviation prefix_of := (account_prefix str_lower).
Local Abbreviation hash_of := (account_hash_suffix md5_hexdigest).
Local Abbreviation generate := (generate_storage_account_name str_lower md5_hexdigest).

Lemma account_prefix_length (container_name : string) :
  (String.length (prefix_of container_name) <= 15)%nat.
Proof. unfold account_prefix; rewrite length_slice_to; lia. Qed.

Lemma account_timestamp_length (now : Z) :
  (String.length (account_timestamp now) <= 4)%nat.
Proof. unfold account_timestamp; rewrite length_slice_last; lia. Qed.

Lemma account_hash_suffix_length (container_name : string) :
  (String.length (hash_of container_name) <= 4)%nat.
Proof. unfold account_hash_suffix; rewrite length_slice_to; lia. Qed.

Lemma account_hash_suffix_length_md5 (container_name : string) :
  String.length (md5_hexdigest container_name) = 32%nat ->
  String.length (hash_of container_name) = 4%nat.
Proof. intros H; unfold account_hash_suffix; rewrite length_slice_to, H; reflexivity. Qed.

(** The three parts never add up to more than 23 characters, so the final
    [[:24]] cuts nothing. *)
Lemma generate_untruncated (now : Z) (container_name : string) :
  generate now container_name
  = prefix_of container_name ++ account_timestamp now ++ hash_of container_name.
Proof.
  unfold generate_storage_account_name. apply slice_to_all.
  rewrite !length_append.
  pose proof (account_prefix_length container_name).
  pose proof (account_timestamp_length now).
  pose proof (account_hash_suffix_length container_name).
  lia.
Qed.

Lemma account_timestamp_digits (now : Z) :
  1000 <= now -> account_timestamp now = PyStr.four_digits (now mod 10000).
Proof. apply str_of_int_last4. Qed.

End NameGenerator.

(** Strings as lists of characters. *)
Section CharacterFacts.
Import PyStr.

Lemma chars_slice_to (n : nat) (s : string) :
  list_ascii_of_string (slice_to n s) = firstn n (list_ascii_of_string s).
Proof.
  revert s; induction n as [|n IH]; intros [|a s]; cbn; try reflexivity.
  now rewrite IH.
Qed.

Lemma chars_remove_char (c : ascii) (s : string) :
  list_ascii_of_string (remove_char c s)
  = List.filter (fun a => negb (Ascii.eqb a c)) (list_ascii_of_string s).
Proof.
  induction s as [|a s IH]; cbn [remove_char list_ascii_of_string List.filter];
    [reflexivity|].
  destruct (Ascii.eqb a c); cbn [negb list_ascii_of_string]; now rewrite IH.
Qed.

Lemma chars_lower (s : string) :
  list_ascii_of_string (lower s) = map lower_ascii (list_ascii_of_string s).
Proof.
  induction s as [|a s IH]; cbn [lower list_ascii_of_string map]; now rewrite ?IH.
Qed.

(** No character that [lower_ascii] returns is one of A to Z. *)
Lemma lower_ascii_not_upper (c : ascii) :
  (nat_of_ascii (lower_ascii c) < 65 \/ 90 < nat_of_ascii (lower_ascii c))%nat.
Proof.
  unfold lower_ascii.
  destruct (65 <=? nat_of_ascii c)%nat eqn:Hlo; cbn [andb];
    [destruct (nat_of_ascii c <=? 90)%nat eqn:Hhi|].
  - apply Nat.leb_le in Hlo, Hhi. rewrite nat_ascii_embedding; lia.
  - apply Nat.leb_gt in Hhi. lia.
  - apply Nat.leb_gt in Hlo. lia.
Qed.

Lemma int_of_four_digits (t : Z) :
  0 <= t < 10000 -> int_of_digits 0 (four_digits t) = t.
Proof.
  intros Ht. unfold four_digits. cbn [int_of_digits].
  rewrite !digit_char_value by (apply Z.mod_pos_bound; lia).
  pose proof (Z.div_mod t 10). pose proof (Z.div_mod (t / 10) 10).
  pose proof (Z.div_mod (t / 100) 10).
  Z.div_mod_to_equations. lia.
Qed.

End CharacterFacts.

Lemma remove_char_absent (c : ascii) (s : string) :
  ~ In c (list_ascii_of_string (PyStr.remove_char c s)).
Proof.
  induction s as [|a s IH]; cbn [PyStr.remove_char list_ascii_of_string]; [tauto|].
  destruct (Ascii.eqb_spec a c) as [->|Hne]; [exact IH|].
  cbn [list_ascii_of_string In]. intros [Heq|Hin]; [congruence | exact (IH Hin)].
Qed.

Lemma slice_to_subset (n : nat) (s : string) (c : ascii) :
  In c (list_ascii_of_string (PyStr.slice_to n s)) -> In c (list_ascii_of_string s).
Proof.
  revert s; induction n as [|n IH]; intros [|a s]; cbn; try tauto.
  intros [Heq|Hin]; [now left | right; exact (IH _ Hin)].
Qed.

Lemma length_hex (bs : list Z) : String.length (MD5.hex bs) = (2 * length bs)%nat.
Proof. induction bs as [|b bs IH]; cbn [MD5.hex String.length length]; lia. Qed.

(** The digest this development computes has 32 hexadecimal characters. *)
Lemma hexdigest_length (s : string) : String.length (MD5.hexdigest s) = 32%nat.
Proof.
  unfold MD5.hexdigest, MD5.digest. rewrite length_hex.
  rewrite !length_app. unfold MD5.le_bytes. rewrite !length_map, !length_seq.
  reflexivity.
Qed.

Section HexFacts.
Import MD5.

Lemma hex_char_digit (d : Z) : 0 <= d < 16 -> In (hex_char d) hex_digits.
Proof.
  intros Hd. rewrite <- (Z2Nat.id d) by lia.
  assert (Hk : (Z.to_nat d < 16)%nat) by lia.
  revert Hk. generalize (Z.to_nat d). clear d Hd. intros k Hk.
  do 16 (destruct k as [|k]; [vm_compute; tauto|]). lia.
Qed.

Lemma hex_digits_of_bytes (bs : list Z) :
  Forall (fun b => 0 <= b < 256) bs ->
  Forall (fun a => In a hex_digits) (list_ascii_of_string (hex bs)).
Proof.
  induction 1 as [|b bs Hb _ IH]; cbn [hex list_ascii_of_string]; [constructor|].
  constructor; [|constructor; [|exact IH]]; apply hex_char_digit.
  - split; [apply Z.div_pos; lia | apply Z.div_lt_upper_bound; lia].
  - apply Z.mod_pos_bound. lia.
Qed.

Lemma le_bytes_range (n : nat) (x : Z) : Forall (fun b => 0 <= b < 256) (le_bytes n x).
Proof.
  unfold le_bytes. apply List.Forall_forall. intros b Hb.
  apply List.in_map_iff in Hb as (k & <- & _). apply Z.mod_pos_bound. lia.
Qed.

Lemma hexdigest_digits (s : string) :
  Forall (fun a => In a hex_digits) (list_ascii_of_string (hexdigest s)).
Proof.
  unfold hexdigest, digest. apply hex_digits_of_bytes.
  repeat apply Forall_app_2; apply le_bytes_range.
Qed.

End HexFacts.

Lemma Forall_firstn {A} (P : A -> Prop) (n : nat) (l : list A) :
  Forall P l -> Forall P (firstn n l).
Proof.
  intros H. revert n. induction H as [|a l Ha _ IH]; intros [|n]; cbn; constructor; auto.
Qed.

(** C10: for every container name (and every clock reading) the generated
    storage-account name has at most 24 characters.  It is the [[:24]] cut
    of prefix, timestamp and hash suffix put together, and the cut removes
    nothing.  The prefix is the first 15 of the characters of the
    lowercased name that are not a dash, in their order; the timestamp,
    from clock reading 1000 on, is made of four decimal digits that read as
    the clock modulo 10000; the hash suffix is the first four characters of
    the digest.  With the ASCII [str.lower] and the MD5 of this development
    the prefix holds no dash and no letter A to Z, and the hash suffix is
    four hexadecimal digits. *)
Theorem generate_storage_account_name_length
    (str_lower md5_hexdigest : string -> string) (now : Z) (container_name : string) :
  let prefix := Azure.account_prefix str_lower container_name in
  let timestamp := Azure.account_timestamp now in
  let hash_suffix := Azure.account_hash_suffix md5_hexdigest container_name in
  let account :=
    Azure.generate_storage_account_name str_lower md5_hexdigest now container_name in
  let chars := list_ascii_of_string in
  (String.length account <= 24)%nat
  /\ account = PyStr.slice_to 24 (prefix ++ timestamp ++ hash_suffix)
  /\ (String.length prefix <= 15)%nat
  /\ (String.length timestamp <= 4)%nat
  /\ (1000 <= now -> String.length timestamp = 4%nat)
  /\ (String.length hash_suffix <= 4)%nat
  /\ (String.length (md5_hexdigest container_name) = 32%nat ->
      String.length hash_suffix = 4%nat)
  /\ account = prefix ++ timestamp ++ hash_suffix
  /\ chars prefix
     = firstn 15 (List.filter (fun a => negb (Ascii.eqb a "-"))
                    (chars (str_lower container_name)))
  /\ ~ In "-"%char (chars prefix)
  /\ (1000 <= now ->
      timestamp = PyStr.four_digits (now mod 10000)
      /\ PyStr.int_of_digits 0 timestamp = now mod 10000)
  /\ chars hash_suffix = firstn 4 (chars (md5_hexdigest container_name))
  /\ chars (PyStr.lower container_name) = map PyStr.lower_ascii (chars container_name)
  /\ (forall c : ascii,
        let n := nat_of_ascii c in
        nat_of_ascii (PyStr.lower_ascii c)
        = if ((65 <=? n) && (n <=? 90))%nat then (n + 32)%nat else n)
  /\ (forall a, In a (chars (Azure.account_prefix PyStr.lower container_name)) ->
        a <> "-"%char /\ (nat_of_ascii a < 65 \/ 90 < nat_of_ascii a)%nat)
  /\ String.length (Azure.account_hash_suffix MD5.hexdigest container_name) = 4%nat
  /\ Forall (fun a => In a MD5.hex_digits)
       (chars (Azure.account_hash_suffix MD5.hexdigest container_name)).
Proof.
  cbv zeta. repeat apply conj.
  - unfold Azure.generate_storage_account_name.
    rewrite length_slice_to. lia.
  - reflexivity.
  - apply account_prefix_length.
  - apply account_timestamp_length.
  - intros H. now rewrite account_timestamp_digits.
  - apply account_hash_suffix_length.
  - apply account_hash_suffix_length_md5.
  - apply generate_untruncated.
  - unfold Azure.account_prefix. now rewrite chars_slice_to, chars_remove_char.
  - intros Hin. unfold Azure.account_prefix in Hin.
    apply slice_to_subset in Hin. exact (remove_char_absent _ _ Hin).
  - intros H. rewrite account_timestamp_digits by assumption.
    split; [reflexivity|]. apply int_of_four_digits, Z.mod_pos_bound. lia.
  - unfold Azure.account_hash_suffix. apply chars_slice_to.
  - apply chars_lower.
  - intros c. unfold PyStr.lower_ascii.
    destruct ((65 <=? nat_of_ascii c) && (nat_of_ascii c <=? 90))%nat eqn:Hupper;
      [|reflexivity].
    apply andb_true_iff in Hupper as [_ Hhi]. apply Nat.leb_le in Hhi.
    rewrite nat_ascii_embedding; lia.
  - intros a Hin. unfold Azure.account_prefix in Hin. split.
    + intros ->. apply slice_to_subset in Hin. exact (remove_char_absent _ _ Hin).
    + apply slice_to_subset in Hin. rewrite chars_remove_char in Hin.
      apply List.filter_In in Hin as [Hin _]. rewrite chars_lower in Hin.
      apply List.in_map_iff in Hin as (c & <- & _). apply lower_ascii_not_upper.
  - apply account_hash_suffix_length_md5, hexdigest_length.
  - unfold Azure.account_hash_suffix. rewrite chars_slice_to.
    apply Forall_firstn, hexdigest_digits.
Qed.

Lemma generate_storage_account_name_length_witness :
  let name := "My-Data-Lake-Container-2024" in
  let account := Azure.generate_storage_account_name_ascii 1700000012 name in
  (String.length account <= 24)%nat
  /\ account = Azure.account_prefix PyStr.lower name
               ++ Azure.account_timestamp 1700000012
               ++ Azure.account_hash_suffix MD5.hexdigest name
  /\ String.length (Azure.account_timestamp 1700000012) = 4%nat
  /\ String.length (Azure.account_hash_suffix MD5.hexdigest name) = 4%nat
  /\ Azure.account_timestamp 1700000012 = PyStr.four_digits (1700000012 mod 10000)
  /\ PyStr.int_of_digits 0 (Azure.account_timestamp 1700000012) = 1700000012 mod 10000
  /\ account = "mydatalakeconta0012db9a".
Proof.
  intros name account.
  destruct (generate_storage_account_name_length PyStr.lower MD5.hexdigest
              1700000012 name)
    as (Hlen & _ & _ & _ & Hstamp & _ & Hhash & Hparts & _ & _ & Hclock & _).
  assert (Hnow : 1000 <= 1700000012) by lia.
  assert (Hmd5 : String.length (MD5.hexdigest name) = 32%nat)
    by (vm_compute; reflexivity).
  split; [exact Hlen|]. split; [exact Hparts|]. split; [exact (Hstamp Hnow)|].
  split; [exact (Hhash Hmd5)|].
  destruct (Hclock Hnow) as [Hdigits Hvalue].
  split; [exact Hdigits|]. split; [exact Hvalue|].
  vm_compute. reflexivity.
Defined.

Example generate_storage_account_name_run :
  Azure.generate_storage_account_name_ascii 1700000012 "My-Data-Lake-Container-2024"
  = "mydatalakeconta0012db9a".
Proof. vm_compute. reflexivity. Qed.

(** C1, as stated, fails: the same container name yields two different
    storage-account names at two clock readings one second apart. *)
Lemma generate_storage_account_name_not_stable :
  Azure.generate_storage_account_name_ascii 1700000000 "my-data" = "mydata00005fe4"
  /\ Azure.generate_storage_account_name_ascii 1700000001 "my-data" = "mydata00015fe4"
  /\ Azure.generate_storage_account_name_ascii 1700000000 "my-data"
     <> Azure.generate_storage_account_name_ascii 1700000001 "my-data".
Proof. vm_compute. repeat split. discriminate. Qed.

(** C1, amended: the generated name is a function of the container name
    and of the clock, and of the clock it keeps exactly the four low
    decimal digits.  Two invocations with the same container name (from
    1000 seconds after the epoch on) return the same name if and only if
    their clock readings agree modulo 10000. *)
Theorem generate_storage_account_name_clock
    (str_lower md5_hexdigest : string -> string) (container_name : string)
    (now1 now2 : Z) :
  1000 <= now1 -> 1000 <= now2 ->
  (Azure.generate_storage_account_name str_lower md5_hexdigest now1 container_name
   = Azure.generate_storage_account_name str_lower md5_hexdigest now2 container_name
   <-> now1 mod 10000 = now2 mod 10000).
Proof.
  intros H1 H2. rewrite !generate_untruncated, !account_timestamp_digits by assumption.
  split.
  - intros H. apply append_inv_head in H.
    apply four_digits_inj; try (apply Z.mod_pos_bound; lia).
    unfold PyStr.four_digits in *. rewrite !append_cons, !append_nil in H.
    injection H as -> -> -> ->. reflexivity.
  - now intros ->.
Qed.

Lemma generate_storage_account_name_clock_witness :
  Azure.generate_storage_account_name PyStr.lower MD5.hexdigest 1700000000 "my-data"
  = Azure.generate_storage_account_name PyStr.lower MD5.hexdigest 1700010000 "my-data"
  <-> 1700000000 mod 10000 = 1700010000 mod 10000.
Proof.
  apply (generate_storage_account_name_clock PyStr.lower MD5.hexdigest "my-data"
           1700000000 1700010000); lia.
Defined.

(* ===================================================================== *)
(** * Running the scripts symbolically *)
(* ===================================================================== *)

Ltac py_simpl :=
  cbn [cloud history fst snd app raised negb andb String.eqb Ascii.eqb Bool.eqb] in *.

Ltac py_unfold :=
  unfold result, trace, after, mbind, mret, M_bind, M_ret, bind, ret,
    try_except, sdk, print, sys_exit, raise, boot in *;
  py_simpl.

(** Replace every SDK method whose reply is given by a hypothesis. *)
Ltac py_replies :=
  repeat match goal with
         | H : _ = (_, _) |- _ => rewrite H; py_simpl
         end.

Ltac aws_unfold :=
  unfold AWS.create_bucket, AWS.delete_bucket, AWS.check_bucket,
    AWS.bucket_exists in *.

Ltac gcp_unfold :=
  unfold GCP.create_bucket_default, GCP.create_bucket, GCP.delete_bucket,
    GCP.check_bucket in *.

Ltac azure_unfold :=
  unfold Azure.create_container, Azure.delete_container, Azure.check_container,
    Azure.create_storage_account, Azure.container_exists,
    Azure.storage_account_exists, Azure._get_blob_service_client in *.

Ltac py_run :=
  repeat match goal with x := _ |- _ => subst x end;
  aws_unfold; gcp_unfold; azure_unfold; py_unfold; py_replies.

Ltac mem_unfold :=
  unfold MemS3.service, MemS3.racing, MemS3.flaky_cleanup,
    MemGCS.service, MemGCS.racing, MemGCS.forbidden,
    MemAzure.service, MemAzure.forbidden, MemAzure.forbidden_keys, quiet, raced in *;
  cbn [AWS.s3_head_bucket AWS.s3_create_bucket AWS.s3_objects_delete
       AWS.s3_delete_bucket AWS.s3_get_bucket_location AWS.s3_list_buckets
       GCP.gcs_Client GCP.gcs_get_bucket GCP.gcs_create_bucket
       GCP.gcs_list_blobs GCP.gcs_delete_blobs GCP.gcs_bucket_delete
       Azure.az_get_properties Azure.az_list_keys Azure.az_begin_create
       Azure.az_poller_result Azure.az_container_exists
       Azure.az_create_container Azure.az_delete_container
       Azure.az_get_container_properties] in *;
  unfold MemS3.head_bucket, MemS3.create_bucket, MemS3.objects_delete,
    MemS3.delete_bucket, MemS3.get_bucket_location, MemS3.list_buckets,
    MemGCS.Client, MemGCS.get_bucket, MemGCS.create_bucket, MemGCS.list_blobs,
    MemGCS.delete_blobs, MemGCS.bucket_delete,
    MemAzure.get_properties, MemAzure.list_keys, MemAzure.begin_create,
    MemAzure.poller_result, MemAzure.container_exists,
    MemAzure.create_container, MemAzure.delete_container,
    MemAzure.get_container_properties in *.

(** Membership in a set of containers that was just written. *)
Ltac mem_member :=
  solve [ assumption
        | apply not_elem_of_empty
        | apply elem_of_union_l, elem_of_singleton_2; reflexivity
        | apply not_elem_of_difference; right; apply elem_of_singleton_2; reflexivity ].

(** Look a name up in a store that was just written at that name. *)
Ltac mem_lookup :=
  repeat first
    [ rewrite lookup_insert_eq
    | rewrite lookup_delete_eq
    | rewrite bool_decide_eq_true_2 by mem_member
    | rewrite bool_decide_eq_false_2 by mem_member
    | match goal with H : _ !! _ = _ |- _ => rewrite H end
    | progress py_simpl
    | progress cbn [GCP.name Azure.account_name MemS3.mb_objects
                    MemS3.mb_location MemS3.mb_created] ].

Ltac mem_run := py_run; mem_unfold; mem_lookup.

(** Case analysis on every reply, exception and test a run depends on. *)
Ltac py_case :=
  match goal with
  | |- context [match ?t with _ => _ end] =>
      lazymatch t with
      | context [match _ with _ => _ end] => fail
      | _ => idtac
      end;
      lazymatch type of t with
      | (reply _ _ * _)%type => destruct t as [[?|?] ?] eqn:?
      | AWS.exn => destruct t
      | GCP.exn => destruct t
      | Azure.exn => destruct t
      | list _ => destruct t
      | option _ => destruct t
      | bool => destruct t eqn:?
      end
  end; py_simpl.

Ltac py_cases := repeat py_case.

(** What an explicit history contains. *)
Ltac py_history :=
  intros;
  repeat match goal with
         | H : In _ _ |- _ => cbn [In] in H
         | H : _ \/ _ |- _ => destruct H
         | H : False |- _ => destruct H
         | H : @eq (event _ _ _) _ _ |- _ => first [discriminate H | injection H as ?; subst]
         | H : @eq (option _) (Some _) (Some _) |- _ => injection H as ?; subst
         | H : String.eqb _ _ = false |- _ => apply String.eqb_neq in H
         | H : String.eqb _ _ = true |- _ => apply String.eqb_eq in H; subst
         end;
  try congruence; try discriminate; auto.

(* ===================================================================== *)
(** * Idempotence *)
(* ===================================================================== *)

Lemma filter_out_all (blobs : list string) :
  filter (fun x => x ∉ blobs) blobs = [].
Proof.
  apply elem_of_nil_inv. intros x Hx.
  apply list_elem_of_filter in Hx. tauto.
Qed.

(** C5: ensure-present is idempotent.  Whatever the provider, when the
    existence probe finds the resource, the run returns [True] after
    printing that the resource already exists and is skipped, and the
    provider's create method is not called (AWS, GCP, and Azure once the
    storage account is found).  On an in-memory provider where the resource
    is absent, two runs in sequence print "created" then "already exists",
    both return [True], and the create method is called once in all. *)
Theorem ensure_present_idempotent :
  (forall W (s3 : AWS.S3 W) (n region : string) (w w1 : W),
      AWS.s3_head_bucket s3 n w = (Ok tt, w1) ->
      AWS.create_bucket s3 n region (boot w)
      = (Returns true,
         Machine w1 [Called (AWS.HeadBucket n) None;
                     Printed (AWS.AlreadyExistsSkipping n)]))
  /\ (forall W (gcs : GCP.GCS W) (n loc pid sc : string) (c : GCP.client)
             (b : GCP.bucket) (w w1 w2 : W),
      GCP.gcs_Client gcs pid w = (Ok c, w1) ->
      GCP.gcs_get_bucket gcs c n w1 = (Ok b, w2) ->
      GCP.create_bucket gcs n loc pid sc (boot w)
      = (Returns true,
         Machine w2 [Called (GCP.NewClient pid) None;
                     Called (GCP.GetBucket n) None;
                     Printed (GCP.AlreadyExistsSkipping n)]))
  /\ (forall W (az : Azure.SDK W) (self : Azure.manager) (acct c key : string)
             (keys : list string) (w w1 w2 w3 : W),
      let rg := Azure.resource_group self in
      let svc := {| Azure.account_name := acct; Azure.account_key := key |} in
      Azure.az_get_properties az rg acct w = (Ok tt, w1) ->
      Azure.az_list_keys az rg acct w1 = (Ok (key :: keys), w2) ->
      Azure.az_container_exists az svc c w2 = (Ok true, w3) ->
      Azure.create_container az self acct c (boot w)
      = (Returns true,
         Machine w3 [Called (Azure.GetProperties rg acct) None;
                     Printed (Azure.AccountAlreadyExistsSkipping acct);
                     Called (Azure.ListKeys rg acct) None;
                     Called (Azure.ContainerExists svc c) None;
                     Printed (Azure.ContainerAlreadyExistsSkipping c)]))
  /\ (forall (w : MemS3.store) (n region : string),
      w !! n = None ->
      let run := AWS.create_bucket MemS3.service n region in
      result run w = Returns true
      /\ output (trace run w)
         = [AWS.CreatingBucket n region; AWS.SuccessfullyCreated n]
      /\ result run (after run w) = Returns true
      /\ output (trace run (after run w)) = [AWS.AlreadyExistsSkipping n]
      /\ count_calls aws_is_create (trace run w ++ trace run (after run w)) = 1%nat)
  /\ (forall (w : MemGCS.store) (n loc pid : string),
      w !! n = None ->
      let run := GCP.create_bucket_default MemGCS.service n loc pid in
      result run w = Returns true
      /\ output (trace run w) = [GCP.CreatedSuccessfully n loc]
      /\ result run (after run w) = Returns true
      /\ output (trace run (after run w)) = [GCP.AlreadyExistsSkipping n]
      /\ count_calls gcp_is_create (trace run w ++ trace run (after run w)) = 1%nat)
  /\ (forall (w : MemAzure.store) (self : Azure.manager) (acct c : string),
      w !! acct = None ->
      let run := Azure.create_container MemAzure.service self acct c in
      result run w = Returns true
      /\ output (trace run w)
         = [Azure.CreatingStorageAccount acct (Azure.region self);
            Azure.SuccessfullyCreatedAccount acct;
            Azure.CreatingContainer c acct;
            Azure.SuccessfullyCreatedContainer c]
      /\ result run (after run w) = Returns true
      /\ output (trace run (after run w))
         = [Azure.AccountAlreadyExistsSkipping acct;
            Azure.ContainerAlreadyExistsSkipping c]
      /\ count_calls azure_is_create (trace run w ++ trace run (after run w)) = 1%nat).
Proof.
  repeat apply conj; intros.
  - py_run. reflexivity.
  - py_run. reflexivity.
  - py_run. reflexivity.
  - subst run. destruct (String.eqb region "us-east-1") eqn:Hregion; mem_run.
    all: rewrite Hregion; mem_lookup; repeat split.
  - subst run. mem_run. repeat split.
  - subst run. mem_run. repeat split.
Qed.

Lemma ensure_present_idempotent_witness :
  let held := <["my-data" := MemS3.empty_bucket]> (∅ : MemS3.store) in
  let kept := <["my-data" := (MemGCS.standard_bucket "my-data", [])]> (∅ : MemGCS.store) in
  let account := <["acct" := ({["c1"]} : gset string)]> (∅ : MemAzure.store) in
  let svc := {| Azure.account_name := "acct"; Azure.account_key := "key-of-acct" |} in
  AWS.create_bucket MemS3.service "my-data" "r1" (boot held)
  = (Returns true,
     Machine held [Called (AWS.HeadBucket "my-data") None;
                   Printed (AWS.AlreadyExistsSkipping "my-data")])
  /\ GCP.create_bucket MemGCS.service "my-data" "US" "p" "STANDARD" (boot kept)
     = (Returns true,
        Machine kept [Called (GCP.NewClient "p") None;
                      Called (GCP.GetBucket "my-data") None;
                      Printed (GCP.AlreadyExistsSkipping "my-data")])
  /\ Azure.create_container MemAzure.service MemAzure.me "acct" "c1" (boot account)
     = (Returns true,
        Machine account
          [Called (Azure.GetProperties "rg" "acct") None;
           Printed (Azure.AccountAlreadyExistsSkipping "acct");
           Called (Azure.ListKeys "rg" "acct") None;
           Called (Azure.ContainerExists svc "c1") None;
           Printed (Azure.ContainerAlreadyExistsSkipping "c1")])
  /\ (let run := AWS.create_bucket MemS3.service "my-data" "r1" in
      result run ∅ = Returns true
      /\ output (trace run ∅)
         = [AWS.CreatingBucket "my-data" "r1"; AWS.SuccessfullyCreated "my-data"]
      /\ result run (after run ∅) = Returns true
      /\ output (trace run (after run ∅)) = [AWS.AlreadyExistsSkipping "my-data"]
      /\ count_calls aws_is_create (trace run ∅ ++ trace run (after run ∅)) = 1%nat)
  /\ (let run := GCP.create_bucket_default MemGCS.service "my-data" "US" "p" in
      result run ∅ = Returns true
      /\ output (trace run ∅) = [GCP.CreatedSuccessfully "my-data" "US"]
      /\ result run (after run ∅) = Returns true
      /\ output (trace run (after run ∅)) = [GCP.AlreadyExistsSkipping "my-data"]
      /\ count_calls gcp_is_create (trace run ∅ ++ trace run (after run ∅)) = 1%nat)
  /\ (let run := Azure.create_container MemAzure.service MemAzure.me "acct" "c1" in
      result run ∅ = Returns true
      /\ output (trace run ∅)
         = [Azure.CreatingStorageAccount "acct" "eastus";
            Azure.SuccessfullyCreatedAccount "acct";
            Azure.CreatingContainer "c1" "acct";
            Azure.SuccessfullyCreatedContainer "c1"]
      /\ result run (after run ∅) = Returns true
      /\ output (trace run (after run ∅))
         = [Azure.AccountAlreadyExistsSkipping "acct";
            Azure.ContainerAlreadyExistsSkipping "c1"]
      /\ count_calls azure_is_create (trace run ∅ ++ trace run (after run ∅)) = 1%nat).
Proof.
  destruct ensure_present_idempotent as (Haws & Hgcp & Haz & Haws2 & Hgcp2 & Haz2).
  intros held kept account svc.
  split; [|split; [|split; [|split; [|split]]]].
  - apply (Haws _ MemS3.service "my-data" "r1" held held). reflexivity.
  - apply (Hgcp _ MemGCS.service "my-data" "US" "p" "STANDARD"
             {| GCP.project := "p" |} (MemGCS.standard_bucket "my-data") kept kept kept);
      reflexivity.
  - apply (Haz _ MemAzure.service MemAzure.me "acct" "c1" "key-of-acct" []
             account account account account); reflexivity.
  - apply (Haws2 ∅ "my-data" "r1"). reflexivity.
  - apply (Hgcp2 ∅ "my-data" "US" "p"). reflexivity.
  - apply (Haz2 ∅ MemAzure.me "acct" "c1"). reflexivity.
Defined.

(** C6: ensure-absent is idempotent.  Whatever the provider, when the
    existence probe finds nothing, the run returns [True] after printing
    that the resource does not exist and is skipped, and the provider's
    delete method is not called.  On Azure this holds for every way
    [container_exists] comes to return [False]: the container is not in the
    account, or the account is not there and [list_keys] raises, which the
    probe logs.  On an in-memory provider that holds the resource, two runs
    in sequence print "deleted" then "does not exist", both return [True],
    and the delete method is called once in all; on the in-memory Azure
    provider every state without the container, the one without the
    storage account included, gives [True], no delete call and an
    unchanged provider. *)
Theorem ensure_absent_idempotent :
  (forall W (s3 : AWS.S3 W) (n region : string) (w w1 : W),
      AWS.s3_head_bucket s3 n w = (Err (AWS.ClientError "404"), w1) ->
      AWS.delete_bucket s3 n region (boot w)
      = (Returns true,
         Machine w1 [Called (AWS.HeadBucket n) (Some (AWS.ClientError "404"));
                     Printed (AWS.DoesNotExistSkipping n)]))
  /\ (forall W (gcs : GCP.GCS W) (n pid : string) (c : GCP.client) (w w1 w2 : W),
      GCP.gcs_Client gcs pid w = (Ok c, w1) ->
      GCP.gcs_get_bucket gcs c n w1 = (Err GCP.NotFound, w2) ->
      GCP.delete_bucket gcs n pid (boot w)
      = (Returns true,
         Machine w2 [Called (GCP.NewClient pid) None;
                     Called (GCP.GetBucket n) (Some GCP.NotFound);
                     Printed (GCP.DoesNotExistSkipping n)]))
  /\ (forall W (az : Azure.SDK W) (self : Azure.manager) (acct c key : string)
             (keys : list string) (w w1 w2 : W),
      let rg := Azure.resource_group self in
      let svc := {| Azure.account_name := acct; Azure.account_key := key |} in
      Azure.az_list_keys az rg acct w = (Ok (key :: keys), w1) ->
      Azure.az_container_exists az svc c w1 = (Ok false, w2) ->
      Azure.delete_container az self acct c (boot w)
      = (Returns true,
         Machine w2 [Called (Azure.ListKeys rg acct) None;
                     Called (Azure.ContainerExists svc c) None;
                     Printed (Azure.ContainerDoesNotExistSkipping c)]))
  /\ (forall (w : MemS3.store) (n region : string) (b : MemS3.mem_bucket),
      w !! n = Some b ->
      let run := AWS.delete_bucket MemS3.service n region in
      result run w = Returns true
      /\ output (trace run w)
         = [AWS.DeletingBucket n; AWS.AttemptingToEmpty; AWS.EmptiedContents;
            AWS.SuccessfullyDeleted n]
      /\ result run (after run w) = Returns true
      /\ output (trace run (after run w)) = [AWS.DoesNotExistSkipping n]
      /\ count_calls aws_is_delete (trace run w ++ trace run (after run w)) = 1%nat)
  /\ (forall (w : MemGCS.store) (n pid : string) (b : GCP.bucket)
             (blobs : list string),
      w !! n = Some (b, blobs) -> GCP.name b = n ->
      let run := GCP.delete_bucket MemGCS.service n pid in
      result run w = Returns true
      /\ output (trace run w)
         = GCP.AttemptingToDeleteObjects n
           :: match blobs with
              | [] => []
              | _ :: _ => [GCP.DeletedObjects (length blobs)]
              end ++ [GCP.DeletedSuccessfully n]
      /\ result run (after run w) = Returns true
      /\ output (trace run (after run w)) = [GCP.DoesNotExistSkipping n]
      /\ count_calls gcp_is_delete (trace run w ++ trace run (after run w)) = 1%nat)
  /\ (forall (w : MemAzure.store) (self : Azure.manager) (acct c : string)
             (held : gset string),
      w !! acct = Some held -> c ∈ held ->
      let run := Azure.delete_container MemAzure.service self acct c in
      result run w = Returns true
      /\ output (trace run w)
         = [Azure.DeletingContainer c; Azure.SuccessfullyDeletedContainer c]
      /\ result run (after run w) = Returns true
      /\ output (trace run (after run w)) = [Azure.ContainerDoesNotExistSkipping c]
      /\ count_calls azure_is_delete (trace run w ++ trace run (after run w)) = 1%nat)
  /\ (forall W (az : Azure.SDK W) (self : Azure.manager) (acct c : string) (w : W),
      let probe := Azure.container_exists az self acct c in
      let run := Azure.delete_container az self acct c in
      result probe w = Returns false ->
      run (boot w)
      = (Returns true,
         Machine (after probe w)
           (trace probe w ++ [Printed (Azure.ContainerDoesNotExistSkipping c)]))
      /\ count_calls azure_is_delete (trace run w) = 0%nat)
  /\ (forall W (az : Azure.SDK W) (self : Azure.manager) (acct c : string)
             (e : Azure.exn) (w w1 : W),
      let rg := Azure.resource_group self in
      Azure.az_list_keys az rg acct w = (Err e, w1) ->
      Azure.delete_container az self acct c (boot w)
      = (Returns true,
         Machine w1 [Called (Azure.ListKeys rg acct) (Some e);
                     Printed (Azure.FailedToGetBlobServiceClient e);
                     Printed (Azure.ErrorCheckingContainer e);
                     Printed (Azure.ContainerDoesNotExistSkipping c)]))
  /\ (forall (w : MemAzure.store) (self : Azure.manager) (acct c : string),
      (forall held, w !! acct = Some held -> c ∉ held) ->
      let run := Azure.delete_container MemAzure.service self acct c in
      result run w = Returns true
      /\ output (trace run w)
         = (match w !! acct with
            | Some _ => []
            | None =>
                [Azure.FailedToGetBlobServiceClient Azure.ResourceNotFoundError;
                 Azure.ErrorCheckingContainer Azure.ResourceNotFoundError]
            end ++ [Azure.ContainerDoesNotExistSkipping c])%list
      /\ count_calls azure_is_delete (trace run w) = 0%nat
      /\ after run w = w).
Proof.
  repeat apply conj; intros.
  - py_run. reflexivity.
  - py_run. reflexivity.
  - py_run. reflexivity.
  - subst run. mem_run. repeat split.
  - subst run. destruct b as [bn bl bs bt]; cbn [GCP.name] in *; subst bn.
    destruct blobs as [|blob blobs]; mem_run.
    + repeat split.
    + rewrite filter_out_all. mem_lookup. repeat split.
  - subst run. mem_run. repeat split.
  - py_run. py_cases;
      first [ discriminate
            | split; reflexivity
            | match goal with
              | H : Returns _ = Returns false |- _ => injection H as ->; discriminate
              end ].
  - py_run. reflexivity.
  - subst run. destruct (w !! acct) as [held|] eqn:Hacct.
    + pose proof (H held eq_refl). mem_run. repeat split.
    + mem_run. repeat split.
Qed.

(* ===================================================================== *)
(** * Races and refusals *)
(* ===================================================================== *)

(** C2, as stated, fails on GCP: the bucket is absent at the probe, a
    concurrent creator makes it, [create_bucket] raises [Conflict], and the
    script prints a failure and returns [False]. *)
Lemma gcp_create_conflict_is_failure :
  let run := GCP.create_bucket_default MemGCS.racing "my-data" "US" "p" in
  let rival : MemGCS.store -> MemGCS.store :=
    insert "my-data" (MemGCS.standard_bucket "my-data", []) in
  result run (∅, Some rival) = Returns false
  /\ trace run (∅, Some rival)
     = [Called (GCP.NewClient "p") None;
        Called (GCP.GetBucket "my-data") (Some GCP.NotFound);
        Called (GCP.CreateBucket {| GCP.name := "my-data";
                                    GCP.location := Some "US";
                                    GCP.storage_class := Some "STANDARD";
                                    GCP.time_created := None |})
               (Some GCP.Conflict);
        Printed (GCP.AlreadyExistsConflict "my-data")].
Proof. vm_compute. split; reflexivity. Qed.

(** C2, amended: on AWS and on Azure a create call that reports the benign
    "already exists" condition ([BucketAlreadyExists] or
    [BucketAlreadyOwnedByYou]; [ResourceExistsError]) makes the run return
    [True]; on GCP a create call that raises [Conflict] makes the run print
    the conflict as a failure and return [False].  This holds for every
    provider behaviour and every provider state. *)
Theorem create_already_exists_outcome :
  (forall W (s3 : AWS.S3 W) (n region : string) (w : W)
          (lc : option string) (code : string),
      let run := AWS.create_bucket s3 n region in
      In (Called (AWS.CreateBucket n lc) (Some (AWS.ClientError code))) (trace run w) ->
      code = "BucketAlreadyExists" \/ code = "BucketAlreadyOwnedByYou" ->
      result run w = Returns true)
  /\ (forall W (az : Azure.SDK W) (self : Azure.manager) (acct c : string) (w : W)
             (svc : Azure.blob_service),
      let run := Azure.create_container az self acct c in
      In (Called (Azure.CreateContainer svc c) (Some Azure.ResourceExistsError))
         (trace run w) ->
      result run w = Returns true)
  /\ (forall W (gcs : GCP.GCS W) (n loc pid sc : string) (w : W) (b : GCP.bucket),
      let run := GCP.create_bucket gcs n loc pid sc in
      In (Called (GCP.CreateBucket b) (Some GCP.Conflict)) (trace run w) ->
      result run w = Returns false
      /\ last (output (trace run w)) = Some (GCP.AlreadyExistsConflict n)).
Proof.
  repeat apply conj; intros; py_run.
  - py_cases; py_history.
  - py_cases; py_history.
  - py_cases; py_history.
Qed.

(** C3, as stated, fails on Azure: the container's [exists] request is
    answered 403, [container_exists] logs the error and returns [False],
    and the probe is read as "absent".  Deleting a container that is there
    returns [True] without a delete call, and creating goes on to the
    create call. *)
Lemma azure_forbidden_probe_read_as_absent :
  let w : MemAzure.store := <["acct" := {["c1"]}]> ∅ in
  let svc := {| Azure.account_name := "acct"; Azure.account_key := "key-of-acct" |} in
  let delete := Azure.delete_container MemAzure.forbidden MemAzure.me "acct" "c1" in
  let create := Azure.create_container MemAzure.forbidden MemAzure.me "acct" "c1" in
  result delete w = Returns true
  /\ trace delete w
     = [Called (Azure.ListKeys "rg" "acct") None;
        Called (Azure.ContainerExists svc "c1") (Some (Azure.HttpResponseError 403));
        Printed (Azure.ErrorCheckingContainer (Azure.HttpResponseError 403));
        Printed (Azure.ContainerDoesNotExistSkipping "c1")]
  /\ after delete w = w
  /\ calls (trace create w)
     = [Azure.GetProperties "rg" "acct"; Azure.ListKeys "rg" "acct";
        Azure.ContainerExists svc "c1"; Azure.ListKeys "rg" "acct";
        Azure.CreateContainer svc "c1"].
Proof. vm_compute. repeat split. Qed.

(** What [container_exists] does is the same whatever was recorded before
    it: it adds its own events to the history. *)
Lemma container_exists_from W (az : Azure.SDK W) (self : Azure.manager)
    (acct c : string) (w : W) (h : list (event Azure.api Azure.exn Azure.line)) :
  let probe := Azure.container_exists az self acct c in
  probe (Machine w h)
  = (result probe w, Machine (after probe w) (h ++ trace probe w)).
Proof.
  py_run. py_cases; rewrite <- ?app_assoc; reflexivity.
Qed.

(** Ensure-present on Azure once the storage account is ready and the
    existence probe has returned [False], for whatever reason: the creation
    step asks for the key of the account again, and only when it gets one is
    the container's create call made. *)
Lemma create_container_after_absent_probe W (az : Azure.SDK W)
    (self : Azure.manager) (acct c : string) (w w3 : W)
    (keys : reply Azure.exn (list string)) :
  let rg := Azure.resource_group self in
  let parent := Azure.create_storage_account az self acct in
  let probe := Azure.container_exists az self acct c in
  let run := Azure.create_container az self acct c in
  let w1 := after parent w in
  let w2 := after probe w1 in
  let before :=
    (trace parent w ++ trace probe w1
     ++ [Printed (Azure.CreatingContainer c acct);
         Called (Azure.ListKeys rg acct) (raised keys)])%list in
  let failed e :=
    match e with
    | Azure.ResourceExistsError =>
        (Returns true, Azure.ContainerCreatedByAnotherProcess c)
    | _ => (Returns false, Azure.FailedToCreateContainer e)
    end in
  result parent w = Returns true ->
  result probe w1 = Returns false ->
  Azure.az_list_keys az rg acct w2 = (keys, w3) ->
  match keys with
  | Err e =>
      run (boot w)
      = (fst (failed e),
         Machine w3
           (before ++ [Printed (Azure.FailedToGetBlobServiceClient e);
                       Printed (snd (failed e))]))
  | Ok [] =>
      let e := Azure.OtherException "IndexError" in
      run (boot w)
      = (Returns false,
         Machine w3
           (before ++ [Printed (Azure.FailedToGetBlobServiceClient e);
                       Printed (Azure.FailedToCreateContainer e)]))
  | Ok (key :: _) =>
      let svc := {| Azure.account_name := acct; Azure.account_key := key |} in
      forall (created : reply Azure.exn unit) (w4 : W),
        Azure.az_create_container az svc c w3 = (created, w4) ->
        run (boot w)
        = (match created with
           | Ok _ => Returns true
           | Err e => fst (failed e)
           end,
           Machine w4
             (before ++ [Called (Azure.CreateContainer svc c) (raised created);
                         Printed match created with
                                 | Ok _ => Azure.SuccessfullyCreatedContainer c
                                 | Err e => snd (failed e)
                                 end]))
  end.
Proof.
  intros rg parent probe run w1 w2 before failed Hparent Hprobe Hkeys.
  subst run before failed w2 w1 probe parent rg.
  unfold Azure.create_container, result, trace, after, mbind, M_bind, bind, boot in *.
  destruct (Azure.create_storage_account az self acct _) as [[[|]|?|?] [w1 h1]];
    try discriminate Hparent.
  cbn [fst snd cloud history negb] in *.
  rewrite container_exists_from.
  unfold result, trace, after, boot in *.
  destruct (Azure.container_exists az self acct c _) as [[[|]|?|?] [w2 h2]];
    try discriminate Hprobe.
  cbn [fst snd cloud history negb] in *.
  unfold Azure._get_blob_service_client.
  destruct keys as [[|key keys]|e]; [| |destruct e]; intros;
    try (destruct created as [[]|[]]);
    py_unfold; py_replies; rewrite <- ?app_assoc; reflexivity.
Qed.

(** C3, amended: when the existence probe is answered 403, AWS leaves
    through [sys.exit(1)] after printing "Access denied" and GCP returns
    [False] after printing the failure, and in both the probe is the last
    call: nothing is created or deleted.  On Azure the probe,
    [container_exists], makes two requests, [list_keys] on the storage
    account and [exists] on the container; whichever of them raises, a 403
    included, it logs the error and returns [False].  Ensure-absent then
    returns [True] without a delete call and describe returns [False].
    Ensure-present, once the storage-account step has returned [True], goes
    on to its creation step, which asks for the key of the account again:
    when that request raises as well (anything but [ResourceExistsError]),
    or gives no key, the run logs the failure and returns [False] without a
    create call; when it gives a key the create call is made and the run
    ends as that call does.  The probe of the storage account, with which
    ensure-present begins, is read the same way: whatever [get_properties]
    raises, a 403 included, [storage_account_exists] returns [False] and
    [begin_create] is called next.  Neither the storage-account step nor
    the probe ever calls [create_container] or [delete_container]. *)
Theorem probe_forbidden_outcome :
  (forall W (s3 : AWS.S3 W) (n region : string) (w w1 : W),
      AWS.s3_head_bucket s3 n w = (Err (AWS.ClientError "403"), w1) ->
      let stopped : ending AWS.exn bool * machine W AWS.api AWS.exn AWS.line :=
        (Exits 1, Machine w1 [Called (AWS.HeadBucket n) (Some (AWS.ClientError "403"));
                              Printed AWS.AccessDenied]) in
      AWS.create_bucket s3 n region (boot w) = stopped
      /\ AWS.delete_bucket s3 n region (boot w) = stopped
      /\ AWS.check_bucket s3 n (boot w) = stopped)
  /\ (forall W (gcs : GCP.GCS W) (n loc pid sc : string) (c : GCP.client) (w w1 w2 : W),
      GCP.gcs_Client gcs pid w = (Ok c, w1) ->
      GCP.gcs_get_bucket gcs c n w1 = (Err GCP.Forbidden, w2) ->
      let probed := [Called (GCP.NewClient pid) None;
                     Called (GCP.GetBucket n) (Some GCP.Forbidden)] in
      GCP.create_bucket gcs n loc pid sc (boot w)
      = (Returns false,
         Machine w2 (probed ++ [Printed (GCP.FailedToCreate n GCP.Forbidden)]))
      /\ GCP.delete_bucket gcs n pid (boot w)
         = (Returns false,
            Machine w2 (probed ++ [Printed (GCP.FailedToDelete n GCP.Forbidden)]))
      /\ GCP.check_bucket gcs n pid (boot w)
         = (Returns false,
            Machine w2 (probed ++ [Printed (GCP.ErrorChecking n GCP.Forbidden)])))
  /\ (forall W (az : Azure.SDK W) (self : Azure.manager) (acct c key : string)
             (keys : list string) (e : Azure.exn) (w w1 w2 : W),
      let rg := Azure.resource_group self in
      let svc := {| Azure.account_name := acct; Azure.account_key := key |} in
      Azure.az_list_keys az rg acct w = (Ok (key :: keys), w1) ->
      Azure.az_container_exists az svc c w1 = (Err e, w2) ->
      let probed := [Called (Azure.ListKeys rg acct) None;
                     Called (Azure.ContainerExists svc c) (Some e);
                     Printed (Azure.ErrorCheckingContainer e)] in
      Azure.container_exists az self acct c (boot w)
      = (Returns false, Machine w2 probed)
      /\ Azure.delete_container az self acct c (boot w)
         = (Returns true,
            Machine w2 (probed ++ [Printed (Azure.ContainerDoesNotExistSkipping c)]))
      /\ Azure.check_container az self acct c (boot w)
         = (Returns false,
            Machine w2 (probed ++ [Printed (Azure.ContainerDoesNotExist c)])))
  /\ (forall W (az : Azure.SDK W) (self : Azure.manager) (acct c key key' : string)
             (keys keys' : list string) (e : Azure.exn)
             (created : reply Azure.exn unit) (w w1 w2 w3 w4 w5 : W),
      let rg := Azure.resource_group self in
      let svc := {| Azure.account_name := acct; Azure.account_key := key |} in
      let svc' := {| Azure.account_name := acct; Azure.account_key := key' |} in
      Azure.az_get_properties az rg acct w = (Ok tt, w1) ->
      Azure.az_list_keys az rg acct w1 = (Ok (key :: keys), w2) ->
      Azure.az_container_exists az svc c w2 = (Err e, w3) ->
      Azure.az_list_keys az rg acct w3 = (Ok (key' :: keys'), w4) ->
      Azure.az_create_container az svc' c w4 = (created, w5) ->
      let run := Azure.create_container az self acct c in
      calls (trace run w)
      = [Azure.GetProperties rg acct; Azure.ListKeys rg acct;
         Azure.ContainerExists svc c; Azure.ListKeys rg acct;
         Azure.CreateContainer svc' c]
      /\ result run w
         = match created with
           | Ok _ | Err Azure.ResourceExistsError => Returns true
           | Err _ => Returns false
           end)
  /\ (forall W (az : Azure.SDK W) (self : Azure.manager) (acct c : string)
             (e : Azure.exn) (w w1 : W),
      let rg := Azure.resource_group self in
      Azure.az_list_keys az rg acct w = (Err e, w1) ->
      let probed := [Called (Azure.ListKeys rg acct) (Some e);
                     Printed (Azure.FailedToGetBlobServiceClient e);
                     Printed (Azure.ErrorCheckingContainer e)] in
      Azure.container_exists az self acct c (boot w)
      = (Returns false, Machine w1 probed)
      /\ Azure.delete_container az self acct c (boot w)
         = (Returns true,
            Machine w1 (probed ++ [Printed (Azure.ContainerDoesNotExistSkipping c)]))
      /\ Azure.check_container az self acct c (boot w)
         = (Returns false,
            Machine w1 (probed ++ [Printed (Azure.ContainerDoesNotExist c)])))
  /\ (forall W (az : Azure.SDK W) (self : Azure.manager) (acct c : string) (w : W)
             (request : Azure.api) (e : Azure.exn),
      let probe := Azure.container_exists az self acct c in
      In (Called request (Some e)) (trace probe w) ->
      result probe w = Returns false
      /\ Azure.delete_container az self acct c (boot w)
         = (Returns true,
            Machine (after probe w)
              (trace probe w ++ [Printed (Azure.ContainerDoesNotExistSkipping c)]))
      /\ Azure.check_container az self acct c (boot w)
         = (Returns false,
            Machine (after probe w)
              (trace probe w ++ [Printed (Azure.ContainerDoesNotExist c)])))
  /\ (forall W (az : Azure.SDK W) (self : Azure.manager) (acct c : string) (w w3 : W)
             (keys : reply Azure.exn (list string)),
      let rg := Azure.resource_group self in
      let parent := Azure.create_storage_account az self acct in
      let probe := Azure.container_exists az self acct c in
      let run := Azure.create_container az self acct c in
      let w1 := after parent w in
      let w2 := after probe w1 in
      let before :=
        (trace parent w ++ trace probe w1
         ++ [Printed (Azure.CreatingContainer c acct);
             Called (Azure.ListKeys rg acct) (raised keys)])%list in
      let failed e :=
        match e with
        | Azure.ResourceExistsError =>
            (Returns true, Azure.ContainerCreatedByAnotherProcess c)
        | _ => (Returns false, Azure.FailedToCreateContainer e)
        end in
      result parent w = Returns true ->
      result probe w1 = Returns false ->
      Azure.az_list_keys az rg acct w2 = (keys, w3) ->
      match keys with
      | Err e =>
          run (boot w)
          = (fst (failed e),
             Machine w3
               (before ++ [Printed (Azure.FailedToGetBlobServiceClient e);
                           Printed (snd (failed e))]))
      | Ok [] =>
          let e := Azure.OtherException "IndexError" in
          run (boot w)
          = (Returns false,
             Machine w3
               (before ++ [Printed (Azure.FailedToGetBlobServiceClient e);
                           Printed (Azure.FailedToCreateContainer e)]))
      | Ok (key :: _) =>
          let svc := {| Azure.account_name := acct; Azure.account_key := key |} in
          forall (created : reply Azure.exn unit) (w4 : W),
            Azure.az_create_container az svc c w3 = (created, w4) ->
            run (boot w)
            = (match created with
               | Ok _ => Returns true
               | Err e => fst (failed e)
               end,
               Machine w4
                 (before ++ [Called (Azure.CreateContainer svc c) (raised created);
                             Printed match created with
                                     | Ok _ => Azure.SuccessfullyCreatedContainer c
                                     | Err e => snd (failed e)
                                     end]))
      end)
  /\ (forall W (az : Azure.SDK W) (self : Azure.manager) (acct : string)
             (e : Azure.exn) (w w1 : W),
      let rg := Azure.resource_group self in
      Azure.az_get_properties az rg acct w = (Err e, w1) ->
      result (Azure.storage_account_exists az self acct) w = Returns false
      /\ exists rest,
           calls (trace (Azure.create_storage_account az self acct) w)
           = Azure.GetProperties rg acct
             :: Azure.BeginCreate rg acct (Azure.region self) :: rest)
  /\ (forall W (az : Azure.SDK W) (self : Azure.manager) (acct c : string) (w : W),
      let parent := Azure.create_storage_account az self acct in
      let probe := Azure.container_exists az self acct c in
      count_calls azure_is_create (trace parent w) = 0%nat
      /\ count_calls azure_is_create (trace probe w) = 0%nat
      /\ count_calls azure_is_delete (trace probe w) = 0%nat).
Proof.
  repeat apply conj; intros.
  - subst stopped. py_run. repeat split.
  - subst probed. py_run. repeat split.
  - subst probed. py_run. repeat split.
  - py_run. destruct created as [[]|[]]; repeat split.
  - subst probed. py_run. repeat split.
  - py_run. py_cases; py_history; repeat split.
  - now apply create_container_after_absent_probe.
  - py_run. split; [destruct e; reflexivity | destruct e; py_cases; cbn; eauto].
  - py_run. py_cases; repeat split.
Qed.

(** C4 on AWS: the bucket is there at the probe, a concurrent deleter
    removes it, [delete_bucket] raises [ClientError] with code
    [NoSuchBucket], and the script prints a failure and returns [False]. *)
Theorem aws_delete_not_found_is_failure :
  let run := AWS.delete_bucket MemS3.racing "my-data" "ap-south-1" in
  let w : MemS3.store := <["my-data" := MemS3.empty_bucket]> ∅ in
  let rival : MemS3.store -> MemS3.store := delete "my-data" in
  result run (w, Some rival) = Returns false
  /\ trace run (w, Some rival)
     = [Called (AWS.HeadBucket "my-data") None;
        Printed (AWS.DeletingBucket "my-data");
        Printed AWS.AttemptingToEmpty;
        Called (AWS.ObjectsDelete "ap-south-1" "my-data")
               (Some (AWS.ClientError "NoSuchBucket"));
        Printed (AWS.CouldNotBeEmptied (AWS.ClientError "NoSuchBucket"));
        Called (AWS.DeleteBucket "my-data") (Some (AWS.ClientError "NoSuchBucket"));
        Printed (AWS.FailedToDelete (AWS.ClientError "NoSuchBucket"))].
Proof. vm_compute. split; reflexivity. Qed.

(** What a delete call that reports "not found" leads to, for every
    provider behaviour: [False] on AWS whatever the error code, [True] on
    GCP and on Azure. *)
Lemma delete_not_found_outcome :
  (forall W (s3 : AWS.S3 W) (n region : string) (w : W) (code : string),
      let run := AWS.delete_bucket s3 n region in
      In (Called (AWS.DeleteBucket n) (Some (AWS.ClientError code))) (trace run w) ->
      result run w = Returns false)
  /\ (forall W (gcs : GCP.GCS W) (n pid : string) (w : W) (bn : string),
      let run := GCP.delete_bucket gcs n pid in
      In (Called (GCP.BucketDelete bn) (Some GCP.NotFound)) (trace run w) ->
      result run w = Returns true)
  /\ (forall W (az : Azure.SDK W) (self : Azure.manager) (acct c : string) (w : W)
             (svc : Azure.blob_service),
      let run := Azure.delete_container az self acct c in
      In (Called (Azure.DeleteContainer svc c) (Some Azure.ResourceNotFoundError))
         (trace run w) ->
      result run w = Returns true).
Proof.
  repeat apply conj; intros; py_run; py_cases; py_history.
Qed.

(* ===================================================================== *)
(** * Order of calls, describe, cleanup *)
(* ===================================================================== *)

(** C7, as stated, fails on Azure: on a fresh provider the storage account
    is probed, created and awaited before the container's existence is
    probed at all. *)
Lemma azure_parent_precedes_probe :
  let svc := {| Azure.account_name := "acct"; Azure.account_key := "key-of-acct" |} in
  let run := Azure.create_container MemAzure.service MemAzure.me "acct" "c1" in
  result run ∅ = Returns true
  /\ calls (trace run ∅)
     = [Azure.GetProperties "rg" "acct";
        Azure.BeginCreate "rg" "acct" "eastus";
        Azure.PollerResult "acct";
        Azure.ListKeys "rg" "acct";
        Azure.ContainerExists svc "c1";
        Azure.ListKeys "rg" "acct";
        Azure.CreateContainer svc "c1"].
Proof. vm_compute. split; reflexivity. Qed.

(** C7, amended: on Azure every ensure-present cycle begins with the whole
    of [create_storage_account], whose first call probes the storage
    account and which never touches a container; the container's existence
    probe and everything else come after it and are not run at all unless
    it returned [True].  What comes after neither probes nor creates the
    storage account again; it does read the account's keys, with
    [list_keys], first thing in the existence probe and once more before
    the create call, and beside that calls only [exists] and
    [create_container] on the container.  On AWS and GCP, which have no
    parent step, the existence probe is the first call about the bucket. *)
Theorem ensure_present_call_order :
  (forall W (az : Azure.SDK W) (self : Azure.manager) (acct c : string) (w : W),
      let parent := Azure.create_storage_account az self acct in
      let run := Azure.create_container az self acct c in
      exists rest,
        trace run w = (trace parent w ++ rest)%list
        /\ head (calls (trace parent w))
           = Some (Azure.GetProperties (Azure.resource_group self) acct)
        /\ forallb azure_is_parent_call (calls (trace parent w)) = true
        /\ forallb (fun x => negb (azure_is_parent_call x)) (calls rest) = true
        /\ (result parent w <> Returns true -> rest = [])
        /\ (result parent w = Returns true ->
            let list_keys := Azure.ListKeys (Azure.resource_group self) acct in
            let service key := {| Azure.account_name := acct; Azure.account_key := key |} in
            calls rest = [list_keys; list_keys]
            \/ (exists key,
                  calls rest = [list_keys; Azure.ContainerExists (service key) c])
            \/ (exists key,
                  calls rest = [list_keys; Azure.ContainerExists (service key) c;
                                list_keys])
            \/ (exists key',
                  calls rest = [list_keys; list_keys;
                                Azure.CreateContainer (service key') c])
            \/ (exists key key',
                  calls rest = [list_keys; Azure.ContainerExists (service key) c;
                                list_keys; Azure.CreateContainer (service key') c])))
  /\ (forall W (s3 : AWS.S3 W) (n region : string) (w : W),
      head (calls (trace (AWS.create_bucket s3 n region) w)) = Some (AWS.HeadBucket n))
  /\ (forall W (gcs : GCP.GCS W) (n loc pid sc : string) (w : W),
      let cs := calls (trace (GCP.create_bucket gcs n loc pid sc) w) in
      cs = [GCP.NewClient pid]
      \/ exists rest, cs = GCP.NewClient pid :: GCP.GetBucket n :: rest).
Proof.
  repeat apply conj; intros.
  - py_run. py_cases;
      (eexists; split; [reflexivity|]; repeat split; try congruence;
       intros; cbn; eauto 10).
  - py_run. py_cases; reflexivity.
  - py_run. py_cases; cbn; eauto.
Qed.

(** The loop of [check_bucket] prints the creation date of the first entry
    of that name, and nothing when there is none. *)
Lemma print_creation_date_run {W} (n : string) (buckets : list AWS.bucket_entry)
    (m : machine W AWS.api AWS.exn AWS.line) :
  AWS.print_creation_date n buckets m
  = (Returns tt,
     Machine (cloud m)
       (history m ++
        match find (fun b => String.eqb (AWS.Name b) n) buckets with
        | Some b => [Printed (AWS.Created (AWS.CreationDate b))]
        | None => []
        end)).
Proof.
  induction buckets as [|b buckets IH]; cbn [AWS.print_creation_date find].
  - destruct m; cbn. now rewrite app_nil_r.
  - destruct (String.eqb (AWS.Name b) n); [reflexivity | exact IH].
Qed.

(** C8: describe.  When the existence probe finds nothing, the run prints
    that the resource does not exist and returns [False], and the probe is
    its last call.  When the probe finds the resource, the provider's
    metadata call is made next (on GCP the probe [get_bucket] is itself the
    metadata call) and what it returns is printed as it is: the region, and
    the creation date of the listing, on AWS, where only a response without
    [LocationConstraint] is printed as us-east-1; location, storage class
    and creation time on GCP; name, last-modified, ETag and lease status on
    Azure. *)
Theorem describe_outcome :
  (forall W (s3 : AWS.S3 W) (n : string) (w w1 : W),
      AWS.s3_head_bucket s3 n w = (Err (AWS.ClientError "404"), w1) ->
      AWS.check_bucket s3 n (boot w)
      = (Returns false,
         Machine w1 [Called (AWS.HeadBucket n) (Some (AWS.ClientError "404"));
                     Printed (AWS.BucketDoesNotExist n)]))
  /\ (forall W (s3 : AWS.S3 W) (n : string) (w w1 : W),
      AWS.s3_head_bucket s3 n w = (Ok tt, w1) ->
      exists rest,
        calls (trace (AWS.check_bucket s3 n) w)
        = AWS.HeadBucket n :: AWS.GetBucketLocation n :: rest)
  /\ (forall W (s3 : AWS.S3 W) (n : string) (w w1 w2 w3 : W)
             (location : option (option string)) (buckets : list AWS.bucket_entry),
      AWS.s3_head_bucket s3 n w = (Ok tt, w1) ->
      AWS.s3_get_bucket_location s3 n w1 = (Ok location, w2) ->
      AWS.s3_list_buckets s3 w2 = (Ok buckets, w3) ->
      AWS.check_bucket s3 n (boot w)
      = (Returns true,
         Machine w3
           ([Called (AWS.HeadBucket n) None;
             Printed (AWS.BucketExists n);
             Called (AWS.GetBucketLocation n) None;
             Printed (AWS.Region match location with
                                 | Some value => value
                                 | None => Some "us-east-1"
                                 end);
             Called AWS.ListBuckets None] ++
            match find (fun b => String.eqb (AWS.Name b) n) buckets with
            | Some b => [Printed (AWS.Created (AWS.CreationDate b))]
            | None => []
            end)))
  /\ (forall W (gcs : GCP.GCS W) (n pid : string) (c : GCP.client) (w w1 w2 : W),
      GCP.gcs_Client gcs pid w = (Ok c, w1) ->
      GCP.gcs_get_bucket gcs c n w1 = (Err GCP.NotFound, w2) ->
      GCP.check_bucket gcs n pid (boot w)
      = (Returns false,
         Machine w2 [Called (GCP.NewClient pid) None;
                     Called (GCP.GetBucket n) (Some GCP.NotFound);
                     Printed (GCP.BucketDoesNotExist n)]))
  /\ (forall W (gcs : GCP.GCS W) (n pid : string) (c : GCP.client) (b : GCP.bucket)
             (w w1 w2 : W),
      GCP.gcs_Client gcs pid w = (Ok c, w1) ->
      GCP.gcs_get_bucket gcs c n w1 = (Ok b, w2) ->
      GCP.check_bucket gcs n pid (boot w)
      = (Returns true,
         Machine w2 [Called (GCP.NewClient pid) None;
                     Called (GCP.GetBucket n) None;
                     Printed (GCP.BucketExists n);
                     Printed (GCP.Location (GCP.location b));
                     Printed (GCP.StorageClass (GCP.storage_class b));
                     Printed (GCP.Created (GCP.time_created b))]))
  /\ (forall W (az : Azure.SDK W) (self : Azure.manager) (acct c key : string)
             (keys : list string) (w w1 w2 : W),
      let rg := Azure.resource_group self in
      let svc := {| Azure.account_name := acct; Azure.account_key := key |} in
      Azure.az_list_keys az rg acct w = (Ok (key :: keys), w1) ->
      Azure.az_container_exists az svc c w1 = (Ok false, w2) ->
      Azure.check_container az self acct c (boot w)
      = (Returns false,
         Machine w2 [Called (Azure.ListKeys rg acct) None;
                     Called (Azure.ContainerExists svc c) None;
                     Printed (Azure.ContainerDoesNotExist c)]))
  /\ (forall W (az : Azure.SDK W) (self : Azure.manager) (acct c key key' : string)
             (keys keys' : list string) (p : Azure.container_properties)
             (w w1 w2 w3 w4 : W),
      let rg := Azure.resource_group self in
      let svc := {| Azure.account_name := acct; Azure.account_key := key |} in
      let svc' := {| Azure.account_name := acct; Azure.account_key := key' |} in
      Azure.az_list_keys az rg acct w = (Ok (key :: keys), w1) ->
      Azure.az_container_exists az svc c w1 = (Ok true, w2) ->
      Azure.az_list_keys az rg acct w2 = (Ok (key' :: keys'), w3) ->
      Azure.az_get_container_properties az svc' c w3 = (Ok p, w4) ->
      Azure.check_container az self acct c (boot w)
      = (Returns true,
         Machine w4
           [Called (Azure.ListKeys rg acct) None;
            Called (Azure.ContainerExists svc c) None;
            Printed (Azure.ContainerExistsLine c);
            Called (Azure.ListKeys rg acct) None;
            Called (Azure.GetContainerProperties svc' c) None;
            Printed (Azure.ContainerDetails
                       (Azure.name p) (Azure.last_modified p) (Azure.etag p)
                       match Azure.lease p with
                       | Some status => status
                       | None => "None"
                       end)])).
Proof.
  repeat apply conj; intros.
  - py_run. reflexivity.
  - py_run. py_cases; try rewrite print_creation_date_run; py_simpl; cbn;
      rewrite ?omap_app; cbn; eauto.
  - py_run. rewrite print_creation_date_run. py_simpl.
    unfold AWS.location_constraint_or_default.
    destruct (find _ buckets); reflexivity.
  - py_run. reflexivity.
  - py_run. reflexivity.
  - py_run. reflexivity.
  - py_run. reflexivity.
Qed.

(** C9, as stated, fails on AWS: the script absorbs only a [ClientError]
    from the cleanup.  When emptying the bucket fails with any other
    exception, here a dropped connection, the exception leaves
    [delete_bucket] and the bucket's delete call is never made. *)
Lemma aws_cleanup_failure_prevents_delete :
  let run := AWS.delete_bucket MemS3.flaky_cleanup "my-data" "ap-south-1" in
  let w : MemS3.store := <["my-data" := MemS3.empty_bucket]> ∅ in
  result run w = Raises (AWS.OtherException "EndpointConnectionError")
  /\ calls (trace run w)
     = [AWS.HeadBucket "my-data"; AWS.ObjectsDelete "ap-south-1" "my-data"]
  /\ after run w = w.
Proof. vm_compute. repeat split. Qed.

(** C9, amended: in an ensure-absent cycle that found the resource, a
    cleanup failure the script catches (on AWS a [ClientError] from emptying
    the bucket; on GCP any exception from listing or deleting the blobs)
    does not keep the run from the delete call: that call is made, and the
    run ends as it decides, the same way as after a cleanup that succeeded.
    On AWS the run returns [True] when the delete call returns, [False] when
    it raises a [ClientError], and raises what it raised otherwise; on GCP
    it returns [True] when the call returns or raises [NotFound], and
    [False] otherwise.  On AWS an exception from the emptying that is not a
    [ClientError], whatever its class, leaves [delete_bucket] there and
    then: the emptying is the last call and the bucket's delete call is not
    made. *)
Theorem cleanup_failure_outcome :
  (forall W (s3 : AWS.S3 W) (n region : string) (w w1 w2 w3 : W)
          (emptied deleted : reply AWS.exn unit),
      AWS.s3_head_bucket s3 n w = (Ok tt, w1) ->
      AWS.s3_objects_delete s3 region n w1 = (emptied, w2) ->
      (forall class_name, emptied <> Err (AWS.OtherException class_name)) ->
      AWS.s3_delete_bucket s3 n w2 = (deleted, w3) ->
      let run := AWS.delete_bucket s3 n region in
      In (Called (AWS.DeleteBucket n) (raised deleted)) (trace run w)
      /\ result run w
         = match deleted with
           | Ok _ => Returns true
           | Err (AWS.ClientError _) => Returns false
           | Err e => Raises e
           end)
  /\ (forall W (gcs : GCP.GCS W) (n pid : string) (c : GCP.client) (b : GCP.bucket)
             (w w1 w2 w3 w5 : W) (listed : reply GCP.exn (list string))
             (deleted : reply GCP.exn unit),
      GCP.gcs_Client gcs pid w = (Ok c, w1) ->
      GCP.gcs_get_bucket gcs c n w1 = (Ok b, w2) ->
      GCP.gcs_list_blobs gcs b w2 = (listed, w3) ->
      let w4 := match listed with
                | Ok (blob :: blobs) =>
                    snd (GCP.gcs_delete_blobs gcs b (blob :: blobs) w3)
                | _ => w3
                end in
      GCP.gcs_bucket_delete gcs b w4 = (deleted, w5) ->
      let run := GCP.delete_bucket gcs n pid in
      In (Called (GCP.BucketDelete (GCP.name b)) (raised deleted)) (trace run w)
      /\ result run w
         = match deleted with
           | Ok _ | Err GCP.NotFound => Returns true
           | Err _ => Returns false
           end)
  /\ (forall W (s3 : AWS.S3 W) (n region class_name : string) (w w1 w2 : W),
      AWS.s3_head_bucket s3 n w = (Ok tt, w1) ->
      AWS.s3_objects_delete s3 region n w1
      = (Err (AWS.OtherException class_name), w2) ->
      AWS.delete_bucket s3 n region (boot w)
      = (Raises (AWS.OtherException class_name),
         Machine w2 [Called (AWS.HeadBucket n) None;
                     Printed (AWS.DeletingBucket n);
                     Printed AWS.AttemptingToEmpty;
                     Called (AWS.ObjectsDelete region n)
                            (Some (AWS.OtherException class_name))])).
Proof.
  repeat apply conj; intros.
  - destruct emptied as [[]|[code|cls]]; [| |now contradiction (H1 cls)];
      destruct deleted as [[]|[]]; py_run; cbn; auto 10.
  - subst w4. destruct listed as [[|blob blobs]|e].
    + destruct deleted as [[]|[]]; py_run; cbn; auto 10.
    + destruct (GCP.gcs_delete_blobs gcs b (blob :: blobs) w3) as [[[]|e] w4] eqn:Hblobs;
        cbn [snd] in *; destruct deleted as [[]|[]]; py_run; cbn; auto 10.
    + destruct deleted as [[]|[]]; py_run; cbn; auto 10.
  - py_run. reflexivity.
Qed.

(* ===================================================================== *)
(** * The statements above at concrete providers *)
(* ===================================================================== *)

Lemma ensure_absent_idempotent_witness :
  let account : MemAzure.store := <["acct" := ∅]> ∅ in
  let svc := {| Azure.account_name := "acct"; Azure.account_key := "key-of-acct" |} in
  let two_objects : MemS3.store :=
    <["my-data" := {| MemS3.mb_location := None; MemS3.mb_created := "2024-01-01";
                      MemS3.mb_objects := ["a"; "b"] |}]> ∅ in
  let two_blobs : MemGCS.store :=
    <["my-data" := (MemGCS.standard_bucket "my-data", ["a"; "b"])]> ∅ in
  let one_container : MemAzure.store := <["acct" := {["c1"]}]> ∅ in
  let no_account :=
    [Called (Azure.ListKeys "rg" "acct") (Some Azure.ResourceNotFoundError);
     Printed (Azure.FailedToGetBlobServiceClient Azure.ResourceNotFoundError);
     Printed (Azure.ErrorCheckingContainer Azure.ResourceNotFoundError);
     Printed (Azure.ContainerDoesNotExistSkipping "c1")] in
  AWS.delete_bucket MemS3.service "my-data" "r1" (boot ∅)
  = (Returns true,
     Machine ∅ [Called (AWS.HeadBucket "my-data") (Some (AWS.ClientError "404"));
                Printed (AWS.DoesNotExistSkipping "my-data")])
  /\ GCP.delete_bucket MemGCS.service "my-data" "p" (boot ∅)
     = (Returns true,
        Machine ∅ [Called (GCP.NewClient "p") None;
                   Called (GCP.GetBucket "my-data") (Some GCP.NotFound);
                   Printed (GCP.DoesNotExistSkipping "my-data")])
  /\ Azure.delete_container MemAzure.service MemAzure.me "acct" "c1" (boot account)
     = (Returns true,
        Machine account [Called (Azure.ListKeys "rg" "acct") None;
                         Called (Azure.ContainerExists svc "c1") None;
                         Printed (Azure.ContainerDoesNotExistSkipping "c1")])
  /\ (let run := AWS.delete_bucket MemS3.service "my-data" "r1" in
      result run two_objects = Returns true
      /\ output (trace run two_objects)
         = [AWS.DeletingBucket "my-data"; AWS.AttemptingToEmpty; AWS.EmptiedContents;
            AWS.SuccessfullyDeleted "my-data"]
      /\ result run (after run two_objects) = Returns true
      /\ output (trace run (after run two_objects))
         = [AWS.DoesNotExistSkipping "my-data"]
      /\ count_calls aws_is_delete
           (trace run two_objects ++ trace run (after run two_objects)) = 1%nat)
  /\ (let run := GCP.delete_bucket MemGCS.service "my-data" "p" in
      result run two_blobs = Returns true
      /\ output (trace run two_blobs)
         = [GCP.AttemptingToDeleteObjects "my-data"; GCP.DeletedObjects 2;
            GCP.DeletedSuccessfully "my-data"]
      /\ result run (after run two_blobs) = Returns true
      /\ output (trace run (after run two_blobs)) = [GCP.DoesNotExistSkipping "my-data"]
      /\ count_calls gcp_is_delete
           (trace run two_blobs ++ trace run (after run two_blobs)) = 1%nat)
  /\ (let run := Azure.delete_container MemAzure.service MemAzure.me "acct" "c1" in
      result run one_container = Returns true
      /\ output (trace run one_container)
         = [Azure.DeletingContainer "c1"; Azure.SuccessfullyDeletedContainer "c1"]
      /\ result run (after run one_container) = Returns true
      /\ output (trace run (after run one_container))
         = [Azure.ContainerDoesNotExistSkipping "c1"]
      /\ count_calls azure_is_delete
           (trace run one_container ++ trace run (after run one_container)) = 1%nat)
  /\ (let run := Azure.delete_container MemAzure.service MemAzure.me "acct" "c1" in
      run (boot ∅) = (Returns true, Machine ∅ no_account)
      /\ count_calls azure_is_delete (trace run ∅) = 0%nat)
  /\ Azure.delete_container MemAzure.service MemAzure.me "acct" "c1" (boot ∅)
     = (Returns true, Machine ∅ no_account)
  /\ (let run := Azure.delete_container MemAzure.service MemAzure.me "acct" "c1" in
      result run ∅ = Returns true
      /\ output (trace run ∅)
         = [Azure.FailedToGetBlobServiceClient Azure.ResourceNotFoundError;
            Azure.ErrorCheckingContainer Azure.ResourceNotFoundError;
            Azure.ContainerDoesNotExistSkipping "c1"]
      /\ count_calls azure_is_delete (trace run ∅) = 0%nat
      /\ after run ∅ = ∅).
Proof.
  destruct ensure_absent_idempotent
    as (Haws & Hgcp & Haz & Haws2 & Hgcp2 & Haz2 & Hprobe & Hkeys & Hmem).
  intros account svc two_objects two_blobs one_container no_account.
  split; [|split; [|split; [|split; [|split; [|split; [|split; [|split]]]]]]].
  - apply (Haws _ MemS3.service "my-data" "r1" ∅ ∅). reflexivity.
  - apply (Hgcp _ MemGCS.service "my-data" "p" {| GCP.project := "p" |} ∅ ∅ ∅);
      reflexivity.
  - apply (Haz _ MemAzure.service MemAzure.me "acct" "c1" "key-of-acct" []
             account account account); reflexivity.
  - eapply (Haws2 two_objects "my-data" "r1"). reflexivity.
  - apply (Hgcp2 two_blobs "my-data" "p" (MemGCS.standard_bucket "my-data") ["a"; "b"]);
      reflexivity.
  - apply (Haz2 one_container MemAzure.me "acct" "c1" {["c1"]}).
    + reflexivity.
    + apply elem_of_singleton_2. reflexivity.
  - generalize (Hprobe _ MemAzure.service MemAzure.me "acct" "c1" ∅ eq_refl).
    vm_compute. exact (fun H => H).
  - apply (Hkeys _ MemAzure.service MemAzure.me "acct" "c1"
             Azure.ResourceNotFoundError ∅ ∅). reflexivity.
  - assert (Hnone : forall held : gset string,
               (∅ : MemAzure.store) !! "acct" = Some held -> "c1" ∉ held)
      by (intros held Hheld; vm_compute in Hheld; discriminate).
    generalize (Hmem ∅ MemAzure.me "acct" "c1" Hnone).
    vm_compute. exact (fun H => H).
Defined.

Lemma create_already_exists_outcome_witness :
  let rival_s3 : MemS3.store -> MemS3.store := insert "my-data" MemS3.empty_bucket in
  let rival_az : MemAzure.store -> MemAzure.store := insert "acct" {["c1"]} in
  let rival_gcs : MemGCS.store -> MemGCS.store :=
    insert "my-data" (MemGCS.standard_bucket "my-data", []) in
  result (AWS.create_bucket MemS3.racing "my-data" "r1") (∅, Some rival_s3)
  = Returns true
  /\ result (Azure.create_container MemAzure.racing MemAzure.me "acct" "c1")
       (<["acct" := ∅]> ∅, Some rival_az)
     = Returns true
  /\ (result (GCP.create_bucket MemGCS.racing "my-data" "US" "p" "STANDARD")
        (∅, Some rival_gcs)
      = Returns false
      /\ last (output (trace (GCP.create_bucket MemGCS.racing "my-data" "US" "p" "STANDARD")
                         (∅, Some rival_gcs)))
         = Some (GCP.AlreadyExistsConflict "my-data")).
Proof.
  destruct create_already_exists_outcome as (Haws & Haz & Hgcp).
  intros rival_s3 rival_az rival_gcs. split; [|split].
  - apply (Haws _ MemS3.racing "my-data" "r1" (∅, Some rival_s3)
             (Some "r1") "BucketAlreadyOwnedByYou").
    + vm_compute. tauto.
    + right. reflexivity.
  - apply (Haz _ MemAzure.racing MemAzure.me "acct" "c1"
             (<["acct" := ∅]> ∅, Some rival_az)
             {| Azure.account_name := "acct"; Azure.account_key := "key-of-acct" |}).
    vm_compute. tauto.
  - apply (Hgcp _ MemGCS.racing "my-data" "US" "p" "STANDARD" (∅, Some rival_gcs)
             {| GCP.name := "my-data"; GCP.location := Some "US";
                GCP.storage_class := Some "STANDARD"; GCP.time_created := None |}).
    vm_compute. tauto.
Defined.

Lemma probe_forbidden_outcome_witness :
  let account : MemAzure.store := <["acct" := {["c1"]}]> ∅ in
  let svc := {| Azure.account_name := "acct"; Azure.account_key := "key-of-acct" |} in
  let forbidden := Azure.HttpResponseError 403 in
  let stopped : ending AWS.exn bool * machine MemS3.store AWS.api AWS.exn AWS.line :=
    (Exits 1,
     Machine ∅ [Called (AWS.HeadBucket "my-data") (Some (AWS.ClientError "403"));
                Printed AWS.AccessDenied]) in
  let probed := [Called (GCP.NewClient "p") None;
                 Called (GCP.GetBucket "my-data") (Some GCP.Forbidden)] in
  let az_probed := [Called (Azure.ListKeys "rg" "acct") None;
                    Called (Azure.ContainerExists svc "c1") (Some forbidden);
                    Printed (Azure.ErrorCheckingContainer forbidden)] in
  let az_no_keys := [Called (Azure.ListKeys "rg" "acct") (Some forbidden);
                     Printed (Azure.FailedToGetBlobServiceClient forbidden);
                     Printed (Azure.ErrorCheckingContainer forbidden)] in
  let no_properties : Azure.SDK MemAzure.store :=
    {| Azure.az_get_properties := fun _ _ w => (Err forbidden, w);
       Azure.az_list_keys := MemAzure.list_keys;
       Azure.az_begin_create := MemAzure.begin_create;
       Azure.az_poller_result := MemAzure.poller_result;
       Azure.az_container_exists := MemAzure.container_exists;
       Azure.az_create_container := MemAzure.create_container;
       Azure.az_delete_container := MemAzure.delete_container;
       Azure.az_get_container_properties := MemAzure.get_container_properties |} in
  (AWS.create_bucket MemS3.forbidden "my-data" "r1" (boot ∅) = stopped
   /\ AWS.delete_bucket MemS3.forbidden "my-data" "r1" (boot ∅) = stopped
   /\ AWS.check_bucket MemS3.forbidden "my-data" (boot ∅) = stopped)
  /\ (GCP.create_bucket MemGCS.forbidden "my-data" "US" "p" "STANDARD" (boot ∅)
      = (Returns false,
         Machine ∅ (probed ++ [Printed (GCP.FailedToCreate "my-data" GCP.Forbidden)]))
      /\ GCP.delete_bucket MemGCS.forbidden "my-data" "p" (boot ∅)
         = (Returns false,
            Machine ∅ (probed ++ [Printed (GCP.FailedToDelete "my-data" GCP.Forbidden)]))
      /\ GCP.check_bucket MemGCS.forbidden "my-data" "p" (boot ∅)
         = (Returns false,
            Machine ∅ (probed ++ [Printed (GCP.ErrorChecking "my-data" GCP.Forbidden)])))
  /\ (Azure.container_exists MemAzure.forbidden MemAzure.me "acct" "c1" (boot account)
      = (Returns false, Machine account az_probed)
      /\ Azure.delete_container MemAzure.forbidden MemAzure.me "acct" "c1" (boot account)
         = (Returns true,
            Machine account
              (az_probed ++ [Printed (Azure.ContainerDoesNotExistSkipping "c1")]))
      /\ Azure.check_container MemAzure.forbidden MemAzure.me "acct" "c1" (boot account)
         = (Returns false,
            Machine account (az_probed ++ [Printed (Azure.ContainerDoesNotExist "c1")])))
  /\ (let run := Azure.create_container MemAzure.forbidden MemAzure.me "acct" "c1" in
      calls (trace run account)
      = [Azure.GetProperties "rg" "acct"; Azure.ListKeys "rg" "acct";
         Azure.ContainerExists svc "c1"; Azure.ListKeys "rg" "acct";
         Azure.CreateContainer svc "c1"]
      /\ result run account = Returns true)
  /\ (Azure.container_exists MemAzure.forbidden_keys MemAzure.me "acct" "c1" (boot account)
      = (Returns false, Machine account az_no_keys)
      /\ Azure.delete_container MemAzure.forbidden_keys MemAzure.me "acct" "c1"
           (boot account)
         = (Returns true,
            Machine account
              (az_no_keys ++ [Printed (Azure.ContainerDoesNotExistSkipping "c1")]))
      /\ Azure.check_container MemAzure.forbidden_keys MemAzure.me "acct" "c1"
           (boot account)
         = (Returns false,
            Machine account (az_no_keys ++ [Printed (Azure.ContainerDoesNotExist "c1")])))
  /\ (result (Azure.container_exists MemAzure.forbidden MemAzure.me "acct" "c1") account
      = Returns false
      /\ Azure.delete_container MemAzure.forbidden MemAzure.me "acct" "c1" (boot account)
         = (Returns true,
            Machine account
              (az_probed ++ [Printed (Azure.ContainerDoesNotExistSkipping "c1")]))
      /\ Azure.check_container MemAzure.forbidden MemAzure.me "acct" "c1" (boot account)
         = (Returns false,
            Machine account (az_probed ++ [Printed (Azure.ContainerDoesNotExist "c1")])))
  /\ Azure.create_container MemAzure.forbidden_keys MemAzure.me "acct" "c1" (boot account)
     = (Returns false,
        Machine account
          ([Called (Azure.GetProperties "rg" "acct") None;
            Printed (Azure.AccountAlreadyExistsSkipping "acct")]
           ++ az_no_keys
           ++ [Printed (Azure.CreatingContainer "c1" "acct");
               Called (Azure.ListKeys "rg" "acct") (Some forbidden);
               Printed (Azure.FailedToGetBlobServiceClient forbidden);
               Printed (Azure.FailedToCreateContainer forbidden)]))
  /\ (result (Azure.storage_account_exists no_properties MemAzure.me "acct") account
      = Returns false
      /\ exists rest,
           calls (trace (Azure.create_storage_account no_properties MemAzure.me "acct")
                    account)
           = Azure.GetProperties "rg" "acct"
             :: Azure.BeginCreate "rg" "acct" "eastus" :: rest).
Proof.
  destruct probe_forbidden_outcome
    as (Haws & Hgcp & Haz & Haz' & Hkeys & Hread & Hcreate & Hparent & _).
  intros account svc forbidden stopped probed az_probed az_no_keys no_properties.
  split; [|split; [|split; [|split; [|split; [|split; [|split]]]]]].
  - apply (Haws _ MemS3.forbidden "my-data" "r1" ∅ ∅). reflexivity.
  - apply (Hgcp _ MemGCS.forbidden "my-data" "US" "p" "STANDARD"
             {| GCP.project := "p" |} ∅ ∅ ∅); reflexivity.
  - apply (Haz _ MemAzure.forbidden MemAzure.me "acct" "c1" "key-of-acct" []
             forbidden account account account); reflexivity.
  - apply (Haz' _ MemAzure.forbidden MemAzure.me "acct" "c1" "key-of-acct" "key-of-acct"
             [] [] forbidden (Err Azure.ResourceExistsError)
             account account account account account account); reflexivity.
  - apply (Hkeys _ MemAzure.forbidden_keys MemAzure.me "acct" "c1" forbidden
             account account). reflexivity.
  - assert (Hin : In (Called (Azure.ContainerExists svc "c1") (Some forbidden))
                     (trace (Azure.container_exists MemAzure.forbidden MemAzure.me
                               "acct" "c1") account))
      by (vm_compute; tauto).
    generalize (Hread _ MemAzure.forbidden MemAzure.me "acct" "c1" account
                  (Azure.ContainerExists svc "c1") forbidden Hin).
    vm_compute. exact (fun H => H).
  - generalize (Hcreate _ MemAzure.forbidden_keys MemAzure.me "acct" "c1"
                  account account (Err forbidden) eq_refl eq_refl eq_refl).
    vm_compute. exact (fun H => H).
  - apply (Hparent _ no_properties MemAzure.me "acct" forbidden account account).
    reflexivity.
Defined.

Lemma describe_outcome_witness :
  let held : MemS3.store := <["my-data" := MemS3.empty_bucket]> ∅ in
  let kept : MemGCS.store := <["my-data" := (MemGCS.standard_bucket "my-data", [])]> ∅ in
  let empty_account : MemAzure.store := <["acct" := ∅]> ∅ in
  let account : MemAzure.store := <["acct" := {["c1"]}]> ∅ in
  let svc := {| Azure.account_name := "acct"; Azure.account_key := "key-of-acct" |} in
  AWS.check_bucket MemS3.service "missing" (boot ∅)
  = (Returns false,
     Machine ∅ [Called (AWS.HeadBucket "missing") (Some (AWS.ClientError "404"));
                Printed (AWS.BucketDoesNotExist "missing")])
  /\ (exists rest,
        calls (trace (AWS.check_bucket MemS3.service "my-data") held)
        = AWS.HeadBucket "my-data" :: AWS.GetBucketLocation "my-data" :: rest)
  /\ AWS.check_bucket MemS3.service "my-data" (boot held)
     = (Returns true,
        Machine held [Called (AWS.HeadBucket "my-data") None;
                      Printed (AWS.BucketExists "my-data");
                      Called (AWS.GetBucketLocation "my-data") None;
                      Printed (AWS.Region (Some "ap-south-1"));
                      Called AWS.ListBuckets None;
                      Printed (AWS.Created "2024-01-01")])
  /\ GCP.check_bucket MemGCS.service "missing" "p" (boot ∅)
     = (Returns false,
        Machine ∅ [Called (GCP.NewClient "p") None;
                   Called (GCP.GetBucket "missing") (Some GCP.NotFound);
                   Printed (GCP.BucketDoesNotExist "missing")])
  /\ GCP.check_bucket MemGCS.service "my-data" "p" (boot kept)
     = (Returns true,
        Machine kept [Called (GCP.NewClient "p") None;
                      Called (GCP.GetBucket "my-data") None;
                      Printed (GCP.BucketExists "my-data");
                      Printed (GCP.Location (Some "US"));
                      Printed (GCP.StorageClass (Some "STANDARD"));
                      Printed (GCP.Created (Some "2024-01-01"))])
  /\ Azure.check_container MemAzure.service MemAzure.me "acct" "c1" (boot empty_account)
     = (Returns false,
        Machine empty_account [Called (Azure.ListKeys "rg" "acct") None;
                               Called (Azure.ContainerExists svc "c1") None;
                               Printed (Azure.ContainerDoesNotExist "c1")])
  /\ Azure.check_container MemAzure.service MemAzure.me "acct" "c1" (boot account)
     = (Returns true,
        Machine account
          [Called (Azure.ListKeys "rg" "acct") None;
           Called (Azure.ContainerExists svc "c1") None;
           Printed (Azure.ContainerExistsLine "c1");
           Called (Azure.ListKeys "rg" "acct") None;
           Called (Azure.GetContainerProperties svc "c1") None;
           Printed (Azure.ContainerDetails "c1" "2024-01-01" "0x1" "unlocked")]).
Proof.
  destruct describe_outcome as (Ha0 & Ha1 & Ha2 & Hg0 & Hg1 & Hz0 & Hz1).
  intros held kept empty_account account svc.
  split; [|split; [|split; [|split; [|split; [|split]]]]].
  - apply (Ha0 _ MemS3.service "missing" ∅ ∅). reflexivity.
  - apply (Ha1 _ MemS3.service "my-data" held held). reflexivity.
  - apply (Ha2 _ MemS3.service "my-data" held held held held (Some (Some "ap-south-1"))
             [{| AWS.Name := "my-data"; AWS.CreationDate := "2024-01-01" |}]);
      reflexivity.
  - apply (Hg0 _ MemGCS.service "missing" "p" {| GCP.project := "p" |} ∅ ∅ ∅);
      reflexivity.
  - apply (Hg1 _ MemGCS.service "my-data" "p" {| GCP.project := "p" |}
             (MemGCS.standard_bucket "my-data") kept kept kept); reflexivity.
  - apply (Hz0 _ MemAzure.service MemAzure.me "acct" "c1" "key-of-acct" []
             empty_account empty_account empty_account); reflexivity.
  - apply (Hz1 _ MemAzure.service MemAzure.me "acct" "c1" "key-of-acct" "key-of-acct"
             [] [] {| Azure.name := "c1"; Azure.last_modified := "2024-01-01";
                      Azure.etag := "0x1"; Azure.lease := Some "unlocked" |}
             account account account account account); reflexivity.
Defined.

Lemma cleanup_failure_outcome_witness :
  let held : MemS3.store := <["my-data" := MemS3.empty_bucket]> ∅ in
  let kept : MemGCS.store := <["my-data" := (MemGCS.standard_bucket "my-data", ["a"])]> ∅ in
  let aws := AWS.delete_bucket MemS3.racing "my-data" "r1" in
  let gcp := GCP.delete_bucket MemGCS.racing "my-data" "p" in
  let gone_s3 : MemS3.store -> MemS3.store := delete "my-data" in
  let gone_gcs : MemGCS.store -> MemGCS.store := delete "my-data" in
  (In (Called (AWS.DeleteBucket "my-data") (Some (AWS.ClientError "NoSuchBucket")))
      (trace aws (held, Some gone_s3))
   /\ result aws (held, Some gone_s3) = Returns false)
  /\ (In (Called (GCP.BucketDelete "my-data") (Some GCP.NotFound))
         (trace gcp (kept, Some gone_gcs))
      /\ result gcp (kept, Some gone_gcs) = Returns true)
  /\ AWS.delete_bucket MemS3.flaky_cleanup "my-data" "r1" (boot held)
     = (Raises (AWS.OtherException "EndpointConnectionError"),
        Machine held
          [Called (AWS.HeadBucket "my-data") None;
           Printed (AWS.DeletingBucket "my-data");
           Printed AWS.AttemptingToEmpty;
           Called (AWS.ObjectsDelete "r1" "my-data")
                  (Some (AWS.OtherException "EndpointConnectionError"))]).
Proof.
  destruct cleanup_failure_outcome as (Haws & Hgcp & Hleaves).
  intros held kept aws gcp gone_s3 gone_gcs. split; [|split].
  - apply (Haws _ MemS3.racing "my-data" "r1" (held, Some gone_s3)
             (∅, None) (∅, None) (∅, None)
             (Err (AWS.ClientError "NoSuchBucket"))
             (Err (AWS.ClientError "NoSuchBucket")));
      try reflexivity.
    intros class_name. discriminate.
  - apply (Hgcp _ MemGCS.racing "my-data" "p" {| GCP.project := "p" |}
             (MemGCS.standard_bucket "my-data")
             (kept, Some gone_gcs) (kept, Some gone_gcs) (∅, None) (∅, None) (∅, None)
             (Err GCP.NotFound) (Err GCP.NotFound)); reflexivity.
  - apply (Hleaves _ MemS3.flaky_cleanup "my-data" "r1" "EndpointConnectionError"
             held held held); reflexivity.
Defined.

(* ===================================================================== *)
(** * The runs the specification gives as examples *)
(* ===================================================================== *)

(** Ensure-present of "my-data" in region "r1" on an empty provider: one
    probe, one create. *)
Example ensure_present_on_empty_provider :
  let run := AWS.create_bucket MemS3.service "my-data" "r1" in
  result run ∅ = Returns true
  /\ trace run ∅
     = [Called (AWS.HeadBucket "my-data") (Some (AWS.ClientError "404"));
        Printed (AWS.CreatingBucket "my-data" "r1");
        Called (AWS.CreateBucket "my-data" (Some "r1")) None;
        Printed (AWS.SuccessfullyCreated "my-data")].
Proof. vm_compute. split; reflexivity. Qed.

(** Ensure-absent of a bucket that holds two objects: probe, list, delete
    the two, delete the bucket. *)
Example ensure_absent_with_two_objects :
  let run := GCP.delete_bucket MemGCS.service "my-data" "p" in
  let w : MemGCS.store :=
    <["my-data" := (MemGCS.standard_bucket "my-data", ["a"; "b"])]> ∅ in
  result run w = Returns true
  /\ calls (trace run w)
     = [GCP.NewClient "p"; GCP.GetBucket "my-data"; GCP.ListBlobs "my-data";
        GCP.DeleteBlobs "my-data" ["a"; "b"]; GCP.BucketDelete "my-data"]
  /\ after run w = ∅.
Proof. vm_compute. repeat split. Qed.

(** Describe of a name that is not there: the probe and nothing else. *)
Example describe_missing :
  let run := AWS.check_bucket MemS3.service "missing" in
  result run ∅ = Returns false
  /\ calls (trace run ∅) = [AWS.HeadBucket "missing"]
  /\ output (trace run ∅) = [AWS.BucketDoesNotExist "missing"].
Proof. vm_compute. repeat split. Qed.

(* ===================================================================== *)
(** * Running the whole scripts symbolically *)
(* ===================================================================== *)

Ltac cli_simpl :=
  cbn [cloud history fst snd app raised negb andb orb String.eqb Ascii.eqb
       Bool.eqb map relabel truthy default length nth Nat.eqb id] in *.

Ltac cli_unfold :=
  unfold AWSCli.main, AWSCli.list_buckets, AWSCli.create_s3_client, AWSCli.usage,
    GCPCli.main, AzureCli.guarded_main, AzureCli.main, AzureCli.list_containers,
    AzureCli.list_storage_accounts, AzureCli.__init__,
    AzureCli._get_subscription_id, AzureCli.parser_error, AzureCli.iterate,
    AzureCli.paged_call, AzureCli.needs_container in *;
  aws_unfold; gcp_unfold; azure_unfold;
  unfold result, trace, after, mbind, mret, M_bind, M_ret, bind, ret,
    try_except, sdk, print, sys_exit, raise, embed, boot in *;
  cli_simpl.

Ltac cli_replies :=
  repeat match goal with
         | H : _ = (_, _) |- _ => rewrite H; cli_simpl
         end.

Ltac cli_run :=
  repeat match goal with x := _ |- _ => subst x end;
  cli_unfold; cli_replies.

Ltac cli_case :=
  match goal with
  | |- context [match ?t with _ => _ end] =>
      lazymatch t with
      | context [match _ with _ => _ end] => fail
      | _ => idtac
      end;
      lazymatch type of t with
      | (reply _ _ * _)%type => destruct t as [[?|?] ?] eqn:?
      | (AzureCli.paged _ * _)%type => destruct t as [[? [?|]] ?] eqn:?
      | AWS.exn => destruct t
      | GCP.exn => destruct t
      | Azure.exn => destruct t
      | list _ => destruct t
      | option _ => destruct t
      | bool => destruct t eqn:?
      end
  end; cli_simpl.

Ltac cli_cases := repeat cli_case.

(** A loop that prints a row for each item prints them in order and goes
    on. *)
Lemma for_each_print {W C E P A} (xs : list A) (row : A -> P) (m : machine W C E P) :
  for_each xs (fun x => print (row x)) m
  = (Returns tt, Machine (cloud m) (history m ++ map (fun x => Printed (row x)) xs)).
Proof.
  revert m; induction xs as [|x xs IH]; intros [w h]; cbn [for_each map].
  - unfold mret, M_ret, ret. cbn. now rewrite app_nil_r.
  - unfold mbind, M_bind, bind, print. cbn [cloud history]. rewrite IH.
    cbn [cloud history]. now rewrite <- app_assoc.
Qed.

Lemma for_each_printed {W C E P A} (xs : list A) (row : A -> P) (m : machine W C E P) :
  for_each xs
    (fun x (m : machine W C E P) =>
       (Returns tt, Machine (cloud m) (history m ++ [Printed (row x)]))) m
  = (Returns tt, Machine (cloud m) (history m ++ map (fun x => Printed (row x)) xs)).
Proof. exact (for_each_print xs row m). Qed.

(* ===================================================================== *)
(** * AWS: what the functions call, and how the script ends *)
(* ===================================================================== *)

(** X1: on AWS an existence probe that raises a [ClientError] with any
    code other than 404 ends the process with status 1 right there, for
    create, delete and check alike: the probe is the only call, and the
    line printed is "Access denied" for 403 and "Error checking bucket"
    for every other code. *)
Theorem aws_probe_error_exits W (s3 : AWS.S3 W) (n region code : string) (w w1 : W) :
  AWS.s3_head_bucket s3 n w = (Err (AWS.ClientError code), w1) ->
  code <> "404" ->
  let stopped : ending AWS.exn bool * machine W AWS.api AWS.exn AWS.line :=
    (Exits 1,
     Machine w1 [Called (AWS.HeadBucket n) (Some (AWS.ClientError code));
                 Printed (if String.eqb code "403" then AWS.AccessDenied
                          else AWS.ErrorCheckingBucket (AWS.ClientError code))]) in
  AWS.create_bucket s3 n region (boot w) = stopped
  /\ AWS.delete_bucket s3 n region (boot w) = stopped
  /\ AWS.check_bucket s3 n (boot w) = stopped.
Proof.
  intros Hhead Hcode stopped. subst stopped.
  apply String.eqb_neq in Hcode. py_run. rewrite Hcode.
  destruct (String.eqb code "403"); repeat split.
Qed.

Lemma aws_probe_error_exits_witness :
  let s3 : AWS.S3 MemS3.store :=
    {| AWS.s3_head_bucket := fun _ w => (Err (AWS.ClientError "500"), w);
       AWS.s3_create_bucket := MemS3.create_bucket;
       AWS.s3_objects_delete := MemS3.objects_delete;
       AWS.s3_delete_bucket := MemS3.delete_bucket;
       AWS.s3_get_bucket_location := MemS3.get_bucket_location;
       AWS.s3_list_buckets := MemS3.list_buckets |} in
  let stopped : ending AWS.exn bool * machine MemS3.store AWS.api AWS.exn AWS.line :=
    (Exits 1,
     Machine ∅ [Called (AWS.HeadBucket "my-data") (Some (AWS.ClientError "500"));
                Printed (AWS.ErrorCheckingBucket (AWS.ClientError "500"))]) in
  AWS.create_bucket s3 "my-data" "r1" (boot ∅) = stopped
  /\ AWS.delete_bucket s3 "my-data" "r1" (boot ∅) = stopped
  /\ AWS.check_bucket s3 "my-data" (boot ∅) = stopped.
Proof.
  intros s3 stopped.
  apply (aws_probe_error_exits _ s3 "my-data" "r1" "500" ∅ ∅); [reflexivity | discriminate].
Defined.

(** X2: whatever S3 answers, [create_bucket] calls [head_bucket] first and
    then at most one [create_bucket] on the same name, and nothing else;
    the create request has no [LocationConstraint] exactly when the region
    is us-east-1, and carries the region otherwise. *)
Theorem aws_create_bucket_calls W (s3 : AWS.S3 W) (n region : string) (w : W) :
  let constraint := if String.eqb region "us-east-1" then None else Some region in
  let made := calls (trace (AWS.create_bucket s3 n region) w) in
  made = [AWS.HeadBucket n]
  \/ made = [AWS.HeadBucket n; AWS.CreateBucket n constraint].
Proof.
  py_run. py_cases; cbn; auto.
Qed.

(** X3: whatever S3 answers, [create_bucket] returns [False] exactly when
    its create call raised a [ClientError] whose code is neither
    [BucketAlreadyExists] nor [BucketAlreadyOwnedByYou]. *)
Theorem aws_create_bucket_fails_iff W (s3 : AWS.S3 W) (n region : string) (w : W) :
  let run := AWS.create_bucket s3 n region in
  result run w = Returns false
  <-> exists constraint code,
        In (Called (AWS.CreateBucket n constraint) (Some (AWS.ClientError code)))
           (trace run w)
        /\ code <> "BucketAlreadyExists" /\ code <> "BucketAlreadyOwnedByYou".
Proof.
  py_run. py_cases;
    (split;
     [ intros Hr;
       first [ discriminate Hr
             | repeat match goal with
                      | H : String.eqb _ _ = false |- _ => apply String.eqb_neq in H
                      end;
               eexists _, _; split; [cbn; eauto 10 | split; assumption] ]
     | intros (lc & code & Hin & Hne1 & Hne2); py_history ]).
Qed.

(** X4: whatever S3 answers, [delete_bucket] calls [head_bucket], then the
    emptying of the bucket, then [delete_bucket], in that order and each at
    most once, all on the one name and never a create; and it returns
    [False] exactly when its delete call raised a [ClientError]. *)
Theorem aws_delete_bucket_calls W (s3 : AWS.S3 W) (n region : string) (w : W) :
  let run := AWS.delete_bucket s3 n region in
  let made := calls (trace run w) in
  (made = [AWS.HeadBucket n]
   \/ made = [AWS.HeadBucket n; AWS.ObjectsDelete region n]
   \/ made = [AWS.HeadBucket n; AWS.ObjectsDelete region n; AWS.DeleteBucket n])
  /\ (result run w = Returns false
      <-> exists code,
            In (Called (AWS.DeleteBucket n) (Some (AWS.ClientError code))) (trace run w)).
Proof.
  py_run. py_cases;
    (split; [cbn; auto |
     split; [ intros Hr; first [discriminate Hr | eexists; cbn; eauto 10]
            | intros (code & Hin); py_history ]]).
Qed.

(** X5: describe only reads.  Whatever the provider answers, every call
    [check_bucket] (AWS, GCP) and [check_container] (Azure) makes is one
    that reads: nothing is created, emptied or deleted. *)
Theorem describe_is_read_only :
  (forall W (s3 : AWS.S3 W) (n : string) (w : W),
      forallb aws_is_read_only (calls (trace (AWS.check_bucket s3 n) w)) = true)
  /\ (forall W (gcs : GCP.GCS W) (n pid : string) (w : W),
      forallb gcp_is_read_only (calls (trace (GCP.check_bucket gcs n pid) w)) = true)
  /\ (forall W (az : Azure.SDK W) (self : Azure.manager) (acct c : string) (w : W),
      forallb azure_is_read_only
        (calls (trace (Azure.check_container az self acct c) w)) = true).
Proof.
  repeat apply conj; intros; py_run; py_cases;
    rewrite ?print_creation_date_run; py_simpl;
    unfold calls; rewrite ?omap_app; rewrite ?forallb_app;
    try match goal with |- context [find ?f ?l] => destruct (find f l) end;
    reflexivity.
Qed.

(** X6: [list_buckets] prints a row for each bucket of the listing, in the
    order of the listing, and "No buckets found" for an empty listing, and
    returns [True] in both cases; a [ClientError] makes it print the failure
    and return [False], and any other exception leaves it. *)
Theorem aws_list_buckets_outcome W (s3 : AWS.S3 W) (w w1 : W)
    (listed : reply AWS.exn (list AWS.bucket_entry)) :
  AWS.s3_list_buckets s3 w = (listed, w1) ->
  AWSCli.list_buckets s3 (boot w)
  = (match listed with
     | Ok _ => Returns true
     | Err (AWS.ClientError _) => Returns false
     | Err e => Raises e
     end,
     Machine w1
       (Printed AWSCli.ListingAllBuckets
        :: Called (AWSCli.S3Call AWS.ListBuckets) (raised listed)
        :: match listed with
           | Ok [] => [Printed AWSCli.NoBucketsFound]
           | Ok buckets =>
               map (fun b => Printed (AWSCli.BucketRow (AWS.Name b) (AWS.CreationDate b)))
                   buckets
           | Err (AWS.ClientError code) =>
               [Printed (AWSCli.FailedToList (AWS.ClientError code))]
           | Err _ => []
           end)).
Proof.
  intros H. destruct listed as [[|b buckets]|[code|cls]]; cli_run; try reflexivity.
  rewrite for_each_printed. reflexivity.
Qed.

Lemma aws_list_buckets_outcome_witness :
  let w : MemS3.store := <["my-data" := MemS3.empty_bucket]> ∅ in
  AWSCli.list_buckets MemS3.service (boot w)
  = (Returns true,
     Machine w [Printed AWSCli.ListingAllBuckets;
                Called (AWSCli.S3Call AWS.ListBuckets) None;
                Printed (AWSCli.BucketRow "my-data" "2024-01-01")]).
Proof.
  intros w.
  apply (aws_list_buckets_outcome _ MemS3.service w w
           (Ok [{| AWS.Name := "my-data"; AWS.CreationDate := "2024-01-01" |}])).
  reflexivity.
Defined.

(** X7: [main] of the AWS script with a number of arguments other than 2
    or 4, or with 2 and an action other than "list", prints the usage and
    exits with status 1 without creating a client or calling S3. *)
Theorem aws_main_usage W (boto3 : AWSCli.Boto3 W) (argv : list string) (w : W) :
  (length argv <> 2%nat /\ length argv <> 4%nat)
  \/ (length argv = 2%nat /\ nth 1 argv "" <> "list") ->
  AWSCli.main boto3 argv (boot w) = (Exits 1, Machine w [Printed AWSCli.Usage]).
Proof.
  intros [[H2 H4]|[H2 Hact]]; unfold AWSCli.main.
  - apply Nat.eqb_neq in H2, H4. rewrite H2, H4. cli_run. reflexivity.
  - apply String.eqb_neq in Hact. rewrite H2, Hact. cli_run. reflexivity.
Qed.

Lemma aws_main_usage_witness :
  AWSCli.main MemCli.boto3 ["script.py"; "create"; "my-data"] (boot ∅)
  = (Exits 1, Machine ∅ [Printed AWSCli.Usage])
  /\ AWSCli.main MemCli.boto3 ["script.py"; "check"] (boot ∅)
     = (Exits 1, Machine ∅ [Printed AWSCli.Usage]).
Proof.
  split.
  - apply (aws_main_usage _ MemCli.boto3 ["script.py"; "create"; "my-data"] ∅).
    left. split; discriminate.
  - apply (aws_main_usage _ MemCli.boto3 ["script.py"; "check"] ∅).
    right. split; [reflexivity | discriminate].
Defined.

(** X8: [main] of the AWS script with an action, a bucket name and a
    region, once the client is created, always ends through [sys.exit]:
    it never returns and no exception leaves it, whatever S3 raises.  For
    the actions create, delete and check the status is 0 exactly when the
    function of that action returns [True], and 1 otherwise; for any other
    action it is 1 and S3 is not called. *)
Theorem aws_main_exit_status W (boto3 : AWSCli.Boto3 W) (s3 : AWS.S3 W)
    (prog action n region : string) (w w1 : W) :
  AWSCli.boto3_client boto3 region w = (Ok s3, w1) ->
  let run := AWSCli.main boto3 [prog; action; n; region] in
  (action = "create" ->
   result run w = Exits (status_of (result (AWS.create_bucket s3 n region) w1)))
  /\ (action = "delete" ->
      result run w = Exits (status_of (result (AWS.delete_bucket s3 n region) w1)))
  /\ (action = "check" ->
      result run w = Exits (status_of (result (AWS.check_bucket s3 n) w1)))
  /\ (action <> "create" -> action <> "delete" -> action <> "check" ->
      run (boot w)
      = (Exits 1,
         Machine w1 [Printed (AWSCli.Banner action n region);
                     Called (AWSCli.Boto3Client region) None;
                     Printed (AWSCli.InvalidAction action);
                     Printed AWSCli.Usage])).
Proof.
  intros Hclient run. subst run. unfold status_of.
  repeat apply conj.
  - intros ->. cli_run. cli_cases; rewrite ?print_creation_date_run; reflexivity.
  - intros ->. cli_run. cli_cases; rewrite ?print_creation_date_run; reflexivity.
  - intros ->. cli_run. cli_cases; rewrite ?print_creation_date_run; reflexivity.
  - intros H1 H2 H3. apply String.eqb_neq in H1, H2, H3.
    cli_run. rewrite andb_false_r. cli_run. rewrite H1, H2, H3. cli_run. reflexivity.
Qed.

Lemma aws_main_exit_status_witness :
  let run := AWSCli.main MemCli.boto3 ["script.py"; "create"; "my-data"; "r1"] in
  result run ∅ = Exits 0
  /\ AWSCli.main MemCli.boto3 ["script.py"; "purge"; "my-data"; "r1"] (boot ∅)
     = (Exits 1,
        Machine ∅ [Printed (AWSCli.Banner "purge" "my-data" "r1");
                   Called (AWSCli.Boto3Client "r1") None;
                   Printed (AWSCli.InvalidAction "purge");
                   Printed AWSCli.Usage]).
Proof.
  intros run. split.
  - destruct (aws_main_exit_status _ MemCli.boto3 MemS3.service
                "script.py" "create" "my-data" "r1" ∅ ∅ eq_refl) as (Hcreate & _).
    exact (Hcreate eq_refl).
  - destruct (aws_main_exit_status _ MemCli.boto3 MemS3.service
                "script.py" "purge" "my-data" "r1" ∅ ∅ eq_refl) as (_ & _ & _ & Hother).
    apply Hother; discriminate.
Defined.

(* ===================================================================== *)
(** * GCP: what the functions call, and how the script ends *)
(* ===================================================================== *)

(** X9: the three functions of the GCP script always return a boolean:
    whatever the client library raises, at any call, no exception leaves
    them and they never exit the process. *)
Theorem gcp_functions_always_return W (gcs : GCP.GCS W) (n loc pid sc : string) (w : W) :
  (exists b, result (GCP.create_bucket gcs n loc pid sc) w = Returns b)
  /\ (exists b, result (GCP.delete_bucket gcs n pid) w = Returns b)
  /\ (exists b, result (GCP.check_bucket gcs n pid) w = Returns b).
Proof.
  repeat apply conj; py_run; py_cases; eauto.
Qed.

(** X10: [main] of the GCP script always ends through [sys.exit] with
    status 0 or 1.  With a number of arguments other than 5 it prints the
    usage and exits with 1 without a call; with 5 and the action create,
    delete or check the status is 0 exactly when the function of that action
    returns [True]; with any other action it is 1, again without a call. *)
Theorem gcp_main_exit_status W (gcs : GCP.GCS W) (w : W) :
  (forall argv, length argv <> 5%nat ->
     GCPCli.main gcs argv (boot w) = (Exits 1, Machine w [Printed GCPCli.Usage]))
  /\ (forall prog n loc pid,
     result (GCPCli.main gcs [prog; "create"; n; loc; pid]) w
     = Exits (status_of (result (GCP.create_bucket gcs n loc pid "STANDARD") w))
     /\ result (GCPCli.main gcs [prog; "delete"; n; loc; pid]) w
        = Exits (status_of (result (GCP.delete_bucket gcs n pid) w))
     /\ result (GCPCli.main gcs [prog; "check"; n; loc; pid]) w
        = Exits (status_of (result (GCP.check_bucket gcs n pid) w)))
  /\ (forall prog action n loc pid,
     action <> "create" -> action <> "delete" -> action <> "check" ->
     GCPCli.main gcs [prog; action; n; loc; pid] (boot w)
     = (Exits 1, Machine w [Printed (GCPCli.Banner action n loc pid);
                            Printed (GCPCli.InvalidAction action)])).
Proof.
  repeat apply conj; intros.
  - unfold GCPCli.main. apply Nat.eqb_neq in H. rewrite H. cli_run. reflexivity.
  - unfold status_of. repeat apply conj; cli_run; cli_cases; reflexivity.
  - apply String.eqb_neq in H, H0, H1. cli_run. rewrite H, H0, H1. cli_run.
    reflexivity.
Qed.

Lemma gcp_main_exit_status_witness :
  GCPCli.main MemGCS.service ["script.py"; "create"; "my-data"] (boot ∅)
  = (Exits 1, Machine ∅ [Printed GCPCli.Usage])
  /\ GCPCli.main MemGCS.service ["script.py"; "purge"; "my-data"; "US"; "p"] (boot ∅)
     = (Exits 1, Machine ∅ [Printed (GCPCli.Banner "purge" "my-data" "US" "p");
                            Printed (GCPCli.InvalidAction "purge")]).
Proof.
  destruct (gcp_main_exit_status _ MemGCS.service ∅) as (Hargs & _ & Haction).
  split.
  - apply Hargs. discriminate.
  - apply Haction; discriminate.
Defined.

(** X11: whatever Cloud Storage answers, [delete_bucket] makes its calls in
    one order: the client, [get_bucket], the listing of the blobs,
    [delete_blobs] only when the listing returned and is not empty, and then
    with exactly the blobs it returned, and [bucket.delete()] once, whether
    or not the cleanup raised.  It never creates. *)
Theorem gcp_delete_bucket_calls W (gcs : GCP.GCS W) (n pid : string) (w : W) :
  let made := calls (trace (GCP.delete_bucket gcs n pid) w) in
  (made = [GCP.NewClient pid]
   \/ made = [GCP.NewClient pid; GCP.GetBucket n]
   \/ exists bn,
        made = [GCP.NewClient pid; GCP.GetBucket n; GCP.ListBlobs bn;
                GCP.BucketDelete bn]
        \/ exists blob blobs,
             made = [GCP.NewClient pid; GCP.GetBucket n; GCP.ListBlobs bn;
                     GCP.DeleteBlobs bn (blob :: blobs); GCP.BucketDelete bn])
  /\ (forall (c : GCP.client) (b : GCP.bucket) (listed : reply GCP.exn (list string))
             (w1 w2 w3 : W),
        GCP.gcs_Client gcs pid w = (Ok c, w1) ->
        GCP.gcs_get_bucket gcs c n w1 = (Ok b, w2) ->
        GCP.gcs_list_blobs gcs b w2 = (listed, w3) ->
        made = ([GCP.NewClient pid; GCP.GetBucket n; GCP.ListBlobs (GCP.name b)]
                ++ match listed with
                   | Ok (blob :: blobs) => [GCP.DeleteBlobs (GCP.name b) (blob :: blobs)]
                   | Ok [] | Err _ => []
                   end
                ++ [GCP.BucketDelete (GCP.name b)])%list).
Proof.
  intros made. subst made. split.
  - py_run. py_cases; cbn; eauto 10.
  - intros c b listed w1 w2 w3 Hclient Hbucket Hlisted.
    destruct listed as [[|blob blobs]|e]; py_run; py_cases; reflexivity.
Qed.

Lemma gcp_delete_bucket_calls_witness :
  let w : MemGCS.store :=
    <["my-data" := (MemGCS.standard_bucket "my-data", ["a"; "b"])]> ∅ in
  calls (trace (GCP.delete_bucket MemGCS.service "my-data" "p") w)
  = [GCP.NewClient "p"; GCP.GetBucket "my-data"; GCP.ListBlobs "my-data";
     GCP.DeleteBlobs "my-data" ["a"; "b"]; GCP.BucketDelete "my-data"].
Proof.
  intros w.
  destruct (gcp_delete_bucket_calls _ MemGCS.service "my-data" "p" w) as (_ & Hlisted).
  apply (Hlisted {| GCP.project := "p" |} (MemGCS.standard_bucket "my-data")
           (Ok ["a"; "b"]) w w w); reflexivity.
Defined.

(** X12: whatever Cloud Storage answers, [create_bucket] probes with
    [get_bucket] before it asks for anything, asks for at most one bucket,
    and the bucket it asks for has exactly the given name, location and
    storage class.  It never deletes. *)
Theorem gcp_create_bucket_request W (gcs : GCP.GCS W) (n loc pid sc : string) (w : W) :
  let made := calls (trace (GCP.create_bucket gcs n loc pid sc) w) in
  let asked := {| GCP.name := n; GCP.location := Some loc;
                  GCP.storage_class := Some sc; GCP.time_created := None |} in
  made = [GCP.NewClient pid]
  \/ made = [GCP.NewClient pid; GCP.GetBucket n]
  \/ made = [GCP.NewClient pid; GCP.GetBucket n; GCP.CreateBucket asked].
Proof.
  py_run. py_cases; cbn; auto.
Qed.

(* ===================================================================== *)
(** * Azure: what the functions call, and how the script ends *)
(* ===================================================================== *)

(** X13: the methods of [AzureStorageManager] that report on or change
    storage always return a boolean: whatever the SDK raises, at any call,
    no exception leaves them and they never exit the process.  This is so
    although [_get_blob_service_client], which they call, logs and raises
    again whatever [list_keys] raised. *)
Theorem azure_methods_always_return W (az : Azure.SDK W) (self : Azure.manager)
    (acct c : string) (w : W) :
  (exists b, result (Azure.storage_account_exists az self acct) w = Returns b)
  /\ (exists b, result (Azure.container_exists az self acct c) w = Returns b)
  /\ (exists b, result (Azure.create_storage_account az self acct) w = Returns b)
  /\ (exists b, result (Azure.create_container az self acct c) w = Returns b)
  /\ (exists b, result (Azure.delete_container az self acct c) w = Returns b)
  /\ (exists b, result (Azure.check_container az self acct c) w = Returns b)
  /\ (forall e w1,
        Azure.az_list_keys az (Azure.resource_group self) acct w = (Err e, w1) ->
        Azure._get_blob_service_client az self acct (boot w)
        = (Raises e,
           Machine w1 [Called (Azure.ListKeys (Azure.resource_group self) acct) (Some e);
                       Printed (Azure.FailedToGetBlobServiceClient e)])).
Proof.
  repeat apply conj; intros; py_run; try reflexivity; py_cases; eauto.
Qed.

(** X14: whatever the SDK answers, [create_storage_account] probes the
    account first and then makes at most one [begin_create]; it awaits the
    result exactly when that call returned.  The creation is attempted
    exactly when the probe raised, and an error of the probe of any kind is
    read as "no such account".  The method returns [False] exactly when
    the creation or the wait raised something other than
    [ResourceExistsError]. *)
Theorem azure_create_storage_account_calls W (az : Azure.SDK W)
    (self : Azure.manager) (acct : string) (w : W) :
  let rg := Azure.resource_group self in
  let run := Azure.create_storage_account az self acct in
  let made := calls (trace run w) in
  (made = [Azure.GetProperties rg acct]
   \/ made = [Azure.GetProperties rg acct; Azure.BeginCreate rg acct (Azure.region self)]
   \/ made = [Azure.GetProperties rg acct; Azure.BeginCreate rg acct (Azure.region self);
              Azure.PollerResult acct])
  /\ (forall e, In (Called (Azure.GetProperties rg acct) (Some e)) (trace run w) ->
                In (Azure.BeginCreate rg acct (Azure.region self)) made)
  /\ (result run w = Returns false
      <-> exists e,
            e <> Azure.ResourceExistsError
            /\ (In (Called (Azure.BeginCreate rg acct (Azure.region self)) (Some e))
                   (trace run w)
                \/ In (Called (Azure.PollerResult acct) (Some e)) (trace run w)))
  /\ (In (Azure.PollerResult acct) made
      <-> In (Called (Azure.BeginCreate rg acct (Azure.region self)) None) (trace run w))
  /\ (In (Azure.BeginCreate rg acct (Azure.region self)) made
      <-> exists e, In (Called (Azure.GetProperties rg acct) (Some e)) (trace run w)).
Proof.
  py_run. py_cases; cbn; repeat apply conj; try split; intros;
    repeat match goal with
           | H : exists _, _ |- _ => destruct H
           | H : _ /\ _ |- _ => destruct H
           end;
    first [ solve [auto 10]
          | solve [py_history; intuition discriminate]
          | solve [eexists; eauto 10]
          | solve [eexists; split; [|eauto 10]; discriminate] ].
Qed.

Lemma azure_create_storage_account_calls_witness :
  let run := Azure.create_storage_account MemAzure.service MemAzure.me "acct" in
  In (Azure.BeginCreate "rg" "acct" "eastus") (calls (trace run ∅))
  /\ In (Azure.PollerResult "acct") (calls (trace run ∅)).
Proof.
  intros run.
  destruct (azure_create_storage_account_calls _ MemAzure.service MemAzure.me "acct" ∅)
    as (_ & Hprobe & _ & Hawait & _).
  split.
  - apply (Hprobe Azure.ResourceNotFoundError). vm_compute. tauto.
  - apply Hawait. vm_compute. tauto.
Defined.

(** X15: without a subscription id in the environment the Azure script
    stops before any provider call.  Through the guard at the end of the
    file it prints what must be exported and exits with status 1.  [main]
    itself, called past the guard, gets as far as the credential: then
    [_get_subscription_id] logs that the variable is not set and exits with
    status 1, and neither [except Exception] clause on the way out turns
    the exit into anything else. *)
Theorem azure_subscription_id_required W (str_lower md5_hexdigest : string -> string)
    (azure : AzureCli.Platform W) (environ : gmap string string) (now : Z)
    (args : AzureCli.namespace) (w w1 : W) :
  truthy (environ !! "AZURE_SUBSCRIPTION_ID") = false ->
  AzureCli.guarded_main str_lower md5_hexdigest azure environ now args (boot w)
  = (Exits 1, Machine w [Printed AzureCli.MustBeSet])
  /\ (AzureCli.DefaultAzureCredential azure w = (Ok tt, w1) ->
      truthy (AzureCli.container_name args) = true ->
      truthy (AzureCli.region_arg args) = true ->
      AzureCli.main str_lower md5_hexdigest azure environ now args (boot w)
      = (Exits 1,
         Machine w1 [Printed (AzureCli.Banner (AzureCli.action args)
                                (AzureCli.container_name args)
                                (AzureCli.resource_group_arg args)
                                (AzureCli.region_arg args));
                     Called AzureCli.NewCredential None;
                     Printed AzureCli.SubscriptionIdNotSet])).
Proof.
  intros Henv. split.
  - unfold AzureCli.guarded_main. rewrite Henv. cli_run. reflexivity.
  - intros Hcred Hc Hr. unfold AzureCli.main, AzureCli.__init__,
      AzureCli._get_subscription_id.
    rewrite Henv, Hc, Hr, !andb_false_r. cli_run. reflexivity.
Qed.

Lemma azure_subscription_id_required_witness :
  let args := {| AzureCli.action := "create";
                 AzureCli.container_name := Some "my-data";
                 AzureCli.resource_group_arg := "rg";
                 AzureCli.region_arg := Some "eastus" |} in
  AzureCli.guarded_main PyStr.lower MD5.hexdigest MemCli.azure ∅ 1700000000 args (boot ∅)
  = (Exits 1, Machine ∅ [Printed AzureCli.MustBeSet])
  /\ AzureCli.main PyStr.lower MD5.hexdigest MemCli.azure ∅ 1700000000 args (boot ∅)
     = (Exits 1,
        Machine ∅ [Printed (AzureCli.Banner "create" (Some "my-data") "rg" (Some "eastus"));
                   Called AzureCli.NewCredential None;
                   Printed AzureCli.SubscriptionIdNotSet]).
Proof.
  intros args.
  assert (Henv : truthy ((∅ : gmap string string) !! "AZURE_SUBSCRIPTION_ID") = false)
    by reflexivity.
  destruct (azure_subscription_id_required _ PyStr.lower MD5.hexdigest MemCli.azure
              ∅ 1700000000 args ∅ ∅ Henv) as (Hguard & Hmain).
  split; [exact Hguard | apply Hmain; reflexivity].
Defined.

(** X16: [main] of the Azure script refuses incomplete arguments before
    anything else: for create, delete, check and list-containers a missing
    or empty container name, and then a missing or empty region, and for
    list-accounts a missing or empty region, end in [parser.error], exit
    status 2, with nothing printed before and no provider call. *)
Theorem azure_main_requires_arguments W (str_lower md5_hexdigest : string -> string)
    (azure : AzureCli.Platform W) (environ : gmap string string) (now : Z)
    (args : AzureCli.namespace) (w : W) :
  let run := AzureCli.main str_lower md5_hexdigest azure environ now args in
  let refused required : ending Azure.exn unit * machine W AzureCli.api Azure.exn AzureCli.line :=
    (Exits 2, Machine w [Printed (AzureCli.ParserError required (AzureCli.action args))]) in
  (AzureCli.needs_container (AzureCli.action args) = true ->
   truthy (AzureCli.container_name args) = false ->
   run (boot w) = refused "container_name")
  /\ (AzureCli.needs_container (AzureCli.action args) = true ->
      truthy (AzureCli.container_name args) = true ->
      truthy (AzureCli.region_arg args) = false ->
      run (boot w) = refused "region")
  /\ (AzureCli.action args = "list-accounts" ->
      truthy (AzureCli.region_arg args) = false ->
      run (boot w) = refused "region").
Proof.
  intros run refused. subst run refused. unfold AzureCli.main. repeat apply conj.
  - intros -> ->. cli_run. reflexivity.
  - intros -> -> ->. cli_run. reflexivity.
  - intros Hact ->. rewrite Hact. cli_run. reflexivity.
Qed.

Lemma azure_main_requires_arguments_witness :
  let args a c r := {| AzureCli.action := a; AzureCli.container_name := c;
                       AzureCli.resource_group_arg := "rg"; AzureCli.region_arg := r |} in
  let run a := AzureCli.main PyStr.lower MD5.hexdigest MemCli.azure MemCli.environ 1 a in
  run (args "delete" None (Some "eastus")) (boot ∅)
  = (Exits 2, Machine ∅ [Printed (AzureCli.ParserError "container_name" "delete")])
  /\ run (args "create" (Some "my-data") None) (boot ∅)
     = (Exits 2, Machine ∅ [Printed (AzureCli.ParserError "region" "create")])
  /\ run (args "list-accounts" (Some "rg") None) (boot ∅)
     = (Exits 2, Machine ∅ [Printed (AzureCli.ParserError "region" "list-accounts")]).
Proof.
  intros args run. split; [|split].
  - destruct (azure_main_requires_arguments _ PyStr.lower MD5.hexdigest MemCli.azure
                MemCli.environ 1 (args "delete" None (Some "eastus")) ∅) as (H & _).
    apply H; reflexivity.
  - destruct (azure_main_requires_arguments _ PyStr.lower MD5.hexdigest MemCli.azure
                MemCli.environ 1 (args "create" (Some "my-data") None) ∅) as (_ & H & _).
    apply H; reflexivity.
  - destruct (azure_main_requires_arguments _ PyStr.lower MD5.hexdigest MemCli.azure
                MemCli.environ 1 (args "list-accounts" (Some "rg") None) ∅) as (_ & _ & H).
    apply H; reflexivity.
Defined.

(** X17: the two listing actions of the Azure script cannot fail once the
    manager is constructed.  Whatever the provider answers afterwards, and
    even when the listing raises half way, list-containers ends with
    "Operation completed successfully" printed and [main] returns, and
    list-accounts returns as well: the exit status is 0. *)
Theorem azure_listing_always_succeeds W (str_lower md5_hexdigest : string -> string)
    (azure : AzureCli.Platform W) (client : AzureCli.Client W)
    (environ : gmap string string) (now : Z) (args : AzureCli.namespace)
    (subscription_id : string) (w w1 w2 : W) :
  environ !! "AZURE_SUBSCRIPTION_ID" = Some subscription_id ->
  subscription_id <> "" ->
  truthy (AzureCli.container_name args) = true ->
  truthy (AzureCli.region_arg args) = true ->
  AzureCli.DefaultAzureCredential azure w = (Ok tt, w1) ->
  AzureCli.StorageManagementClient azure subscription_id w1 = (Ok client, w2) ->
  let run := AzureCli.main str_lower md5_hexdigest azure environ now args in
  (AzureCli.action args = "list-containers" ->
   result run w = Returns tt
   /\ In (Printed AzureCli.OperationCompleted) (trace run w))
  /\ (AzureCli.action args = "list-accounts" -> result run w = Returns tt).
Proof.
  intros Henv Hsub Hc Hr Hcred Hclient run. subst run.
  assert (Htruthy : truthy (Some subscription_id) = true)
    by (destruct subscription_id; [congruence | reflexivity]).
  split; intros Hact; unfold AzureCli.main, AzureCli.__init__,
    AzureCli._get_subscription_id; rewrite Hact, Henv, Hc, Hr, Htruthy;
    generalize (Azure.generate_storage_account_name str_lower md5_hexdigest now
                  (default "" (AzureCli.container_name args))); intros account.
  - cli_run.
    cli_cases; rewrite ?for_each_printed; cli_simpl; (split; [reflexivity|]);
      repeat first [ solve [apply in_or_app; right; left; reflexivity]
                   | solve [left; reflexivity]
                   | right ].
  - cli_run. cli_cases; rewrite ?for_each_printed; cli_simpl; reflexivity.
Qed.

Lemma azure_listing_always_succeeds_witness :
  let args a := {| AzureCli.action := a; AzureCli.container_name := Some "my-data";
                   AzureCli.resource_group_arg := "rg";
                   AzureCli.region_arg := Some "eastus" |} in
  let run a := AzureCli.main PyStr.lower MD5.hexdigest MemCli.azure MemCli.environ
                 1700000000 (args a) in
  (result (run "list-containers") ∅ = Returns tt
   /\ In (Printed AzureCli.OperationCompleted) (trace (run "list-containers") ∅))
  /\ result (run "list-accounts") ∅ = Returns tt.
Proof.
  intros args run.
  assert (Hsub : "sub-1" <> "") by discriminate.
  split.
  - destruct (azure_listing_always_succeeds _ PyStr.lower MD5.hexdigest MemCli.azure
                MemCli.azure_client MemCli.environ 1700000000 (args "list-containers")
                "sub-1" ∅ ∅ ∅ eq_refl Hsub eq_refl eq_refl eq_refl eq_refl) as (H & _).
    apply H. reflexivity.
  - destruct (azure_listing_always_succeeds _ PyStr.lower MD5.hexdigest MemCli.azure
                MemCli.azure_client MemCli.environ 1700000000 (args "list-accounts")
                "sub-1" ∅ ∅ ∅ eq_refl Hsub eq_refl eq_refl eq_refl eq_refl) as (_ & H).
    apply H. reflexivity.
Defined.

(** Two clock readings that differ in their four low digits give two
    different account names to the same container. *)
Lemma generate_storage_account_name_differs
    (str_lower md5_hexdigest : string -> string) (c : string) (now1 now2 : Z) :
  1000 <= now1 -> 1000 <= now2 -> now1 mod 10000 <> now2 mod 10000 ->
  Azure.generate_storage_account_name str_lower md5_hexdigest now1 c
  <> Azure.generate_storage_account_name str_lower md5_hexdigest now2 c.
Proof.
  intros H1 H2 Hne Heq. apply Hne.
  rewrite !generate_untruncated, !account_timestamp_digits in Heq by assumption.
  apply append_inv_head in Heq.
  apply four_digits_inj; try (apply Z.mod_pos_bound; lia).
  unfold PyStr.four_digits in *. rewrite !append_cons, !append_nil in Heq.
  injection Heq as -> -> -> ->. reflexivity.
Qed.

Ltac memcli_unfold :=
  unfold MemCli.azure, MemCli.azure_client, MemCli.boto3 in *;
  cbn [AzureCli.DefaultAzureCredential AzureCli.StorageManagementClient
       AzureCli.storage AzureCli.az_list_containers
       AzureCli.az_list_by_resource_group AWSCli.boto3_client] in *;
  mem_unfold.

(** X18: through the command line, what create made delete does not find.
    On the in-memory provider, `create <container>` at one clock reading
    makes a storage account named after that reading and the container in
    it; `delete <container>` at a reading with other four low digits looks
    in an account of another name, reports that the container does not
    exist and is skipped, ends with status 0, and leaves the provider as it
    was: the container is still there. *)
Theorem azure_cli_delete_misses_created
    (str_lower md5_hexdigest : string -> string) (c rg r : string) (now1 now2 : Z) :
  c <> "" -> r <> "" ->
  1000 <= now1 -> 1000 <= now2 -> now1 mod 10000 <> now2 mod 10000 ->
  let args a := {| AzureCli.action := a; AzureCli.container_name := Some c;
                   AzureCli.resource_group_arg := rg; AzureCli.region_arg := Some r |} in
  let run now a := AzureCli.main str_lower md5_hexdigest MemCli.azure MemCli.environ
                     now (args a) in
  let account := Azure.generate_storage_account_name str_lower md5_hexdigest now1 c in
  let w1 := after (run now1 "create") ∅ in
  result (run now1 "create") ∅ = Returns tt
  /\ w1 !! account = Some {[c]}
  /\ result (run now2 "delete") w1 = Returns tt
  /\ In (Printed (AzureCli.Script (Azure.ContainerDoesNotExistSkipping c)))
        (trace (run now2 "delete") w1)
  /\ after (run now2 "delete") w1 = w1.
Proof.
  intros Hc Hr H1 H2 Hmod args run account w1.
  pose proof (generate_storage_account_name_differs str_lower md5_hexdigest c
                now1 now2 H1 H2 Hmod) as Hne.
  destruct c as [|c0 c']; [congruence|]. destruct r as [|r0 r']; [congruence|].
  assert (Hcreated : result (run now1 "create") ∅ = Returns tt
                     /\ w1 = <[account := {[String c0 c']}]> (<[account := ∅]> ∅)).
  { subst w1 run args account.
    unfold AzureCli.main, AzureCli.__init__, AzureCli._get_subscription_id.
    cbn [AzureCli.action AzureCli.container_name AzureCli.region_arg
         AzureCli.resource_group_arg from_option id].
    generalize (Azure.generate_storage_account_name str_lower md5_hexdigest now1
                  (String c0 c')); intros account.
    unfold MemCli.environ. rewrite lookup_singleton_eq.
    cli_run. memcli_unfold. cli_simpl.
    repeat first [rewrite lookup_empty | progress mem_lookup | progress cli_simpl].
    rewrite (right_id_L ∅ (∪)). split; reflexivity. }
  destruct Hcreated as [Hresult Hw1]. rewrite Hw1. clear Hw1 w1.
  split; [exact Hresult|]. split; [apply lookup_insert_eq|].
  subst run args account.
  unfold AzureCli.main, AzureCli.__init__, AzureCli._get_subscription_id.
  cbn [AzureCli.action AzureCli.container_name AzureCli.region_arg
       AzureCli.resource_group_arg from_option id].
  revert Hne.
  generalize (Azure.generate_storage_account_name str_lower md5_hexdigest now1
                (String c0 c')),
             (Azure.generate_storage_account_name str_lower md5_hexdigest now2
                (String c0 c')).
  intros account other Hne.
  unfold MemCli.environ. rewrite lookup_singleton_eq.
  cli_run. memcli_unfold. cli_simpl.
  repeat first [ rewrite lookup_insert_ne by congruence
               | rewrite lookup_empty
               | progress cli_simpl ].
  repeat split. cbn. auto 10.
Qed.

Lemma azure_cli_delete_misses_created_witness :
  let args a := {| AzureCli.action := a; AzureCli.container_name := Some "my-data";
                   AzureCli.resource_group_arg := "rg";
                   AzureCli.region_arg := Some "eastus" |} in
  let run now a := AzureCli.main PyStr.lower MD5.hexdigest MemCli.azure MemCli.environ
                     now (args a) in
  let account :=
    Azure.generate_storage_account_name PyStr.lower MD5.hexdigest 1700000000 "my-data" in
  let w1 := after (run 1700000000 "create") ∅ in
  result (run 1700000000 "create") ∅ = Returns tt
  /\ w1 !! account = Some {["my-data"]}
  /\ result (run 1700000060 "delete") w1 = Returns tt
  /\ In (Printed (AzureCli.Script (Azure.ContainerDoesNotExistSkipping "my-data")))
        (trace (run 1700000060 "delete") w1)
  /\ after (run 1700000060 "delete") w1 = w1.
Proof.
  apply (azure_cli_delete_misses_created PyStr.lower MD5.hexdigest
           "my-data" "rg" "eastus" 1700000000 1700000060);
    first [discriminate | lia | (vm_compute; discriminate)].
Defined.

(* ===================================================================== *)
(** * Azure: where the exceptions of the provider end *)
(* ===================================================================== *)

(** A function called through [embed] that returns on its own returns
    there as well. *)
Lemma embed_returns {W C C' E P P' A} (fc : C -> C') (fp : P -> P')
    (x : M W C E P A) (m : machine W C' E P') :
  (exists a, result x (cloud m) = Returns a) ->
  exists a m', embed fc fp x m = (Returns a, m').
Proof.
  unfold embed, result. destruct (x (boot (cloud m))) as [r m'].
  intros [a Ha]. cbn [fst] in Ha. subst r. eauto.
Qed.

(** The methods of the manager that change or inspect storage return a
    boolean, whatever the SDK does. *)
Lemma azure_methods_return W (az : Azure.SDK W) (self : Azure.manager)
    (acct c : string) (w : W) :
  (exists b, result (Azure.storage_account_exists az self acct) w = Returns b)
  /\ (exists b, result (Azure.create_container az self acct c) w = Returns b)
  /\ (exists b, result (Azure.delete_container az self acct c) w = Returns b)
  /\ (exists b, result (Azure.check_container az self acct c) w = Returns b).
Proof.
  repeat apply conj; py_run; py_cases; eauto.
Qed.

(** Replace a method called through [embed] by the boolean it returns. *)
Ltac embedded_method :=
  match goal with
  | |- context [embed ?fc ?fp ?x ?m] =>
      let Hx := fresh "Hx" in
      assert (Hx : exists b, result x (cloud m) = Returns b)
        by first [ apply (azure_methods_return _ _ _ _ "")
                 | apply azure_methods_return ];
      apply (embed_returns fc fp) in Hx as (? & ? & ->)
  end.

(** [main] ends in one of three ways: it returns, it exits with status 1,
    or it exits with status 2 from [parser.error] before any call. *)
Lemma main_ending W (str_lower md5_hexdigest : string -> string)
    (azure : AzureCli.Platform W) (environ : gmap string string) (now : Z)
    (args : AzureCli.namespace) (w : W) :
  let run := AzureCli.main str_lower md5_hexdigest azure environ now args in
  result run w = Returns tt \/ result run w = Exits 1
  \/ (result run w = Exits 2 /\ calls (trace run w) = []).
Proof.
  intros run. subst run.
  unfold AzureCli.main, AzureCli.__init__, AzureCli._get_subscription_id,
    AzureCli.parser_error.
  generalize (Azure.generate_storage_account_name str_lower md5_hexdigest now
                (default "" (AzureCli.container_name args))). intros account.
  unfold AzureCli.list_containers, AzureCli.list_storage_accounts,
    AzureCli.iterate, AzureCli.paged_call.
  unfold result, trace, mbind, mret, M_bind, M_ret, bind, ret,
    try_except, sdk, print, sys_exit, raise, boot.
  destruct (AzureCli.needs_container (AzureCli.action args)
            && negb (truthy (AzureCli.container_name args))); [cbn; auto|].
  destruct (AzureCli.needs_container (AzureCli.action args)
            && negb (truthy (AzureCli.region_arg args))); [cbn; auto|].
  destruct (String.eqb (AzureCli.action args) "list-accounts"
            && negb (truthy (AzureCli.region_arg args))); [cbn; auto|].
  cli_simpl.
  repeat first [ embedded_method; cli_simpl
              | rewrite for_each_printed; cli_simpl
              | cli_case
              | progress (unfold embed, Azure._get_blob_service_client;
                          unfold mbind, mret, M_bind, M_ret, bind, ret, try_except,
                            sdk, print, raise, boot; cli_simpl) ]; auto.
Qed.

(** X19: once [main] of the Azure script has made its first provider call,
    no exception leaves it.  Whatever the arguments, the environment, the
    clock and the provider, and whatever the provider raises or returns, a
    run that made a call ends by returning or through [sys.exit(1)].  When
    the credential or the management client cannot be constructed,
    [__init__] logs "Failed to initialize Azure clients" and the run exits
    with status 1 before any storage call. *)
Theorem azure_main_contains_provider_exceptions W
    (str_lower md5_hexdigest : string -> string)
    (azure : AzureCli.Platform W) (environ : gmap string string) (now : Z)
    (args : AzureCli.namespace) (w : W) :
  let run := AzureCli.main str_lower md5_hexdigest azure environ now args in
  let banner := Printed (AzureCli.Banner (AzureCli.action args)
                           (AzureCli.container_name args)
                           (AzureCli.resource_group_arg args)
                           (AzureCli.region_arg args)) in
  (calls (trace run w) <> [] ->
   result run w = Returns tt \/ result run w = Exits 1)
  /\ (forall e w1,
      truthy (AzureCli.container_name args) = true ->
      truthy (AzureCli.region_arg args) = true ->
      AzureCli.DefaultAzureCredential azure w = (Err e, w1) ->
      run (boot w)
      = (Exits 1,
         Machine w1 [banner; Called AzureCli.NewCredential (Some e);
                     Printed (AzureCli.FailedToInitialize e)]))
  /\ (forall subscription_id e w1 w2,
      truthy (AzureCli.container_name args) = true ->
      truthy (AzureCli.region_arg args) = true ->
      environ !! "AZURE_SUBSCRIPTION_ID" = Some subscription_id ->
      subscription_id <> "" ->
      AzureCli.DefaultAzureCredential azure w = (Ok tt, w1) ->
      AzureCli.StorageManagementClient azure subscription_id w1 = (Err e, w2) ->
      run (boot w)
      = (Exits 1,
         Machine w2 [banner; Called AzureCli.NewCredential None;
                     Called (AzureCli.NewManagementClient subscription_id) (Some e);
                     Printed (AzureCli.FailedToInitialize e)])).
Proof.
  intros run banner. subst run banner. repeat apply conj.
  - intros Hcalled.
    destruct (main_ending W str_lower md5_hexdigest azure environ now args w)
      as [H|[H|[_ H]]]; auto.
    contradiction.
  - intros e w1 Hc Hr Hcred.
    unfold AzureCli.main, AzureCli.__init__, AzureCli._get_subscription_id.
    rewrite Hc, Hr, !andb_false_r. cli_run. reflexivity.
  - intros subscription_id e w1 w2 Hc Hr Henv Hsub Hcred Hclient.
    assert (Htruthy : truthy (Some subscription_id) = true)
      by (destruct subscription_id; [congruence | reflexivity]).
    unfold AzureCli.main, AzureCli.__init__, AzureCli._get_subscription_id.
    rewrite Hc, Hr, Henv, Htruthy, !andb_false_r. cli_run. reflexivity.
Qed.

Lemma azure_main_contains_provider_exceptions_witness :
  let args := {| AzureCli.action := "create";
                 AzureCli.container_name := Some "my-data";
                 AzureCli.resource_group_arg := "rg";
                 AzureCli.region_arg := Some "eastus" |} in
  let unavailable := Azure.OtherException "CredentialUnavailableError" in
  let no_credential : AzureCli.Platform MemAzure.store :=
    {| AzureCli.DefaultAzureCredential := fun w => (Err unavailable, w);
       AzureCli.StorageManagementClient := fun _ w => (Ok MemCli.azure_client, w) |} in
  let no_client : AzureCli.Platform MemAzure.store :=
    {| AzureCli.DefaultAzureCredential := fun w => (Ok tt, w);
       AzureCli.StorageManagementClient := fun _ w => (Err unavailable, w) |} in
  let run platform :=
    AzureCli.main PyStr.lower MD5.hexdigest platform MemCli.environ 1700000000 args in
  let banner := Printed (AzureCli.Banner "create" (Some "my-data") "rg" (Some "eastus")) in
  (result (run MemCli.azure) ∅ = Returns tt \/ result (run MemCli.azure) ∅ = Exits 1)
  /\ run no_credential (boot ∅)
     = (Exits 1,
        Machine ∅ [banner; Called AzureCli.NewCredential (Some unavailable);
                   Printed (AzureCli.FailedToInitialize unavailable)])
  /\ run no_client (boot ∅)
     = (Exits 1,
        Machine ∅ [banner; Called AzureCli.NewCredential None;
                   Called (AzureCli.NewManagementClient "sub-1") (Some unavailable);
                   Printed (AzureCli.FailedToInitialize unavailable)]).
Proof.
  intros args unavailable no_credential no_client run banner.
  assert (Hsub : "sub-1" <> "") by discriminate.
  split; [|split].
  - destruct (azure_main_contains_provider_exceptions _ PyStr.lower MD5.hexdigest
                MemCli.azure MemCli.environ 1700000000 args ∅) as (Hcaught & _).
    apply Hcaught. vm_compute. discriminate.
  - destruct (azure_main_contains_provider_exceptions _ PyStr.lower MD5.hexdigest
                no_credential MemCli.environ 1700000000 args ∅) as (_ & Hcred & _).
    apply (Hcred unavailable ∅); reflexivity.
  - destruct (azure_main_contains_provider_exceptions _ PyStr.lower MD5.hexdigest
                no_client MemCli.environ 1700000000 args ∅) as (_ & _ & Hclient).
    apply (Hclient "sub-1" unavailable ∅ ∅); first [reflexivity | exact Hsub].
Defined.

(* ===================================================================== *)
(** * More on the storage-account name *)
(* ===================================================================== *)

(** X20: from clock reading 1000 on and with a 32-character digest, the
    generated storage-account name has between 8 and 23 characters, so it
    meets the 3 to 24 of the comment at line 49 and the final [[:24]] never
    cuts; its last 8 characters are the four low digits of the clock and
    the first four characters of the digest; and the part before them, the
    container name lowercased and cut to 15, holds no dash. *)
Theorem generate_storage_account_name_bounds
    (str_lower md5_hexdigest : string -> string) (now : Z) (container_name : string) :
  1000 <= now ->
  String.length (md5_hexdigest container_name) = 32%nat ->
  let account :=
    Azure.generate_storage_account_name str_lower md5_hexdigest now container_name in
  let prefix := Azure.account_prefix str_lower container_name in
  (8 <= String.length account <= 23)%nat
  /\ account = prefix ++ PyStr.four_digits (now mod 10000)
                      ++ PyStr.slice_to 4 (md5_hexdigest container_name)
  /\ String.length account = (String.length prefix + 8)%nat
  /\ ~ In "-"%char (list_ascii_of_string prefix).
Proof.
  intros Hnow Hmd5 account prefix. subst account prefix.
  rewrite generate_untruncated, account_timestamp_digits by assumption.
  pose proof (account_prefix_length str_lower container_name) as Hp.
  pose proof (account_hash_suffix_length_md5 md5_hexdigest container_name Hmd5)
    as Hh.
  unfold Azure.account_hash_suffix in *.
  rewrite !length_append, Hh.
  change (String.length (PyStr.four_digits (now mod 10000))) with 4%nat.
  repeat split; try lia.
  intros Hin. unfold Azure.account_prefix in Hin.
  apply slice_to_subset in Hin. exact (remove_char_absent _ _ Hin).
Qed.

Lemma generate_storage_account_name_bounds_witness :
  let account := Azure.generate_storage_account_name_ascii 1700000012 "My-Data" in
  let prefix := Azure.account_prefix PyStr.lower "My-Data" in
  (8 <= String.length account <= 23)%nat
  /\ account = prefix ++ PyStr.four_digits (1700000012 mod 10000)
                      ++ PyStr.slice_to 4 (MD5.hexdigest "My-Data")
  /\ String.length account = (String.length prefix + 8)%nat
  /\ ~ In "-"%char (list_ascii_of_string prefix).
Proof.
  apply (generate_storage_account_name_bounds PyStr.lower MD5.hexdigest
           1700000012 "My-Data"); [lia | apply hexdigest_length].
Defined.
